(** * Community Crime Reporting: a shallow embedding of the client components

    The repository is a React/TypeScript client of a hosted backend
    (Supabase).  This development embeds the event handlers of the view
    components as functions over an explicit component state and an explicit
    backend state, and proves properties of them.

    Conventions.
    - React state of a component is a record; a handler maps the state it
      closes over (and the backend) to the state after all its [set...]
      calls have been applied.
    - The backend is a record of tables together with the log of the write
      requests it received.  Whether the backend accepts a request (row-level
      security, constraints, network) is not decided by this repository: it
      is a parameter of the model.
    - A JavaScript number is [NaN], one of the two infinities, or a double,
      held as the rational it is; a decimal text is rounded to the nearest
      double, ties to even.  The sign of zero is not kept.
    - A string is held as the bytes of its UTF-8 form. *)

From Stdlib Require Import Bool Ascii String List ZArith NArith QArith.
From Stdlib Require Import Qreduction Qpower Lia Permutation Sorted Reals Lra.
From Stdlib Require OrderedTypeEx.
Import ListNotations.

Local Open Scope string_scope.
Local Open Scope list_scope.

(* ================================================================== *)
(** * JavaScript values used by the components *)

Module JS.

(** The Number type: a finite value, [NaN], [+Infinity], [-Infinity]. *)
Inductive number : Type :=
| NaN
| PosInfinity
| NegInfinity
| Finite (q : Q).

Definition of_Z (z : Z) : number := Finite (inject_Z z).

(** [a >= b] on numbers: every comparison with [NaN] is false. *)
Definition ge (a b : number) : bool :=
  match a, b with
  | NaN, _ | _, NaN => false
  | PosInfinity, _ => true
  | _, NegInfinity => true
  | NegInfinity, _ => false
  | _, PosInfinity => false
  | Finite p, Finite q => Qle_bool q p
  end.

Definition le (a b : number) : bool := ge b a.

(** Truthiness of a string: [!s] holds exactly for the empty string. *)
Definition falsy (s : string) : bool :=
  match s with
  | EmptyString => true
  | String _ _ => false
  end.

(** [a || b] on strings. *)
Definition or_else (a b : string) : string := if falsy a then b else a.

(** [a || null] on strings. *)
Definition or_null (a : string) : option string :=
  if falsy a then None else Some a.

(** ** parseFloat

    The longest prefix of the trimmed input that is a StrDecimalLiteral
    gives the value, rounded to a double; [NaN] when there is none. *)

Definition is_digit (c : ascii) : bool :=
  let n := N_of_ascii c in ((48 <=? n) && (n <=? 57))%N.

Definition digit_value (c : ascii) : N := (N_of_ascii c - 48)%N.

(** StrWhiteSpaceChar, by the length of its UTF-8 form.  One byte: TAB,
    LF, VT, FF, CR, SP.  Two bytes: U+00A0.  Three bytes: U+1680,
    U+2000..U+200A, U+2028, U+2029, U+202F, U+205F, U+3000, U+FEFF. *)
Definition is_white_space (c : ascii) : bool :=
  let n := N_of_ascii c in
  ((9 <=? n) && (n <=? 13) || (n =? 32))%N.

Definition is_white_space2 (c1 c2 : ascii) : bool :=
  ((N_of_ascii c1 =? 194) && (N_of_ascii c2 =? 160))%N.

Definition is_white_space3 (c1 c2 c3 : ascii) : bool :=
  let a := N_of_ascii c1 in
  let b := N_of_ascii c2 in
  let c := N_of_ascii c3 in
  ((a =? 225) && (b =? 154) && (c =? 128)
   || (a =? 226) && (b =? 128)
      && ((128 <=? c) && (c <=? 138) || (c =? 168) || (c =? 169)
          || (c =? 175))
   || (a =? 226) && (b =? 129) && (c =? 159)
   || (a =? 227) && (b =? 128) && (c =? 128)
   || (a =? 239) && (b =? 187) && (c =? 191))%N.

(** What follows the first character of [s], when that character is white
    space. *)
Definition skip_white_space (s : string) : option string :=
  match s with
  | String c1 r1 =>
      if is_white_space c1 then Some r1
      else
        match r1 with
        | String c2 r2 =>
            if is_white_space2 c1 c2 then Some r2
            else
              match r2 with
              | String c3 r3 =>
                  if is_white_space3 c1 c2 c3 then Some r3 else None
              | EmptyString => None
              end
        | EmptyString => None
        end
  | EmptyString => None
  end.

(** At most [fuel] white space characters are dropped from the start. *)
Fixpoint drop_white_space (fuel : nat) (s : string) : string :=
  match fuel with
  | O => s
  | S f =>
      match skip_white_space s with
      | Some r => drop_white_space f r
      | None => s
      end
  end.

(** [s.trimStart()]: a string has no more characters than bytes. *)
Definition trimStart (s : string) : string :=
  drop_white_space (String.length s) s.

(** Longest prefix of decimal digits, and what follows it. *)
Fixpoint span_digits (s : string) : list ascii * string :=
  match s with
  | String c r =>
      if is_digit c
      then let (ds, rest) := span_digits r in (c :: ds, rest)
      else ([], s)
  | EmptyString => ([], EmptyString)
  end.

Definition digits_value (ds : list ascii) : N :=
  fold_left (fun acc c => (10 * acc + digit_value c)%N) ds 0%N.

(** [expect c s]: what follows [c] when [s] starts with it. *)
Definition expect (c : ascii) (s : string) : option string :=
  match s with
  | String c' r => if Ascii.eqb c c' then Some r else None
  | EmptyString => None
  end.

(** Sign prefix: [true] for a leading minus. *)
Definition split_sign (s : string) : bool * string :=
  match expect "-" s with
  | Some r => (true, r)
  | None =>
      match expect "+" s with
      | Some r => (false, r)
      | None => (false, s)
      end
  end.

(** ExponentPart, when a complete one is present; 0 otherwise. *)
Definition exponent_part (s : string) : Z :=
  match s with
  | String c r =>
      if (Ascii.eqb c "e" || Ascii.eqb c "E")%bool then
        let (neg, r') := split_sign r in
        match span_digits r' with
        | ([], _) => 0%Z
        | (ds, _) =>
            let e := Z.of_N (digits_value ds) in
            if neg then (- e)%Z else e
        end
      else 0%Z
  | EmptyString => 0%Z
  end.

Definition decimal (neg : bool) (mantissa : N) (exp10 : Z) : Q :=
  let m := inject_Z (Z.of_N mantissa) in
  Qred ((if neg then Qopp m else m) * Qpower (10 # 1) exp10).

Definition is_finite (x : number) : bool :=
  match x with
  | Finite _ => true
  | _ => false
  end.

(** ** Rounding to a double

    The integer nearest to [n / d], the even one of two that are equally
    near. *)
Definition round_half_even (n d : Z) : Z :=
  let q := (n / d)%Z in
  match (2 * (n mod d) ?= d)%Z with
  | Lt => q
  | Gt => (q + 1)%Z
  | Eq => if Z.even q then q else (q + 1)%Z
  end.

(** The integer part of the binary logarithm of [n / d], both positive. *)
Definition floor_log2 (n d : Z) : Z :=
  let l := (Z.log2 n - Z.log2 d)%Z in
  if (d * 2 ^ Z.max 0 l <=? n * 2 ^ Z.max 0 (- l))%Z then l
  else (l - 1)%Z.

(** The double nearest to a positive [n / d], as [m * 2 ^ e]: a significand
    of 53 bits, and no exponent below -1074. *)
Definition nearest (n d : Z) : Z * Z :=
  let e := Z.max (floor_log2 n d - 52) (-1074) in
  (round_half_even (n * 2 ^ Z.max 0 (- e)) (d * 2 ^ Z.max 0 e), e).

(** The Number value for a rational: the nearest double, an infinity from
    [2 ^ 1024] on. *)
Definition to_double (q : Q) : number :=
  let r := Qred q in
  let n := Z.abs (Qnum r) in
  if (n =? 0)%Z then Finite 0
  else
    let (m, e) := nearest n (Z.pos (Qden r)) in
    if (2 ^ 1024 <=? m * 2 ^ Z.max 0 e)%Z
    then (if (Qnum r <? 0)%Z then NegInfinity else PosInfinity)
    else
      Finite
        (Qred (inject_Z (if (Qnum r <? 0)%Z then (- m)%Z else m)
               * Qpower 2 e)).

(** The digits after a decimal point, when there is one. *)
Definition fraction (s : string) : list ascii * string :=
  match expect "." s with
  | Some r => span_digits r
  | None => ([], s)
  end.

(** The value of the longest StrUnsignedDecimalLiteral that starts [s]. *)
Definition parse_unsigned (neg : bool) (s : string) : number :=
  if String.prefix "Infinity" s
  then (if neg then NegInfinity else PosInfinity)
  else
    let (int_part, s2) := span_digits s in
    let (frac_part, s3) := fraction s2 in
    match int_part, frac_part with
    | [], [] => NaN
    | _, _ =>
        to_double
          (decimal neg (digits_value (int_part ++ frac_part))
             (exponent_part s3 - Z.of_nat (List.length frac_part)))
    end.

Definition parseFloat (input : string) : number :=
  let (neg, s) := split_sign (trimStart input) in
  parse_unsigned neg s.

(** ** Decimal numerals

    The text of a decimal numeral: a minus sign or none, digits, and a
    point with more digits when there are any; and the rational that the
    numeral denotes. *)
Definition numeral (neg : bool) (ints fracs : list ascii) : string :=
  string_of_list_ascii
    ((if neg then ["-"%char] else [])
     ++ ints
     ++ match fracs with
        | [] => []
        | _ :: _ => "."%char :: fracs
        end).

Definition numeral_value (neg : bool) (ints fracs : list ascii) : Q :=
  (if neg then - (1) else 1)
  * inject_Z (Z.of_N (digits_value (ints ++ fracs)))
  / inject_Z (10 ^ Z.of_nat (List.length fracs)).

(** ** String methods *)

(** A string made of white space only. *)
Definition blank (s : string) : bool := falsy (trimStart s).

(** [s.trimEnd()]: the string up to where only white space follows. *)
Fixpoint trimEnd (s : string) : string :=
  match s with
  | EmptyString => EmptyString
  | String c r => if blank s then EmptyString else String c (trimEnd r)
  end.

(** [s.trim()]. *)
Definition trim (s : string) : string := trimEnd (trimStart s).

(** [s.replace(a, b)] for one-character strings [a] and [b]: a string
    pattern replaces the first occurrence only. *)
Fixpoint replace_first (a b : ascii) (s : string) : string :=
  match s with
  | EmptyString => EmptyString
  | String c r =>
      if Ascii.eqb c a then String b r else String c (replace_first a b r)
  end.

(** How often a character occurs in a string. *)
Definition occurrences (a : ascii) (s : string) : nat :=
  List.length (List.filter (Ascii.eqb a) (list_ascii_of_string s)).

(** ** Number.prototype.toString

    A finite number is printed from the decimal that identifies it: sign,
    significand and power of ten, the number being the double nearest to
    that decimal.  Finding the decimal from the bits of a double is not
    modelled. *)
Record decimal_repr : Type := mkDecimal {
  negative : bool;
  significand : N;
  exponent10 : Z;
  in_range :
    is_finite (to_double (decimal negative significand exponent10)) = true
}.

Definition to_number (x : decimal_repr) : number :=
  to_double (decimal (negative x) (significand x) (exponent10 x)).

Definition digit_char (d : N) : ascii := ascii_of_N (48 + d).

(** The decimal digits of a number, least significant first. *)
Fixpoint digits_rev (fuel : nat) (n : N) : list ascii :=
  match fuel with
  | O => []
  | S f =>
      if (n <? 10)%N then [digit_char n]
      else digit_char (n mod 10) :: digits_rev f (n / 10)
  end.

Definition digits_of (n : N) : list ascii :=
  rev (digits_rev (S (N.to_nat (N.log2 n))) n).

(** The significand without its trailing zeros, which go to the exponent. *)
Fixpoint strip_zeros (fuel : nat) (s : N) (e : Z) : N * Z :=
  match fuel with
  | O => (s, e)
  | S f =>
      if ((s =? 0) || negb (s mod 10 =? 0))%N then (s, e)
      else strip_zeros f (s / 10) (e + 1)
  end.

(** "e", the sign, and the digits of the exponent [n - 1]. *)
Definition exponent_suffix (n : Z) : list ascii :=
  "e"%char :: (if (n - 1 <? 0)%Z then "-"%char else "+"%char)
  :: digits_of (Z.to_N (Z.abs (n - 1))).

(** Number::toString for a positive number with digits [s] and exponent
    [e]: [k] digits, the decimal point after the first [n]. *)
Definition unsigned_toString (s : N) (e : Z) : list ascii :=
  let ds := digits_of s in
  let k := Z.of_nat (List.length ds) in
  let n := (k + e)%Z in
  if ((k <=? n) && (n <=? 21))%Z then
    ds ++ repeat "0"%char (Z.to_nat (n - k))
  else if ((0 <? n) && (n <=? 21))%Z then
    firstn (Z.to_nat n) ds ++ "."%char :: skipn (Z.to_nat n) ds
  else if ((-6 <? n) && (n <=? 0))%Z then
    "0"%char :: "."%char :: repeat "0"%char (Z.to_nat (- n)) ++ ds
  else
    match ds with
    | [] => []
    | [d] => d :: exponent_suffix n
    | d :: rest => d :: "."%char :: rest ++ exponent_suffix n
    end.

Definition Number_toString (x : decimal_repr) : string :=
  if (significand x =? 0)%N then "0"
  else
    let (s, e) :=
      strip_zeros (S (N.to_nat (N.log2 (significand x)))) (significand x)
        (exponent10 x) in
    string_of_list_ascii
      ((if negative x then ["-"%char] else []) ++ unsigned_toString s e).

End JS.

(* ================================================================== *)
(** * lib/supabase: row types and the backend *)

Module Supabase.

Inductive Status : Type := pending | verified | reported_to_saps | resolved.
Inductive Severity : Type := low | medium | high | critical.
Inductive AlertType : Type := incident | hotspot | community.

(** The string literals of the union types. *)
Definition Status_literal (s : Status) : string :=
  match s with
  | pending => "pending"
  | verified => "verified"
  | reported_to_saps => "reported_to_saps"
  | resolved => "resolved"
  end.

Definition Status_of_literal (s : string) : option Status :=
  if String.eqb s "pending" then Some pending
  else if String.eqb s "verified" then Some verified
  else if String.eqb s "reported_to_saps" then Some reported_to_saps
  else if String.eqb s "resolved" then Some resolved
  else None.

Definition Status_eqb (a b : Status) : bool :=
  match a, b with
  | pending, pending | verified, verified
  | reported_to_saps, reported_to_saps | resolved, resolved => true
  | _, _ => false
  end.

Definition Severity_eqb (a b : Severity) : bool :=
  match a, b with
  | low, low | medium, medium | high, high | critical, critical => true
  | _, _ => false
  end.

Definition Severity_literal (s : Severity) : string :=
  match s with
  | low => "low"
  | medium => "medium"
  | high => "high"
  | critical => "critical"
  end.

Definition AlertType_literal (t : AlertType) : string :=
  match t with
  | incident => "incident"
  | hotspot => "hotspot"
  | community => "community"
  end.

Module Incident.
Record t : Type := mk {
  id : string;
  reporter_id : string;
  type : string;
  description : string;
  location_lat : JS.number;
  location_lng : JS.number;
  location_address : option string;
  status : Status;
  severity : Severity;
  timestamp : string;
  created_at : string;
  updated_at : string
}.
End Incident.

Module Hotspot.
Record t : Type := mk {
  id : string;
  location_lat : JS.number;
  location_lng : JS.number;
  radius_meters : JS.number;
  crime_count : JS.number;
  severity_score : JS.number;
  dominant_crime_type : option string;
  last_updated : string;
  created_at : string
}.
End Hotspot.

Module Alert.
Record t : Type := mk {
  id : string;
  user_id : string;
  incident_id : option string;
  hotspot_id : option string;
  title : string;
  message : string;
  alert_type : AlertType;
  is_read : bool;
  created_at : string
}.

(** The object spread [{ ...alert, is_read: b }]. *)
Definition with_is_read (b : bool) (a : t) : t :=
  mk (id a) (user_id a) (incident_id a) (hotspot_id a) (title a)
     (message a) (alert_type a) b (created_at a).
End Alert.

Module NeighbourhoodWatchGroup.
Record t : Type := mk {
  id : string;
  name : string;
  description : option string;
  location_lat : JS.number;
  location_lng : JS.number;
  coverage_radius_meters : JS.number;
  created_by : string;
  created_at : string;
  updated_at : string
}.
End NeighbourhoodWatchGroup.

(** A row of [group_members], with the columns the components write. *)
Module GroupMember.
Record t : Type := mk {
  group_id : string;
  user_id : string;
  role : string
}.
End GroupMember.

(** ** The object literals passed to [insert] *)

Module NewIncident.
Record t : Type := mk {
  reporter_id : string;
  type : string;
  description : string;
  location_lat : JS.number;
  location_lng : JS.number;
  location_address : option string;
  severity : Severity;
  timestamp : string;
  status : Status
}.
End NewIncident.

Module NewGroup.
Record t : Type := mk {
  name : string;
  description : string;
  location_lat : JS.number;
  location_lng : JS.number;
  coverage_radius_meters : JS.number;
  created_by : string
}.
End NewGroup.

(** ** Write requests issued by the components *)

Inductive Request : Type :=
| InsertIncident (row : NewIncident.t)
    (* from('incidents').insert(row) *)
| InsertGroup (row : NewGroup.t)
    (* from('neighbourhood_watch_groups').insert(row).select().single() *)
| InsertGroupMember (row : GroupMember.t)
    (* from('group_members').insert(row) *)
| DeleteGroupMember (group_id user_id : string)
    (* from('group_members').delete().eq('group_id', g).eq('user_id', u) *)
| MarkAlertRead (alertId : string)
    (* from('alerts').update({is_read: true}).eq('id', alertId) *)
| MarkUnreadAlertsRead (user_id : string).
    (* from('alerts').update({is_read: true})
         .eq('user_id', u).eq('is_read', false) *)

Record PostgrestError : Type := mkError { error_message : string }.

Record Db : Type := mkDb {
  incidents : list Incident.t;
  hotspots : list Hotspot.t;
  alerts : list Alert.t;
  neighbourhood_watch_groups : list NeighbourhoodWatchGroup.t;
  group_members : list GroupMember.t;
  received : list Request   (* every write request, accepted or not *)
}.

(** What the hosted backend decides and this repository does not: which
    requests it refuses, the defaults of generated columns, and the order
    of its timestamp columns.  A read request is named by its table, and by
    its path and query where a component makes several on one table; each
    name fails or succeeds on its own. *)
Record Server : Type := mkServer {
  refuses : Request -> Db -> option PostgrestError;
  select_fails : string -> Db -> option PostgrestError;
  gen_random_uuid : Db -> string;
  now : Db -> string;
  timestamp_leb : string -> string -> bool
}.

(** [.order(column, { ascending: false })], for a column ordered by [leb]:
    each row is put before the first row that is not later than it. *)
Fixpoint insert_desc {A K : Type} (leb : K -> K -> bool) (key : A -> K)
         (x : A) (l : list A) : list A :=
  match l with
  | [] => [x]
  | y :: l' =>
      if leb (key y) (key x) then x :: l
      else y :: insert_desc leb key x l'
  end.

Definition order_desc {A K : Type} (leb : K -> K -> bool) (key : A -> K)
           (l : list A) : list A :=
  fold_right (insert_desc leb key) [] l.

(** Rows in descending order of their keys: each row is at least as late
    as every row after it. *)
Definition descending {A K : Type} (leb : K -> K -> bool) (key : A -> K)
           (l : list A) : Prop :=
  StronglySorted (fun x y => leb (key y) (key x) = true) l.

Section Backend.
Variable srv : Server.

Definition new_incident_row (r : NewIncident.t) (db : Db) : Incident.t :=
  Incident.mk (gen_random_uuid srv db)
    (NewIncident.reporter_id r) (NewIncident.type r)
    (NewIncident.description r)
    (NewIncident.location_lat r) (NewIncident.location_lng r)
    (NewIncident.location_address r)
    (NewIncident.status r) (NewIncident.severity r)
    (NewIncident.timestamp r) (now srv db) (now srv db).

Definition new_group_row (r : NewGroup.t) (db : Db)
  : NeighbourhoodWatchGroup.t :=
  NeighbourhoodWatchGroup.mk (gen_random_uuid srv db)
    (NewGroup.name r) (Some (NewGroup.description r))
    (NewGroup.location_lat r) (NewGroup.location_lng r)
    (NewGroup.coverage_radius_meters r) (NewGroup.created_by r)
    (now srv db) (now srv db).

Definition member_matches (g u : string) (m : GroupMember.t) : bool :=
  String.eqb (GroupMember.group_id m) g
  && String.eqb (GroupMember.user_id m) u.

Definition mark_read_if (p : Alert.t -> bool) (a : Alert.t) : Alert.t :=
  if p a then Alert.with_is_read true a else a.

(** The effect of an accepted request on the tables. *)
Definition apply_request (q : Request) (db : Db) : Db :=
  match q with
  | InsertIncident r =>
      mkDb (incidents db ++ [new_incident_row r db]) (hotspots db)
           (alerts db) (neighbourhood_watch_groups db) (group_members db)
           (received db)
  | InsertGroup r =>
      mkDb (incidents db) (hotspots db) (alerts db)
           (neighbourhood_watch_groups db ++ [new_group_row r db])
           (group_members db) (received db)
  | InsertGroupMember r =>
      mkDb (incidents db) (hotspots db) (alerts db)
           (neighbourhood_watch_groups db) (group_members db ++ [r])
           (received db)
  | DeleteGroupMember g u =>
      mkDb (incidents db) (hotspots db) (alerts db)
           (neighbourhood_watch_groups db)
           (filter (fun m => negb (member_matches g u m))
                   (group_members db))
           (received db)
  | MarkAlertRead alertId =>
      mkDb (incidents db) (hotspots db)
           (map (mark_read_if (fun a => String.eqb (Alert.id a) alertId))
                (alerts db))
           (neighbourhood_watch_groups db) (group_members db)
           (received db)
  | MarkUnreadAlertsRead u =>
      mkDb (incidents db) (hotspots db)
           (map (mark_read_if
                   (fun a => String.eqb (Alert.user_id a) u
                             && Bool.eqb (Alert.is_read a) false))
                (alerts db))
           (neighbourhood_watch_groups db) (group_members db)
           (received db)
  end.

Definition log_request (q : Request) (db : Db) : Db :=
  mkDb (incidents db) (hotspots db) (alerts db)
       (neighbourhood_watch_groups db) (group_members db)
       (received db ++ [q]).

(** One awaited write: the request is logged; it changes the tables only
    when the backend accepts it.  The result is the [error] field of the
    response. *)
Definition send (q : Request) (db : Db) : Db * option PostgrestError :=
  match refuses srv q db with
  | Some e => (log_request q db, Some e)
  | None => (log_request q (apply_request q db), None)
  end.

End Backend.

End Supabase.

(* ================================================================== *)
(** * Browser form validation

    The attributes written in the JSX ([required], [max], [type="number"],
    [type="datetime-local"]) are enforced by the browser before it fires the
    [submit] event.  Only what those attributes need is modelled. *)

Module HTML.

Definition two_digits (s : string) : option (N * string) :=
  match JS.span_digits s with
  | ([a; b], rest) => Some (JS.digits_value [a; b], rest)
  | _ => None
  end.

Definition is_leap_year (y : N) : bool :=
  ((y mod 400 =? 0) || ((y mod 4 =? 0) && negb (y mod 100 =? 0)))%N.

Definition days_in_month (y m : N) : N :=
  if (m =? 2)%N then (if is_leap_year y then 29 else 28)%N
  else if ((m =? 4) || (m =? 6) || (m =? 9) || (m =? 11))%N then 30%N
  else 31%N.

(** Seconds and fraction of a time string, in milliseconds; the input is
    what follows the minutes. *)
Definition parse_seconds (s : string) : option (N * string) :=
  match JS.expect ":" s with
  | None => Some (0%N, s)
  | Some r =>
      match two_digits r with
      | None => None
      | Some (sec, r1) =>
          if (59 <? sec)%N then None else
          match JS.expect "." r1 with
          | None => Some ((sec * 1000)%N, r1)
          | Some r2 =>
              match JS.span_digits r2 with
              | ([a], r3) =>
                  Some ((sec * 1000 + 100 * JS.digit_value a)%N, r3)
              | ([a; b], r3) =>
                  Some ((sec * 1000 + 10 * JS.digits_value [a; b])%N, r3)
              | ([a; b; c], r3) =>
                  Some ((sec * 1000 + JS.digits_value [a; b; c])%N, r3)
              | _ => None
              end
          end
      end
  end.

(** A point of local time, as one number that grows with the time:
    fields in the order year, month, day, hour, minute, millisecond. *)
Definition time_key (y mo d h mi ms : N) : N :=
  (((((y * 13 + mo) * 32 + d) * 24 + h) * 60 + mi) * 60000 + ms)%N.

(** Parse a local date and time string: [YYYY-MM-DDTHH:MM], with optional
    seconds and fraction.  [None] when the string is not valid. *)
Definition parse_local_date_time (s : string) : option N :=
  match JS.span_digits s with
  | (ys, r0) =>
      if (List.length ys <? 4)%nat then None else
      let y := JS.digits_value ys in
      if (y =? 0)%N then None else
      match JS.expect "-" r0 with None => None | Some r1 =>
      match two_digits r1 with None => None | Some (mo, r2) =>
      if ((mo <? 1) || (12 <? mo))%N then None else
      match JS.expect "-" r2 with None => None | Some r3 =>
      match two_digits r3 with None => None | Some (d, r4) =>
      if ((d <? 1) || (days_in_month y mo <? d))%N then None else
      match (match JS.expect "T" r4 with
             | Some r => Some r
             | None => JS.expect " " r4
             end) with None => None | Some r5 =>
      match two_digits r5 with None => None | Some (h, r6) =>
      if (23 <? h)%N then None else
      match JS.expect ":" r6 with None => None | Some r7 =>
      match two_digits r7 with None => None | Some (mi, r8) =>
      if (59 <? mi)%N then None else
      match parse_seconds r8 with
      | Some (ms, EmptyString) => Some (time_key y mo d h mi ms)
      | _ => None
      end end end end end end end end end
  end.

(** A valid floating-point number without its sign: digits and/or a dot
    followed by digits, then an optional exponent, and nothing more. *)
Definition valid_unsigned (s : string) : bool :=
  let (int_part, s2) := JS.span_digits s in
  let after_mantissa :=
    match JS.expect "." s2 with
    | Some r =>
        match JS.span_digits r with
        | ([], _) => None
        | (_, rest) => Some rest
        end
    | None => match int_part with [] => None | _ => Some s2 end
    end in
  match after_mantissa with
  | None => false
  | Some EmptyString => true
  | Some (String c r) =>
      if (Ascii.eqb c "e" || Ascii.eqb c "E")%bool then
        match JS.span_digits (snd (JS.split_sign r)) with
        | (_ :: _, EmptyString) => true
        | _ => false
        end
      else false
  end.

(** A valid floating-point number: an optional minus, then the above. *)
Definition valid_floating_point_number (s : string) : bool :=
  valid_unsigned (match JS.expect "-" s with Some r => r | None => s end).

(** [<input type="datetime-local" required max=...>]: the value (sanitised
    to the empty string when it is no local date and time) is present and
    does not overflow a valid maximum. *)
Definition datetime_local_ok (max value : string) : bool :=
  match parse_local_date_time value with
  | None => false
  | Some v =>
      match parse_local_date_time max with
      | None => true
      | Some m => (v <=? m)%N
      end
  end.

(** [<input type="number" step="any" required>]: the value is a valid
    floating-point number that does not overflow (the control holds the
    empty string instead of any other text). *)
Definition number_required_ok (value : string) : bool :=
  valid_floating_point_number value && JS.is_finite (JS.parseFloat value).

(** [<textarea required>] and [<input type="text" required>]. *)
Definition text_required_ok (value : string) : bool :=
  negb (JS.falsy value).

(** [<select required>] whose first option is the placeholder with the
    empty value: some option other than the placeholder is selected. *)
Definition select_required_ok (options : list string) (value : string)
  : bool :=
  negb (JS.falsy value) && existsb (String.eqb value) options.

(** ** navigator.geolocation

    What the browser does with a call of [getCurrentPosition]: it calls the
    success callback with a position, calls the error callback, or calls
    neither; [no_geolocation] is a browser without [navigator.geolocation].
    The coordinates of a position are finite numbers. *)
Inductive Geolocation : Type :=
| no_geolocation
| position (latitude longitude : JS.decimal_repr)
| position_error
| no_callback.

End HTML.

(* ================================================================== *)
(** * components/IncidentReportForm *)

Module IncidentReportForm.
Import Supabase.

Definition CRIME_TYPES : list string :=
  [ "Theft"; "Burglary"; "Assault"; "Vandalism"; "Vehicle Crime";
    "Drug-related"; "Suspicious Activity"; "Other" ].

(** The [useState] cells of the component. *)
Record State : Type := mkState {
  type : string;
  description : string;
  severity : Severity;
  locationLat : string;
  locationLng : string;
  locationAddress : string;
  incidentDate : string;
  loading : bool;
  error : string
}.

Definition setError (e : string) (st : State) : State :=
  mkState (type st) (description st) (severity st) (locationLat st)
          (locationLng st) (locationAddress st) (incidentDate st)
          (loading st) e.

Definition setLoading (b : bool) (st : State) : State :=
  mkState (type st) (description st) (severity st) (locationLat st)
          (locationLng st) (locationAddress st) (incidentDate st)
          b (error st).

Definition setLocationLat (v : string) (st : State) : State :=
  mkState (type st) (description st) (severity st) v
          (locationLng st) (locationAddress st) (incidentDate st)
          (loading st) (error st).

Definition setLocationLng (v : string) (st : State) : State :=
  mkState (type st) (description st) (severity st) (locationLat st)
          v (locationAddress st) (incidentDate st)
          (loading st) (error st).

(** [handleGetCurrentLocation], with the callback the browser runs applied
    to the state at that moment. *)
Definition handleGetCurrentLocation (geo : HTML.Geolocation) (st : State)
  : State :=
  match geo with
  | HTML.no_geolocation =>
      setError "Geolocation is not supported by your browser." st
  | HTML.position latitude longitude =>
      setLocationLng (JS.Number_toString longitude)
        (setLocationLat (JS.Number_toString latitude) st)
  | HTML.position_error =>
      setError "Unable to get your location. Please enter manually." st
  | HTML.no_callback => st
  end.

(** The seven setters that clear the form after a successful insert;
    [clock] is [new Date().toISOString().slice(0, 16)] at that moment. *)
Definition reset_fields (clock : string) (st : State) : State :=
  mkState "" "" medium "" "" "" clock (loading st) (error st).

(** The object literal passed to [insert]. *)
Definition payload (userId : string) (st : State) : NewIncident.t :=
  NewIncident.mk userId (type st) (description st)
    (JS.parseFloat (locationLat st)) (JS.parseFloat (locationLng st))
    (JS.or_null (locationAddress st))
    (severity st) (incidentDate st) pending.

(** The guard at the top of [handleSubmit]. *)
Definition missing_required (st : State) : bool :=
  JS.falsy (type st) || JS.falsy (description st)
  || JS.falsy (locationLat st) || JS.falsy (locationLng st).

(** What a run of [handleSubmit] leaves behind: the component state, the
    backend, and whether the [onSuccess] callback was invoked. *)
Record Outcome : Type := mkOutcome {
  state : State;
  db : Db;
  onSuccess_called : bool
}.

Section Handlers.
Variable srv : Server.
Variable userId : string.
Variable onSuccess : bool.   (* whether the optional prop is given *)

Definition handleSubmit (clock : string) (st : State) (d : Db) : Outcome :=
  let st := setError "" st in
  if missing_required st then
    mkOutcome (setError "Please fill in all required fields." st) d false
  else
    let st := setLoading true st in
    match send srv (InsertIncident (payload userId st)) d with
    | (d', Some err) =>
        mkOutcome
          (setLoading false
             (setError (JS.or_else (error_message err)
                          "Failed to submit incident report.") st))
          d' false
    | (d', None) =>
        mkOutcome (setLoading false (reset_fields clock st)) d' onSuccess
    end.

(** The constraints the rendered form puts on its controls; [max] is the
    [max] attribute of the date input, that is
    [new Date().toISOString().slice(0, 16)] at the last render. *)
Definition checkValidity (max : string) (st : State) : bool :=
  HTML.select_required_ok CRIME_TYPES (type st)
  && HTML.text_required_ok (description st)
  && HTML.datetime_local_ok max (incidentDate st)
  && HTML.number_required_ok (locationLat st)
  && HTML.number_required_ok (locationLng st).

(** A click on "Submit Report": nothing while the button is disabled
    ([disabled={loading}]); otherwise the browser fires [submit], and so
    calls [handleSubmit], only when the form is valid. *)
Definition submit_click (max clock : string) (st : State) (d : Db)
  : Outcome :=
  if loading st then mkOutcome st d false
  else if checkValidity max st then handleSubmit clock st d
  else mkOutcome st d false.

End Handlers.

(** Coordinates within the ranges of the data model. *)
Definition latitude_in_range (x : JS.number) : bool :=
  JS.ge x (JS.of_Z (-90)) && JS.le x (JS.of_Z 90).

Definition longitude_in_range (x : JS.number) : bool :=
  JS.ge x (JS.of_Z (-180)) && JS.le x (JS.of_Z 180).

End IncidentReportForm.

(* ================================================================== *)
(** * components/AlertsPanel *)

Module AlertsPanel.
Import Supabase.

Inductive Filter : Type := all | unread.

Record State : Type := mkState {
  alerts : list Alert.t;
  loading : bool;
  filter : Filter
}.

Definition setAlerts (l : list Alert.t) (st : State) : State :=
  mkState l (loading st) (filter st).

Definition setLoading (b : bool) (st : State) : State :=
  mkState (alerts st) b (filter st).

Section Handlers.
Variable srv : Server.
Variable userId : string.

(** The rows selected by the query built in [fetchAlerts]. *)
Definition query (f : Filter) (d : Db) : list Alert.t :=
  order_desc (timestamp_leb srv) Alert.created_at
    (List.filter
       (fun a =>
          String.eqb (Alert.user_id a) userId
          && match f with
             | unread => Bool.eqb (Alert.is_read a) false
             | all => true
             end)
       (Supabase.alerts d)).

Definition fetchAlerts (st : State) (d : Db) : State :=
  match select_fails srv "alerts" d with
  | Some _ => setLoading false st
  | None => setLoading false (setAlerts (query (filter st) d) st)
  end.

Definition markAsRead (alertId : string) (st : State) (d : Db)
  : State * Db :=
  match send srv (MarkAlertRead alertId) d with
  | (d', Some _) => (st, d')
  | (d', None) =>
      (setAlerts
         (map (fun alert =>
                 if String.eqb (Alert.id alert) alertId
                 then Alert.with_is_read true alert
                 else alert)
              (alerts st))
         st,
       d')
  end.

Definition markAllAsRead (st : State) (d : Db) : State * Db :=
  match send srv (MarkUnreadAlertsRead userId) d with
  | (d', Some _) => (st, d')
  | (d', None) => (fetchAlerts st d', d')
  end.

End Handlers.

(** Two alerts that agree on every field other than [is_read]. *)
Definition same_but_is_read (a b : Alert.t) : Prop :=
  Alert.id a = Alert.id b
  /\ Alert.user_id a = Alert.user_id b
  /\ Alert.incident_id a = Alert.incident_id b
  /\ Alert.hotspot_id a = Alert.hotspot_id b
  /\ Alert.title a = Alert.title b
  /\ Alert.message a = Alert.message b
  /\ Alert.alert_type a = Alert.alert_type b
  /\ Alert.created_at a = Alert.created_at b.

(** [unreadCount], computed at each render from the list held. *)
Definition unreadCount (st : State) : nat :=
  List.length (List.filter (fun a => negb (Alert.is_read a)) (alerts st)).

Definition getAlertColor (type : string) : string :=
  if String.eqb type "incident" then "border-red-200 bg-red-50"
  else if String.eqb type "hotspot" then "border-orange-200 bg-orange-50"
  else if String.eqb type "community" then "border-blue-200 bg-blue-50"
  else "border-gray-200 bg-gray-50".

(** The colour classes of the card of an alert. *)
Definition card_color (a : Alert.t) : string :=
  if Alert.is_read a then "border-gray-200 bg-white"
  else getAlertColor (AlertType_literal (Alert.alert_type a)).

(** A click on "Unread" or "All": the cell changes and the effect, which
    depends on it, fetches again with the new filter. *)
Definition setFilter (srv : Server) (userId : string) (f : Filter)
           (st : State) (d : Db) : State :=
  fetchAlerts srv userId (mkState (alerts st) (loading st) f) d.

End AlertsPanel.

(* ================================================================== *)
(** * components/HotspotMap *)

Module HotspotMap.
Import Supabase.

Record State : Type := mkState {
  hotspots : list Hotspot.t;
  incidents : list Incident.t;
  loading : bool;
  selectedHotspot : option Hotspot.t
}.

Section Handlers.
Variable srv : Server.

(** The two selects run by [Promise.all]; a failed one has no [data] and
    leaves its cell as it was. *)
Definition fetchHotspotsAndIncidents (st : State) (d : Db) : State :=
  let hotspots' :=
    match select_fails srv "hotspots" d with
    | Some _ => hotspots st
    | None => order_desc JS.le Hotspot.severity_score (Supabase.hotspots d)
    end in
  let incidents' :=
    match select_fails srv "incidents" d with
    | Some _ => incidents st
    | None =>
        firstn 50
          (order_desc (timestamp_leb srv) Incident.timestamp
             (Supabase.incidents d))
    end in
  mkState hotspots' incidents' false (selectedHotspot st).

End Handlers.

Definition getSeverityColor (score : JS.number) : string :=
  if JS.ge score (JS.of_Z 8) then "bg-red-500"
  else if JS.ge score (JS.of_Z 5) then "bg-orange-500"
  else if JS.ge score (JS.of_Z 3) then "bg-yellow-500"
  else "bg-green-500".

Definition getSeverityLabel (score : JS.number) : string :=
  if JS.ge score (JS.of_Z 8) then "Critical"
  else if JS.ge score (JS.of_Z 5) then "High"
  else if JS.ge score (JS.of_Z 3) then "Medium"
  else "Low".

End HotspotMap.

(* ================================================================== *)
(** * components/Dashboard *)

Module Dashboard.
Import Supabase.

Module Stats.
Record t : Type := mk {
  totalIncidents : nat;
  recentIncidents : nat;
  criticalIncidents : nat;
  resolvedIncidents : nat
}.
End Stats.

Record State : Type := mkState {
  stats : Stats.t;
  recentIncidents : list Incident.t;
  loading : bool
}.

Definition getStatusColor (status : string) : string :=
  if String.eqb status "resolved" then "bg-green-100 text-green-800"
  else if String.eqb status "reported_to_saps"
  then "bg-blue-100 text-blue-800"
  else if String.eqb status "verified" then "bg-purple-100 text-purple-800"
  else if String.eqb status "pending" then "bg-yellow-100 text-yellow-800"
  else "bg-gray-100 text-gray-800".

Section Handlers.
Variable srv : Server.
(** [new Date(s).getTime()]: milliseconds since the epoch, [None] for an
    invalid date (whose comparisons are all false). *)
Variable Date_getTime : string -> option Z.

Definition is_recent (weekAgo : Z) (i : Incident.t) : bool :=
  match Date_getTime (Incident.timestamp i) with
  | Some t => (weekAgo <=? t)%Z
  | None => false
  end.

Definition is_critical_active (i : Incident.t) : bool :=
  Severity_eqb (Incident.severity i) critical
  && negb (Status_eqb (Incident.status i) resolved).

Definition is_resolved (i : Incident.t) : bool :=
  Status_eqb (Incident.status i) resolved.

(** The body of [if (allIncidents) { ... }]; [now] is
    [new Date().getTime()]. *)
Definition compute_stats (now : Z) (allIncidents : list Incident.t)
  : Stats.t :=
  let weekAgo := (now - 7 * 24 * 60 * 60 * 1000)%Z in
  let recentCount :=
    List.length (List.filter (is_recent weekAgo) allIncidents) in
  let criticalCount :=
    List.length (List.filter is_critical_active allIncidents) in
  let resolvedCount :=
    List.length (List.filter is_resolved allIncidents) in
  Stats.mk (List.length allIncidents) recentCount criticalCount
           resolvedCount.

(** The [data] of the select: [None] ([null]) when the query fails. *)
Definition select_incidents (d : Db) : option (list Incident.t) :=
  match select_fails srv "incidents" d with
  | Some _ => None
  | None =>
      Some (order_desc (timestamp_leb srv) Incident.timestamp (incidents d))
  end.

Definition fetchDashboardData (now : Z) (st : State) (d : Db) : State :=
  match select_incidents d with
  | Some allIncidents =>
      mkState (compute_stats now allIncidents)
              (firstn 10 allIncidents) false
  | None => mkState (stats st) (recentIncidents st) false
  end.

End Handlers.

Definition getSeverityColor (severity : string) : string :=
  if String.eqb severity "critical"
  then "bg-red-100 text-red-800 border-red-200"
  else if String.eqb severity "high"
  then "bg-orange-100 text-orange-800 border-orange-200"
  else if String.eqb severity "medium"
  then "bg-yellow-100 text-yellow-800 border-yellow-200"
  else if String.eqb severity "low"
  then "bg-green-100 text-green-800 border-green-200"
  else "bg-gray-100 text-gray-800 border-gray-200".

(** The text of the status cell: [incident.status.replace('_', ' ')]. *)
Definition status_text (i : Incident.t) : string :=
  JS.replace_first "_" " " (Status_literal (Incident.status i)).

End Dashboard.

(* ================================================================== *)
(** * components/NeighbourhoodWatch *)

Module NeighbourhoodWatch.
Import Supabase.

(** [GroupWithMembers]: a group row and the three derived fields. *)
Record GroupWithMembers : Type := mkGroupWithMembers {
  group : NeighbourhoodWatchGroup.t;
  member_count : nat;
  is_member : bool;
  user_role : option string
}.

Record FormData : Type := mkFormData {
  name : string;
  description : string;
  location_lat : string;
  location_lng : string;
  coverage_radius_meters : JS.number
}.

Definition empty_form : FormData :=
  mkFormData "" "" "" "" (JS.of_Z 1000).

Record State : Type := mkState {
  groups : list GroupWithMembers;
  loading : bool;
  showCreateForm : bool;
  formData : FormData
}.

Section Handlers.
Variable srv : Server.
Variable userId : string.

(** [.maybeSingle()]: the row when exactly one matches, [null] when
    none does or when several do (an error the component ignores). *)
Definition maybeSingle {A : Type} (rows : list A) : option A :=
  match rows with
  | [r] => Some r
  | _ => None
  end.

(** The two reads that [fetchGroups] makes for every group: the count of
    its membership rows, and the row of the user in it. *)
Definition count_request (gid : string) : string :=
  "group_members?select=*&group_id=eq." ++ gid.

Definition role_request (gid : string) : string :=
  "group_members?select=role&group_id=eq." ++ gid
  ++ "&user_id=eq." ++ userId.

(** Neither read has its error looked at: a count that failed is [null],
    shown as 0, and a failed membership read is no membership. *)
Definition with_details (d : Db) (g : NeighbourhoodWatchGroup.t)
  : GroupWithMembers :=
  let gid := NeighbourhoodWatchGroup.id g in
  let count :=
    match select_fails srv (count_request gid) d with
    | Some _ => None
    | None =>
        Some
          (List.length
             (List.filter (fun m => String.eqb (GroupMember.group_id m) gid)
                (group_members d)))
    end in
  let memberData :=
    match select_fails srv (role_request gid) d with
    | Some _ => None
    | None =>
        maybeSingle
          (List.filter (member_matches gid userId) (group_members d))
    end in
  mkGroupWithMembers g
    (match count with Some n => n | None => O end)
    (match memberData with Some _ => true | None => false end)
    (option_map GroupMember.role memberData).

Definition fetchGroups (st : State) (d : Db) : State :=
  match select_fails srv "neighbourhood_watch_groups" d with
  | Some _ => mkState (groups st) false (showCreateForm st) (formData st)
  | None =>
      mkState
        (map (with_details d)
           (order_desc (timestamp_leb srv)
                NeighbourhoodWatchGroup.created_at
              (neighbourhood_watch_groups d)))
        false (showCreateForm st) (formData st)
  end.

(** The object literal of the first insert of [handleCreateGroup]. *)
Definition group_payload (f : FormData) : NewGroup.t :=
  NewGroup.mk (name f) (description f)
    (JS.parseFloat (location_lat f)) (JS.parseFloat (location_lng f))
    (coverage_radius_meters f) userId.

Definition handleCreateGroup (st : State) (d : Db) : State * Db :=
  let newGroup := new_group_row srv (group_payload (formData st)) d in
  match send srv (InsertGroup (group_payload (formData st))) d with
  | (d1, Some _) => (st, d1)
  | (d1, None) =>
      match
        send srv
          (InsertGroupMember
             (GroupMember.mk (NeighbourhoodWatchGroup.id newGroup)
                userId "admin")) d1
      with
      | (d2, Some _) => (st, d2)
      | (d2, None) =>
          (fetchGroups (mkState (groups st) (loading st) false empty_form)
             d2,
           d2)
      end
  end.

Definition handleJoinGroup (groupId : string) (st : State) (d : Db)
  : State * Db :=
  match
    send srv (InsertGroupMember (GroupMember.mk groupId userId "member"))
      d
  with
  | (d', Some _) => (st, d')
  | (d', None) => (fetchGroups st d', d')
  end.

Definition handleLeaveGroup (groupId : string) (st : State) (d : Db)
  : State * Db :=
  match send srv (DeleteGroupMember groupId userId) d with
  | (d', Some _) => (st, d')
  | (d', None) => (fetchGroups st d', d')
  end.

End Handlers.

(** [getCurrentLocation]: the success callback, the only one given, writes
    the form data it closed over at the click, [clicked], with the two
    coordinates, into the state at the moment it runs; without
    [navigator.geolocation] nothing is done. *)
Definition getCurrentLocation (geo : HTML.Geolocation) (clicked : FormData)
           (st : State) : State :=
  match geo with
  | HTML.position latitude longitude =>
      mkState (groups st) (loading st) (showCreateForm st)
        (mkFormData (name clicked) (description clicked)
           (JS.Number_toString latitude) (JS.Number_toString longitude)
           (coverage_radius_meters clicked))
  | _ => st
  end.

End NeighbourhoodWatch.

(* ================================================================== *)
(** * components/AuthPage *)

Module AuthPage.

Record State : Type := mkState {
  isLogin : bool;
  email : string;
  password : string;
  fullName : string;
  loading : bool;
  error : string;
  success : string
}.

(** The [error] objects of lib/auth, of which the page reads [message]. *)
Record AuthError : Type := mkAuthError { message : string }.

(** How an awaited call of [signIn] or [signUp] ends: it resolves to an
    object whose [error] is null or not, or it throws. *)
Inductive AuthResult : Type :=
| Resolved (error : option AuthError)
| Thrown (err : AuthError).

(** The calls made to lib/auth. *)
Inductive AuthCall : Type :=
| SignIn (email password : string)
| SignUp (email password fullName : string).

Record Outcome : Type := mkOutcome {
  state : State;
  calls : list AuthCall
}.

Definition setError (e : string) (st : State) : State :=
  mkState (isLogin st) (email st) (password st) (fullName st) (loading st)
          e (success st).

Definition setSuccess (m : string) (st : State) : State :=
  mkState (isLogin st) (email st) (password st) (fullName st) (loading st)
          (error st) m.

Definition setLoading (b : bool) (st : State) : State :=
  mkState (isLogin st) (email st) (password st) (fullName st) b
          (error st) (success st).

(** The four setters run after a successful sign-up. *)
Definition to_sign_in_cleared (st : State) : State :=
  mkState true "" "" "" (loading st) (error st) (success st).

(** The two tab buttons and the two links under the form. *)
Definition show_mode (login : bool) (st : State) : State :=
  mkState login (email st) (password st) (fullName st) (loading st) "" "".

Section Handlers.
(** [signIn] and [signUp] of [useAuth()], which lib/auth defines. *)
Variable signIn : string -> string -> AuthResult.
Variable signUp : string -> string -> string -> AuthResult.

Definition handleSubmit (st0 : State) : Outcome :=
  let st := setLoading true (setSuccess "" (setError "" st0)) in
  if isLogin st0 then
    let call := SignIn (email st0) (password st0) in
    match signIn (email st0) (password st0) with
    | Resolved None => mkOutcome (setLoading false st) [call]
    | Resolved (Some e) =>
        mkOutcome
          (setLoading false
             (setError
                (JS.or_else (message e)
                   "Failed to sign in. Please check your credentials.") st))
          [call]
    | Thrown err =>
        mkOutcome
          (setLoading false
             (setError
                (JS.or_else (message err) "An unexpected error occurred.")
                st))
          [call]
    end
  else if JS.falsy (JS.trim (fullName st0)) then
    mkOutcome
      (setLoading false (setError "Please enter your full name" st)) []
  else
    let call := SignUp (email st0) (password st0) (fullName st0) in
    match signUp (email st0) (password st0) (fullName st0) with
    | Resolved (Some e) =>
        mkOutcome
          (setLoading false
             (setError (JS.or_else (message e) "Failed to create account.")
                st))
          [call]
    | Resolved None =>
        mkOutcome
          (setLoading false
             (to_sign_in_cleared
                (setSuccess
                   "Account created successfully! You can now sign in." st)))
          [call]
    | Thrown err =>
        mkOutcome
          (setLoading false
             (setError
                (JS.or_else (message err) "An unexpected error occurred.")
                st))
          [call]
    end.

End Handlers.

End AuthPage.

(* ================================================================== *)
(** * The client as one state machine *)

Module App.
Import Supabase.

Record World : Type := mkWorld {
  db : Db;
  unreadAlerts : nat;              (* the cell of the App component *)
  report : IncidentReportForm.State;
  hotspotMap : HotspotMap.State;
  alertsPanel : AlertsPanel.State;
  dashboard : Dashboard.State;
  watch : NeighbourhoodWatch.State
}.

(** [d'] has the incidents of [d], unchanged and in place, followed by
    newly inserted ones that are all [pending]. *)
Definition grows (d d' : Db) : Prop :=
  exists new,
    incidents d' = incidents d ++ new
    /\ Forall (fun i => Incident.status i = pending) new.

(** The handlers that talk to the backend, with their arguments and the
    clock readings they take.  Signing in and out goes through lib/auth,
    which is outside the components. *)
Inductive Event : Type :=
| FetchUnreadAlerts
| SubmitReport (onSuccess : bool) (clock : string)
| FetchHotspotsAndIncidents
| FetchAlerts
| MarkAsRead (alertId : string)
| MarkAllAsRead
| FetchDashboardData (now : Z)
| FetchGroups
| CreateGroup
| JoinGroup (groupId : string)
| LeaveGroup (groupId : string).

Section Machine.
Variable srv : Server.
Variable userId : string.
Variable Date_getTime : string -> option Z.

(** [fetchUnreadAlerts] of the App component: the count of the user's
    unread alerts, 0 when the select fails. *)
Definition fetchUnreadAlerts (current : nat) (d : Db) : nat :=
  if JS.falsy userId then current
  else
    match select_fails srv "alerts" d with
    | Some _ => 0
    | None =>
        List.length
          (List.filter
             (fun a => String.eqb (Alert.user_id a) userId
                       && Bool.eqb (Alert.is_read a) false)
             (alerts d))
    end.

Definition step (w : World) (e : Event) : World :=
  match e with
  | FetchUnreadAlerts =>
      mkWorld (db w) (fetchUnreadAlerts (unreadAlerts w) (db w)) (report w)
              (hotspotMap w) (alertsPanel w) (dashboard w) (watch w)
  | SubmitReport onSuccess clock =>
      let o :=
        IncidentReportForm.handleSubmit srv userId onSuccess clock
          (report w) (db w) in
      mkWorld (IncidentReportForm.db o) (unreadAlerts w)
              (IncidentReportForm.state o) (hotspotMap w) (alertsPanel w)
              (dashboard w) (watch w)
  | FetchHotspotsAndIncidents =>
      mkWorld (db w) (unreadAlerts w) (report w)
              (HotspotMap.fetchHotspotsAndIncidents srv (hotspotMap w) (db w))
              (alertsPanel w) (dashboard w) (watch w)
  | FetchAlerts =>
      mkWorld (db w) (unreadAlerts w) (report w) (hotspotMap w)
              (AlertsPanel.fetchAlerts srv userId (alertsPanel w) (db w))
              (dashboard w) (watch w)
  | MarkAsRead alertId =>
      let (st, d) :=
        AlertsPanel.markAsRead srv alertId (alertsPanel w) (db w) in
      mkWorld d (unreadAlerts w) (report w) (hotspotMap w) st (dashboard w)
              (watch w)
  | MarkAllAsRead =>
      let (st, d) :=
        AlertsPanel.markAllAsRead srv userId (alertsPanel w) (db w) in
      mkWorld d (unreadAlerts w) (report w) (hotspotMap w) st (dashboard w)
              (watch w)
  | FetchDashboardData now =>
      mkWorld (db w) (unreadAlerts w) (report w) (hotspotMap w)
              (alertsPanel w)
              (Dashboard.fetchDashboardData srv Date_getTime now (dashboard w)
                 (db w))
              (watch w)
  | FetchGroups =>
      mkWorld (db w) (unreadAlerts w) (report w) (hotspotMap w)
              (alertsPanel w) (dashboard w)
              (NeighbourhoodWatch.fetchGroups srv userId (watch w) (db w))
  | CreateGroup =>
      let (st, d) :=
        NeighbourhoodWatch.handleCreateGroup srv userId (watch w) (db w) in
      mkWorld d (unreadAlerts w) (report w) (hotspotMap w) (alertsPanel w)
              (dashboard w) st
  | JoinGroup groupId =>
      let (st, d) :=
        NeighbourhoodWatch.handleJoinGroup srv userId groupId (watch w)
          (db w) in
      mkWorld d (unreadAlerts w) (report w) (hotspotMap w) (alertsPanel w)
              (dashboard w) st
  | LeaveGroup groupId =>
      let (st, d) :=
        NeighbourhoodWatch.handleLeaveGroup srv userId groupId (watch w)
          (db w) in
      mkWorld d (unreadAlerts w) (report w) (hotspotMap w) (alertsPanel w)
              (dashboard w) st
  end.

Definition run (w : World) (es : list Event) : World :=
  fold_left step es w.

End Machine.

(** The backend after a sequence of awaited write requests. *)
Definition send_all (srv : Server) (qs : list Request) (d : Db) : Db :=
  fold_left (fun d' q => fst (send srv q d')) qs d.

(** A request made on behalf of [userId]: an incident reported by that user
    and pending, a group created by that user, a membership row of that
    user, or the read flag of alerts. *)
Definition by_user (userId : string) (q : Request) : Prop :=
  match q with
  | InsertIncident r =>
      NewIncident.reporter_id r = userId /\ NewIncident.status r = pending
  | InsertGroup g => NewGroup.created_by g = userId
  | InsertGroupMember m => GroupMember.user_id m = userId
  | DeleteGroupMember _ u => u = userId
  | MarkAlertRead _ => True
  | MarkUnreadAlertsRead u => u = userId
  end.

End App.

(* ================================================================== *)
(** * The Severity Scorer of the aggregation engine *)


Module SeverityScorer.
Import Supabase.
Local Open Scope R_scope.

(** Modelled from the spec: the scorer that fills [severity_score] and
    [dominant_crime_type] of the [hotspots] table is not in the repository
    (the components only read that table).  A member carries the incident
    fields the formula reads; times are in days. *)
Record Member : Type := mkMember {
  id : string;
  type : string;
  severity : Severity;
  timestamp : R
}.

(** Modelled from the spec: the Cluster (Hotspot) aggregate of the data
    model, which the repository only has as the row type [Hotspot]. *)
Record Cluster : Type := mkCluster {
  center : R * R;
  radius : R;
  members : list Member;
  severityScore : R;
  dominantType : option string;
  lastUpdated : R
}.

(** Modelled from the spec: the configuration the formula names, which no
    file of the repository holds (half-life 30 days by default, a small
    floor, a display range capped at 10). *)
Record Config : Type := mkConfig {
  halfLife : R;
  epsilon : R;
  cap : R
}.

(** Modelled from the spec: severityWeight, absent from the repository,
    maps low, medium, high, critical to 1, 2, 4, 8. *)
Definition severityWeight (s : Severity) : R :=
  match s with
  | low => 1
  | medium => 2
  | high => 4
  | critical => 8
  end.

Section Formula.
Variable cfg : Config.
Variable now : R.

(** Modelled from the spec: recencyDecay, absent from the repository, is
    exponential with the configured half-life and floored at epsilon. *)
Definition recencyDecay (age : R) : R :=
  Rmax (epsilon cfg) (Rpower 2 (- age / halfLife cfg)).

(** Modelled from the spec: the weight of a member incident, absent from
    the repository: severityWeight times recencyDecay of its age. *)
Definition weight (m : Member) : R :=
  severityWeight (severity m) * recencyDecay (now - timestamp m).

(** Modelled from the spec: the sum of the weights of a list of members,
    absent from the repository. *)
Definition sum_weights (ms : list Member) : R :=
  fold_right (fun m acc => weight m + acc) 0 ms.

(** Modelled from the spec: the summed weight of a crime type among the
    members, absent from the repository. *)
Definition type_weight (ms : list Member) (t : string) : R :=
  sum_weights (List.filter (fun m => String.eqb (type m) t) ms).

(** Modelled from the spec: the choice of the dominant type, absent from
    the repository: [a] wins over [b] when its type has the higher summed
    weight, or the same and [a] is the more recent occurrence.  Where both
    are level the spec names no winner; the type that comes first in the
    order of strings is taken, so that the choice is one of a set of
    members and not of the order in which they are listed. *)
Definition beats (ms : list Member) (a b : Member) : bool :=
  let wa := type_weight ms (type a) in
  let wb := type_weight ms (type b) in
  if Rlt_dec wb wa then true
  else if Rlt_dec wa wb then false
  else if Rlt_dec (timestamp b) (timestamp a) then true
  else if Rlt_dec (timestamp a) (timestamp b) then false
  else
    match String.compare (type a) (type b) with
    | Lt => true
    | _ => false
    end.

(** Modelled from the spec: the winner among the candidates; absent from
    the repository. *)
Definition best (ms : list Member) (candidates : list Member)
  : option Member :=
  fold_left
    (fun acc m =>
       match acc with
       | None => Some m
       | Some b => if beats ms m b then Some m else Some b
       end)
    candidates None.

(** Modelled from the spec: [score(cluster)], absent from the repository:
    the sum of the weights capped at the top of the display range, and
    the dominant crime type. *)
Definition score (c : Cluster) : R * option string :=
  (Rmin (cap cfg) (sum_weights (members c)),
   option_map type (best (members c) (members c))).

(** Modelled from the spec: the recomputation after a membership change,
    absent from the repository: it stores the output of [score] and the
    time in the cluster. *)
Definition recompute (c : Cluster) : Cluster :=
  mkCluster (center c) (radius c) (members c)
            (fst (score c)) (snd (score c)) now.

End Formula.

End SeverityScorer.

(* ================================================================== *)
(** * Concrete backends and states used in examples *)

Module Fixtures.
Import Supabase.

Definition empty_db : Db := mkDb [] [] [] [] [] [].

(** A backend that accepts every request. *)
Definition accepting : Server :=
  mkServer (fun _ _ => None) (fun _ _ => None)
           (fun d => "row-1") (fun d => "2026-11-02T10:00:00+00:00")
           String.leb.

(** A backend that accepts every write and fails the reads that count the
    members of a group. *)
Definition no_counts : Server :=
  mkServer (fun _ _ => None)
           (fun req _ =>
              if String.prefix "group_members?select=*" req
              then Some (mkError "timeout")
              else None)
           (fun d => "row-1") (fun d => "2026-11-02T10:00:00+00:00")
           String.leb.

Definition report (lat lng date : string) : IncidentReportForm.State :=
  IncidentReportForm.mkState "Theft" "Bicycle taken from the yard" high
    lat lng "" date false "".

(** A backend that orders timestamps as dates, unreadable ones first. *)
Definition date_leb (a b : string) : bool :=
  let key s :=
    match HTML.parse_local_date_time s with
    | Some n => n
    | None => 0%N
    end in
  (key a <=? key b)%N.

Definition dated : Server :=
  mkServer (fun _ _ => None) (fun _ _ => None)
           (fun d => "row-1") (fun d => "2026-11-02T10:00") date_leb.

Definition incident_at (id timestamp : string) (sev : Severity)
           (st : Status) : Incident.t :=
  Incident.mk id "user-1" "Theft" "Bicycle taken from the yard"
    (JS.of_Z (-26)) (JS.of_Z 28) None st sev timestamp
    "2026-11-02T10:00" "2026-11-02T10:00".

Definition hotspot_scored (id score : string) : Hotspot.t :=
  Hotspot.mk id (JS.of_Z (-26)) (JS.of_Z 28) (JS.of_Z 500) (JS.of_Z 3)
    (JS.parseFloat score) (Some "Theft") "2026-11-02T10:00"
    "2026-11-01T10:00".

Definition db_with_incidents (l : list Incident.t) : Db :=
  mkDb l [] [] [] [] [].

Definition alert (id : string) (read : bool) : Alert.t :=
  Alert.mk id "user-1" None (Some "hotspot-7") "Hotspot nearby"
    "Risk level raised in your area" hotspot read "2026-11-01T08:00:00+00:00".

Definition db_with_alerts (l : list Alert.t) : Db := mkDb [] [] l [] [] [].

(** A position in Johannesburg: -26.2041, 28.0473. *)
Definition here : HTML.Geolocation :=
  HTML.position (JS.mkDecimal true 262041 (-4) eq_refl)
    (JS.mkDecimal false 280473 (-4) eq_refl).

Definition watch_form : NeighbourhoodWatch.State :=
  NeighbourhoodWatch.mkState [] false true
    (NeighbourhoodWatch.mkFormData "Oak Street Watch" "Evening patrols"
       "-26.2041" "28.0473" (JS.of_Z 1000)).

End Fixtures.

Module ScorerFixtures.
Import Supabase SeverityScorer.
Local Open Scope R_scope.

Definition theft_a : Member := mkMember "i-1" "Theft" high 10.
Definition theft_b : Member := mkMember "i-2" "Theft" high 12.
Definition assault_a : Member := mkMember "i-3" "Assault" high 10.

Definition default_config : Config := mkConfig 30 (/ 1000) 10.

(** The same two members, held by a fresh cluster and by one whose stored
    score, label and update time are left over from an earlier pass. *)
Definition fresh : Cluster :=
  mkCluster (0, 0) 500 [theft_a; theft_b] 0 None 0.

Definition stale : Cluster :=
  mkCluster (1, 1) 500 [theft_a; theft_b] 7 (Some "Assault") 11.

(** One incident, reported on day 10. *)
Definition single : Cluster :=
  mkCluster (0, 0) 500 [theft_a] 0 None 0.

(** Two types level in weight and in time, listed in either order. *)
Definition level : Cluster :=
  mkCluster (0, 0) 500 [theft_a; assault_a] 0 None 0.

Definition level_swapped : Cluster :=
  mkCluster (0, 0) 500 [assault_a; theft_a] 4 (Some "Theft") 12.
End ScorerFixtures.

(* ================================================================== *)
(** * Facts about the backend *)

Section BackendFacts.
Import Supabase.
Variable srv : Server.

Lemma send_received (q : Request) (d : Db) :
  received (fst (send srv q d)) = received d ++ [q].
Proof.
  unfold send. destruct (refuses srv q d); simpl.
  - reflexivity.
  - destruct q; reflexivity.
Qed.

End BackendFacts.

(* ================================================================== *)
(** * Reading numbers and dates: the two parsers agree *)

Example parseFloat_integer : JS.parseFloat "91" = JS.of_Z 91.
Proof. reflexivity. Qed.

(** -26.2041 is no double: the nearest one is read. *)
Example parseFloat_decimal :
  JS.parseFloat "-26.2041"
  = JS.Finite (-7375798437223701 # 281474976710656).
Proof. vm_compute. reflexivity. Qed.

Example parseFloat_overflow :
  JS.parseFloat "1e400" = JS.PosInfinity
  /\ JS.parseFloat "-1.8e308" = JS.NegInfinity
  /\ JS.parseFloat "1.7976931348623157e308"
     = JS.of_Z (2 ^ 1024 - 2 ^ 971)
  /\ JS.parseFloat "1e-400" = JS.of_Z 0.
Proof. vm_compute. repeat split. Qed.

(** Ties go to the even significand. *)
Example parseFloat_ties :
  JS.parseFloat "9007199254740993" = JS.of_Z 9007199254740992
  /\ JS.parseFloat "9007199254740995" = JS.of_Z 9007199254740996.
Proof. vm_compute. split; reflexivity. Qed.

(** A no-break space (bytes 194, 160) and a tab before the number. *)
Example parseFloat_white_space :
  JS.parseFloat
    (String (ascii_of_N 194) (String (ascii_of_N 160)
       (String (ascii_of_N 9) "12")))
  = JS.of_Z 12.
Proof. vm_compute. reflexivity. Qed.

Example parseFloat_exponent : JS.parseFloat "1.5e3" = JS.of_Z 1500.
Proof. reflexivity. Qed.

Example parseFloat_prefix : JS.parseFloat " 12abc" = JS.of_Z 12.
Proof. reflexivity. Qed.

(** White space of one, two and three bytes is trimmed from both ends,
    and kept inside; a zero-width space (bytes 226, 128, 139) is none. *)
Example trim_white_space :
  let nbsp := String (ascii_of_N 194) (String (ascii_of_N 160) "") in
  let ideographic :=
    String (ascii_of_N 227) (String (ascii_of_N 128)
      (String (ascii_of_N 128) "")) in
  let zero_width :=
    String (ascii_of_N 226) (String (ascii_of_N 128)
      (String (ascii_of_N 139) "")) in
  JS.trim (" " ++ nbsp ++ "Thandi M" ++ ideographic ++ nbsp)%string
  = "Thandi M"
  /\ JS.trim (nbsp ++ ideographic)%string = ""
  /\ JS.trim zero_width = zero_width.
Proof. vm_compute. repeat split. Qed.

Example parseFloat_not_a_number :
  JS.parseFloat "" = JS.NaN /\ JS.parseFloat "abc" = JS.NaN
  /\ JS.parseFloat "." = JS.NaN /\ JS.parseFloat "-" = JS.NaN.
Proof. repeat split. Qed.

Example parse_local_date_time_orders :
  exists a b,
    HTML.parse_local_date_time "2026-11-01T23:59" = Some a
    /\ HTML.parse_local_date_time "2026-11-02T00:00" = Some b
    /\ (a < b)%N.
Proof.
  do 2 eexists. split; [reflexivity | split; [reflexivity |]].
  vm_compute. reflexivity.
Qed.

Example parse_local_date_time_rejects :
  HTML.parse_local_date_time "" = None
  /\ HTML.parse_local_date_time "2026-02-29T10:00" = None
  /\ HTML.parse_local_date_time "2026-11-02" = None
  /\ HTML.parse_local_date_time "2026-11-02T24:00" = None.
Proof. repeat split. Qed.

Section ParsingFacts.

Lemma digit_facts (c : ascii) :
  JS.is_digit c = true ->
  (forall r, JS.skip_white_space (String c r) = None)
  /\ Ascii.eqb "-" c = false /\ Ascii.eqb "+" c = false
  /\ Ascii.eqb "." c = false /\ c <> "I"%char.
Proof.
  destruct c as [[] [] [] [] [] [] [] []]; intros H; vm_compute in H;
    try discriminate H;
    (split;
     [intros r; destruct r as [| c2 [| c3 r3]]; reflexivity
     | repeat split; discriminate]).
Qed.

(** Nothing is trimmed from a string that does not start with white
    space. *)
Lemma trimStart_none (s : string) :
  JS.skip_white_space s = None -> JS.trimStart s = s.
Proof.
  intros H. unfold JS.trimStart.
  destruct (String.length s); simpl; [| rewrite H]; reflexivity.
Qed.

Lemma skip_sign_or_dot (c : ascii) (r : string) :
  c = "-"%char \/ c = "."%char ->
  JS.skip_white_space (String c r) = None.
Proof.
  intros [-> | ->]; destruct r as [| c2 [| c3 r3]]; reflexivity.
Qed.

(** Rounding gives a double or an infinity. *)
Lemma to_double_not_NaN (q : Q) : JS.to_double q <> JS.NaN.
Proof.
  unfold JS.to_double.
  destruct (Z.abs (Qnum (Qred q)) =? 0)%Z; [discriminate |].
  destruct (JS.nearest _ _) as [m e].
  destruct (2 ^ 1024 <=? m * 2 ^ Z.max 0 e)%Z; [| discriminate].
  destruct (Qnum (Qred q) <? 0)%Z; discriminate.
Qed.

(** Rounding does not tell apart two fractions of the same value. *)
Lemma to_double_Qeq (p q : Q) : p == q -> JS.to_double p = JS.to_double q.
Proof.
  intros H. unfold JS.to_double. rewrite (Qred_complete p q H). reflexivity.
Qed.

Lemma is_finite_Finite (x : JS.number) :
  JS.is_finite x = true -> exists q, x = JS.Finite q.
Proof. destruct x; try discriminate. eauto. Qed.

Lemma span_digits_head (s : string) (c : ascii) (ds : list ascii)
      (r : string) :
  JS.span_digits s = (c :: ds, r) ->
  exists s', s = String c s' /\ JS.is_digit c = true.
Proof.
  destruct s as [| a s']; simpl; [discriminate |].
  destruct (JS.is_digit a) eqn:E; [| discriminate].
  destruct (JS.span_digits s') as [ds' r']. intros H. inversion H; subst.
  eauto.
Qed.

Lemma span_digits_nil (s : string) (r : string) :
  JS.span_digits s = ([], r) -> r = s.
Proof.
  destruct s as [| a s']; simpl; [congruence |].
  destruct (JS.is_digit a); [| congruence].
  destruct (JS.span_digits s'). discriminate.
Qed.

Lemma expect_Some (c : ascii) (s r : string) :
  JS.expect c s = Some r -> s = String c r.
Proof.
  destruct s as [| a s']; simpl; [discriminate |].
  destruct (Ascii.eqb_spec c a); [| discriminate]. congruence.
Qed.

Lemma prefix_Infinity (c : ascii) (s : string) :
  c <> "I"%char -> String.prefix "Infinity" (String c s) = false.
Proof.
  intros H. cbn [String.prefix].
  destruct (ascii_dec "I" c); [congruence | reflexivity].
Qed.

(** A valid floating-point number starts with a digit or with a dot, and
    [parseFloat] reads a number from it. *)
Lemma parse_unsigned_of_valid (neg : bool) (s : string) :
  HTML.valid_unsigned s = true ->
  (exists c s', s = String c s'
                /\ (JS.is_digit c = true \/ c = "."%char))
  /\ JS.parse_unsigned neg s <> JS.NaN.
Proof.
  unfold HTML.valid_unsigned, JS.parse_unsigned, JS.fraction.
  destruct (JS.span_digits s) as [int_part s2] eqn:Hspan.
  destruct int_part as [| c ds].
  - apply span_digits_nil in Hspan. subst s2.
    destruct (JS.expect "." s) as [r |] eqn:Hdot; [| discriminate].
    apply expect_Some in Hdot. subst s.
    destruct (JS.span_digits r) as [[| f fs] rest]; [discriminate |].
    intros _. split.
    + exists "."%char, r. auto.
    + rewrite prefix_Infinity by discriminate. apply to_double_not_NaN.
  - destruct (span_digits_head _ _ _ _ Hspan) as (s' & -> & Hc).
    intros _. split.
    + exists c, s'. auto.
    + rewrite prefix_Infinity by (apply digit_facts; exact Hc).
      destruct (JS.expect "." s2) as [r |];
        [destruct (JS.span_digits r) as [fs rest] |];
        apply to_double_not_NaN.
Qed.

Lemma parseFloat_of_valid (s : string) :
  HTML.valid_floating_point_number s = true ->
  JS.parseFloat s <> JS.NaN.
Proof.
  unfold HTML.valid_floating_point_number, JS.parseFloat, JS.split_sign.
  destruct (JS.expect "-" s) as [r |] eqn:Hminus.
  - intros Hv. apply expect_Some in Hminus. subst s.
    rewrite trimStart_none by (apply skip_sign_or_dot; auto).
    change (JS.expect "-" (String "-" r)) with (Some r). cbv beta iota.
    apply (parse_unsigned_of_valid true r Hv).
  - intros Hv.
    destruct (parse_unsigned_of_valid false s Hv)
      as ((c & s' & -> & Hc) & Hq).
    assert (Hfacts : JS.skip_white_space (String c s') = None
                     /\ Ascii.eqb "+" c = false).
    { destruct Hc as [Hc | ->];
        [| split; [apply skip_sign_or_dot; auto | reflexivity]].
      destruct (digit_facts c Hc) as (? & ? & ? & ?). auto. }
    destruct Hfacts as [Hws Hplus].
    rewrite trimStart_none by exact Hws. rewrite Hminus.
    unfold JS.expect. rewrite Hplus. exact Hq.
Qed.

(** What the number inputs let through, [parseFloat] reads as a finite
    number. *)
Lemma number_required_ok_finite (s : string) :
  HTML.number_required_ok s = true ->
  HTML.valid_floating_point_number s = true
  /\ exists q, JS.parseFloat s = JS.Finite q.
Proof.
  unfold HTML.number_required_ok. intros H.
  apply andb_prop in H. destruct H as [Hv Hf].
  split; [exact Hv | apply is_finite_Finite; exact Hf].
Qed.

End ParsingFacts.

(* ================================================================== *)
(** * Numbers as text: printing a number and reading it back *)

Section NumberToStringFacts.

Lemma digit_char_facts (d : N) :
  (d < 10)%N ->
  JS.is_digit (JS.digit_char d) = true
  /\ JS.digit_value (JS.digit_char d) = d.
Proof.
  intros H.
  destruct d as [| p]; [split; reflexivity |].
  do 4 (destruct p as [p | p |]; try (split; reflexivity); try lia).
Qed.

(** The digits of [digits_rev] are decimal digits and give the number back,
    read from the least significant one. *)
Lemma digits_rev_spec (fuel : nat) :
  forall n : N,
    (n < 2 ^ N.of_nat fuel)%N -> (0 < fuel)%nat ->
    Forall (fun c => JS.is_digit c = true) (JS.digits_rev fuel n)
    /\ fold_right (fun c acc => (10 * acc + JS.digit_value c)%N) 0%N
         (JS.digits_rev fuel n) = n
    /\ JS.digits_rev fuel n <> [].
Proof.
  induction fuel as [| f IH]; intros n Hn Hf; [lia |].
  simpl JS.digits_rev.
  destruct (N.ltb_spec n 10) as [Hlt | Hge].
  - destruct (digit_char_facts n Hlt) as [Hd Hv].
    split; [| split].
    + constructor; [exact Hd | constructor].
    + cbn [fold_right]. rewrite Hv. lia.
    + discriminate.
  - assert (Hq : (n / 10 < 2 ^ N.of_nat f)%N).
    { apply N.Div0.div_lt_upper_bound.
      rewrite Nat2N.inj_succ, N.pow_succ_r' in Hn. lia. }
    assert (Hf' : (0 < f)%nat).
    { destruct f; [| lia]. simpl in Hq.
      assert (1 <= n / 10)%N; [| lia].
      apply N.div_le_lower_bound; lia. }
    destruct (IH (n / 10)%N Hq Hf') as (Hall & Hval & _).
    assert (Hm : (n mod 10 < 10)%N) by (apply N.mod_lt; lia).
    destruct (digit_char_facts _ Hm) as [Hd Hv].
    split; [| split].
    + constructor; assumption.
    + cbn [fold_right]. rewrite Hval, Hv. pose proof (N.div_mod n 10). lia.
    + discriminate.
Qed.

Lemma digits_of_spec (n : N) :
  Forall (fun c => JS.is_digit c = true) (JS.digits_of n)
  /\ JS.digits_value (JS.digits_of n) = n
  /\ JS.digits_of n <> [].
Proof.
  unfold JS.digits_of.
  destruct (digits_rev_spec (S (N.to_nat (N.log2 n))) n) as (Hall & Hval & Hne).
  - rewrite Nat2N.inj_succ, N2Nat.id.
    destruct n as [| p]; [reflexivity |].
    apply N.log2_spec. lia.
  - lia.
  - split; [| split].
    + apply Forall_rev. exact Hall.
    + unfold JS.digits_value.
      rewrite <- (fold_left_rev_right
                    (fun c acc => (10 * acc + JS.digit_value c)%N)).
      rewrite rev_involutive. exact Hval.
    + intros H. apply Hne. rewrite <- (rev_involutive (JS.digits_rev _ n)).
      rewrite H. reflexivity.
Qed.

Lemma fold_digits (l : list ascii) :
  forall acc : N,
    fold_left (fun acc c => (10 * acc + JS.digit_value c)%N) l acc
    = (acc * 10 ^ N.of_nat (List.length l)
       + fold_left (fun acc c => (10 * acc + JS.digit_value c)%N) l 0)%N.
Proof.
  induction l as [| c r IH]; intros acc.
  - simpl. lia.
  - cbn [fold_left List.length].
    rewrite (IH (10 * acc + JS.digit_value c)%N).
    rewrite (IH (10 * 0 + JS.digit_value c)%N).
    rewrite Nat2N.inj_succ, N.pow_succ_r'. lia.
Qed.

Lemma digits_value_app (a b : list ascii) :
  JS.digits_value (a ++ b)
  = (JS.digits_value a * 10 ^ N.of_nat (List.length b)
     + JS.digits_value b)%N.
Proof.
  unfold JS.digits_value. rewrite fold_left_app. apply fold_digits.
Qed.

Lemma digits_value_zeros (n : nat) :
  JS.digits_value (repeat "0"%char n) = 0%N.
Proof.
  induction n as [| n IH]; [reflexivity |].
  change (repeat "0"%char (S n)) with (["0"%char] ++ repeat "0"%char n).
  rewrite digits_value_app, IH. reflexivity.
Qed.

Lemma zeros_are_digits (n : nat) :
  Forall (fun c => JS.is_digit c = true) (repeat "0"%char n).
Proof.
  induction n; simpl; constructor; [reflexivity | assumption].
Qed.

(** Zeros at the end of the significand can go to the exponent. *)
Lemma decimal_shift (neg : bool) (m z : N) (e : Z) :
  JS.decimal neg (m * 10 ^ z) e = JS.decimal neg m (e + Z.of_N z).
Proof.
  unfold JS.decimal. apply Qred_complete.
  rewrite N2Z.inj_mul, N2Z.inj_pow, inject_Z_mult.
  destruct neg;
    rewrite Zpower_Qpower by lia;
    rewrite Qpower_plus by discriminate;
    change (inject_Z (Z.of_N 10)) with (10 # 1); ring.
Qed.

Lemma strip_zeros_decimal (neg : bool) (fuel : nat) :
  forall (s : N) (e : Z),
    JS.decimal neg (fst (JS.strip_zeros fuel s e))
      (snd (JS.strip_zeros fuel s e))
    = JS.decimal neg s e.
Proof.
  induction fuel as [| f IH]; intros s e; [reflexivity |].
  cbn [JS.strip_zeros].
  destruct (N.eqb_spec s 0) as [E0 | N0]; [reflexivity |].
  destruct (N.eqb_spec (s mod 10) 0) as [Em | Nm]; [| reflexivity].
  cbn [orb negb]. rewrite IH.
  replace (e + 1)%Z with (e + Z.of_N 1)%Z by reflexivity.
  rewrite <- decimal_shift. f_equal.
  pose proof (N.div_mod s 10). lia.
Qed.

Lemma span_digits_app (ds rest : list ascii) :
  Forall (fun c => JS.is_digit c = true) ds ->
  (forall c r, rest = c :: r -> JS.is_digit c = false) ->
  JS.span_digits (string_of_list_ascii (ds ++ rest))
  = (ds, string_of_list_ascii rest).
Proof.
  intros Hds Hrest. induction Hds as [| c ds Hc Hds IH].
  - destruct rest as [| c r]; [reflexivity |].
    simpl. rewrite (Hrest c r eq_refl). reflexivity.
  - simpl. rewrite Hc, IH. reflexivity.
Qed.

(** Reading back the exponent that [exponent_suffix] writes. *)
Lemma exponent_part_suffix (n : Z) :
  JS.exponent_part (string_of_list_ascii (JS.exponent_suffix n))
  = (n - 1)%Z.
Proof.
  unfold JS.exponent_suffix.
  destruct (digits_of_spec (Z.to_N (Z.abs (n - 1)))) as (Hall & Hval & Hne).
  pose proof (span_digits_app _ [] Hall) as Hspan.
  rewrite app_nil_r in Hspan.
  specialize (Hspan ltac:(discriminate)).
  remember (JS.digits_of (Z.to_N (Z.abs (n - 1)))) as ds eqn:Eds.
  clear Eds.
  destruct (Z.ltb_spec (n - 1) 0) as [E | E];
    cbn [string_of_list_ascii]; unfold JS.exponent_part, JS.split_sign;
    cbn [Ascii.eqb Bool.eqb orb JS.expect]; rewrite Hspan;
    (destruct ds as [| d ds]; [congruence |]); rewrite Hval; lia.
Qed.

(** [parse_unsigned] on digits followed by something that is neither a
    digit nor a dot. *)
Lemma parse_unsigned_integer (neg : bool) (ints rest : list ascii) :
  ints <> [] ->
  Forall (fun c => JS.is_digit c = true) ints ->
  (forall c r, rest = c :: r ->
               JS.is_digit c = false /\ Ascii.eqb "." c = false) ->
  JS.parse_unsigned neg (string_of_list_ascii (ints ++ rest))
  = JS.to_double
      (JS.decimal neg (JS.digits_value ints)
         (JS.exponent_part (string_of_list_ascii rest))).
Proof.
  intros Hne Hints Hrest.
  destruct ints as [| c ints']; [congruence |].
  unfold JS.parse_unsigned.
  assert (Hp : String.prefix "Infinity"
                 (string_of_list_ascii ((c :: ints') ++ rest)) = false).
  { apply prefix_Infinity. apply digit_facts. inversion Hints; assumption. }
  rewrite Hp.
  rewrite (span_digits_app _ rest Hints)
    by (intros a r E; apply (Hrest a r E)).
  assert (Hf : JS.fraction (string_of_list_ascii rest)
               = ([], string_of_list_ascii rest)).
  { unfold JS.fraction. destruct rest as [| a r]; [reflexivity |].
    cbn [string_of_list_ascii]. unfold JS.expect.
    destruct (Hrest a r eq_refl) as [_ ->]. reflexivity. }
  rewrite Hf. rewrite app_nil_r. cbn [List.length Z.of_nat].
  rewrite Z.sub_0_r. reflexivity.
Qed.

(** [parse_unsigned] on digits, a dot, digits, and something that is not
    a digit. *)
Lemma parse_unsigned_fraction (neg : bool) (ints fracs rest : list ascii) :
  ints <> [] ->
  Forall (fun c => JS.is_digit c = true) ints ->
  Forall (fun c => JS.is_digit c = true) fracs ->
  (forall c r, rest = c :: r -> JS.is_digit c = false) ->
  JS.parse_unsigned neg
    (string_of_list_ascii (ints ++ "."%char :: fracs ++ rest))
  = JS.to_double
      (JS.decimal neg (JS.digits_value (ints ++ fracs))
         (JS.exponent_part (string_of_list_ascii rest)
          - Z.of_nat (List.length fracs))).
Proof.
  intros Hne Hints Hfracs Hrest.
  destruct ints as [| c ints']; [congruence |].
  unfold JS.parse_unsigned.
  assert (Hp : String.prefix "Infinity"
                 (string_of_list_ascii
                    ((c :: ints') ++ "."%char :: fracs ++ rest)) = false).
  { apply prefix_Infinity. apply digit_facts. inversion Hints; assumption. }
  rewrite Hp.
  rewrite (span_digits_app _ ("."%char :: fracs ++ rest) Hints)
    by (intros a r E; inversion E; reflexivity).
  unfold JS.fraction.
  change (JS.expect "." (string_of_list_ascii ("."%char :: fracs ++ rest)))
    with (Some (string_of_list_ascii (fracs ++ rest))).
  cbv beta iota.
  rewrite (span_digits_app _ rest Hfracs Hrest).
  reflexivity.
Qed.

Lemma exponent_suffix_head (n : Z) :
  forall c r, JS.exponent_suffix n = c :: r ->
              JS.is_digit c = false /\ Ascii.eqb "." c = false.
Proof.
  unfold JS.exponent_suffix. intros c r E. inversion E. split; reflexivity.
Qed.

(** What [unsigned_toString] prints, [parse_unsigned] reads back. *)
Lemma parse_unsigned_toString (neg : bool) (s : N) (e : Z) :
  JS.parse_unsigned neg (string_of_list_ascii (JS.unsigned_toString s e))
  = JS.to_double (JS.decimal neg s e).
Proof.
  unfold JS.unsigned_toString.
  destruct (digits_of_spec s) as (Hall & Hval & Hne).
  remember (JS.digits_of s) as ds eqn:Eds. clear Eds.
  set (k := Z.of_nat (List.length ds)).
  assert (Hk : (0 < k)%Z).
  { unfold k. destruct ds; [congruence | simpl; lia]. }
  destruct ((k <=? k + e) && (k + e <=? 21))%Z eqn:C1.
  { (* digits and zeros *)
    apply andb_prop in C1 as [C1 _]. apply Z.leb_le in C1.
    rewrite <- (app_nil_r (ds ++ _)).
    rewrite parse_unsigned_integer.
    - rewrite digits_value_app, digits_value_zeros, repeat_length.
      rewrite N.add_0_r. change (JS.exponent_part _) with 0%Z.
      rewrite decimal_shift, Hval. f_equal. f_equal. lia.
    - destruct ds; [congruence | discriminate].
    - apply Forall_app. split; [exact Hall | apply zeros_are_digits].
    - discriminate. }
  destruct ((0 <? k + e) && (k + e <=? 21))%Z eqn:C2.
  { (* the point inside the digits *)
    apply andb_prop in C2 as [C2 C2']. apply Z.ltb_lt in C2.
    apply Z.leb_le in C2'. apply andb_false_iff in C1.
    assert (Hn : (k + e < k)%Z).
    { destruct C1 as [C1 | C1]; apply Z.leb_gt in C1; lia. }
    pose proof (firstn_skipn (Z.to_nat (k + e)) ds) as Hsplit.
    assert (Hboth : Forall (fun c => JS.is_digit c = true)
                      (firstn (Z.to_nat (k + e)) ds)
                    /\ Forall (fun c => JS.is_digit c = true)
                         (skipn (Z.to_nat (k + e)) ds)).
    { apply Forall_app. rewrite Hsplit. exact Hall. }
    rewrite <- (app_nil_r (skipn _ ds)).
    rewrite parse_unsigned_fraction.
    - rewrite Hsplit, Hval, length_skipn.
      change (JS.exponent_part _) with 0%Z. f_equal. f_equal.
      unfold k. lia.
    - intros H. apply (f_equal (@List.length ascii)) in H.
      rewrite length_firstn in H. simpl in H. unfold k in *. lia.
    - apply Hboth.
    - apply Hboth.
    - discriminate. }
  destruct ((-6 <? k + e) && (k + e <=? 0))%Z eqn:C3.
  { (* zeros after the point *)
    apply andb_prop in C3 as [_ C3]. apply Z.leb_le in C3.
    change ("0"%char :: "."%char :: repeat "0"%char (Z.to_nat (- (k + e)))
            ++ ds)
      with (["0"%char] ++ "."%char :: repeat "0"%char (Z.to_nat (- (k + e)))
            ++ ds).
    rewrite <- (app_nil_r ds) at 1. rewrite app_assoc.
    rewrite parse_unsigned_fraction.
    - rewrite !digits_value_app, digits_value_zeros, Hval.
      rewrite length_app, repeat_length.
      change (JS.exponent_part _) with 0%Z.
      change (JS.digits_value ["0"%char]) with 0%N.
      f_equal. f_equal; unfold k; lia.
    - discriminate.
    - constructor; [reflexivity | constructor].
    - apply Forall_app. split; [apply zeros_are_digits | exact Hall].
    - discriminate. }
  (* exponent notation *)
  destruct ds as [| d rest]; [congruence |].
  destruct rest as [| d' rest'].
  - change (d :: JS.exponent_suffix (k + e))
      with ([d] ++ JS.exponent_suffix (k + e)).
    rewrite parse_unsigned_integer.
    + rewrite exponent_part_suffix, Hval. f_equal. f_equal.
      unfold k. cbn [List.length]. lia.
    + discriminate.
    + exact Hall.
    + apply exponent_suffix_head.
  - change (d :: "."%char :: (d' :: rest') ++ JS.exponent_suffix (k + e))
      with ([d] ++ "."%char :: (d' :: rest') ++ JS.exponent_suffix (k + e)).
    rewrite parse_unsigned_fraction.
    + rewrite exponent_part_suffix.
      change ([d] ++ d' :: rest') with (d :: d' :: rest'). rewrite Hval.
      f_equal. f_equal. unfold k. cbn [List.length]. lia.
    + discriminate.
    + constructor; [inversion Hall; assumption | constructor].
    + inversion Hall; assumption.
    + intros c r E. apply (exponent_suffix_head _ _ _ E).
Qed.

(** [unsigned_toString] starts with a digit. *)
Lemma unsigned_toString_head (s : N) (e : Z) :
  exists c r, JS.unsigned_toString s e = c :: r /\ JS.is_digit c = true.
Proof.
  unfold JS.unsigned_toString.
  destruct (digits_of_spec s) as (Hall & _ & Hne).
  destruct (JS.digits_of s) as [| d rest]; [congruence |].
  assert (Hd : JS.is_digit d = true) by (inversion Hall; assumption).
  set (k := Z.of_nat (List.length (d :: rest))).
  set (n := (k + e)%Z).
  destruct ((k <=? n) && (n <=? 21))%Z;
    [exists d; eexists; split; [reflexivity | exact Hd] |].
  destruct ((0 <? n) && (n <=? 21))%Z eqn:C2.
  { apply andb_prop in C2 as [C2 _]. apply Z.ltb_lt in C2.
    destruct (Z.to_nat n) as [| m] eqn:Em; [lia |].
    exists d. eexists. split; [reflexivity | exact Hd]. }
  destruct ((-6 <? n) && (n <=? 0))%Z;
    [exists "0"%char; eexists; split; reflexivity |].
  destruct rest; exists d; eexists; split; try reflexivity; exact Hd.
Qed.

(** Round trip: [parseFloat] reads from the text of [Number_toString] the
    number that was printed. *)
Lemma parseFloat_Number_toString (x : JS.decimal_repr) :
  JS.parseFloat (JS.Number_toString x) = JS.to_number x.
Proof.
  unfold JS.Number_toString, JS.to_number.
  destruct (N.eqb_spec (JS.significand x) 0) as [E0 | N0].
  - rewrite E0.
    change (JS.parseFloat "0") with (JS.to_double (JS.decimal false 0 0)).
    apply to_double_Qeq. unfold JS.decimal. rewrite !Qred_correct.
    destruct (JS.negative x); simpl; ring.
  - pose proof (strip_zeros_decimal (JS.negative x)
                  (S (N.to_nat (N.log2 (JS.significand x))))
                  (JS.significand x) (JS.exponent10 x)) as Hstrip.
    destruct (JS.strip_zeros _ (JS.significand x) (JS.exponent10 x))
      as [s e].
    cbn [fst snd] in Hstrip. rewrite <- Hstrip.
    pose proof (parse_unsigned_toString (JS.negative x) s e) as Hparse.
    destruct (unsigned_toString_head s e) as (c & r & Hhead & Hc).
    destruct (digit_facts c Hc) as (Hws & Hminus & Hplus & _).
    unfold JS.parseFloat.
    destruct (JS.negative x).
    + cbn [app string_of_list_ascii].
      rewrite trimStart_none by (apply skip_sign_or_dot; auto).
      unfold JS.split_sign.
      change (JS.expect "-" (String "-" ?s)) with (Some s).
      exact Hparse.
    + cbn [app]. rewrite Hhead in *.
      cbn [string_of_list_ascii] in *. rewrite trimStart_none by apply Hws.
      unfold JS.split_sign, JS.expect. rewrite Hminus, Hplus.
      exact Hparse.
Qed.

(** The exponent written by [exponent_suffix] is one the number inputs
    accept. *)
Lemma exponent_suffix_valid (n : Z) :
  exists sgn ds,
    JS.exponent_suffix n = "e"%char :: sgn :: ds
    /\ JS.span_digits (snd (JS.split_sign (string_of_list_ascii (sgn :: ds))))
       = (ds, EmptyString)
    /\ ds <> [].
Proof.
  unfold JS.exponent_suffix.
  destruct (digits_of_spec (Z.to_N (Z.abs (n - 1)))) as (Hall & _ & Hne).
  pose proof (span_digits_app _ [] Hall) as Hspan.
  rewrite app_nil_r in Hspan.
  specialize (Hspan ltac:(discriminate)).
  remember (JS.digits_of (Z.to_N (Z.abs (n - 1)))) as ds eqn:Eds.
  clear Eds.
  destruct (n - 1 <? 0)%Z; eexists; exists ds;
    (split; [reflexivity | split; [exact Hspan | exact Hne]]).
Qed.

Lemma valid_unsigned_integer (ints rest : list ascii) :
  ints <> [] ->
  Forall (fun c => JS.is_digit c = true) ints ->
  rest = [] \/ (exists n, rest = JS.exponent_suffix n) ->
  HTML.valid_unsigned (string_of_list_ascii (ints ++ rest)) = true.
Proof.
  intros Hne Hints Hrest. unfold HTML.valid_unsigned.
  destruct ints as [| c ints']; [congruence |].
  destruct Hrest as [-> | [n ->]].
  - rewrite (span_digits_app _ [] Hints) by discriminate. reflexivity.
  - destruct (exponent_suffix_valid n) as (sgn & ds & -> & Hspan & Hds).
    rewrite (span_digits_app _ _ Hints)
      by (intros a r E; inversion E; reflexivity).
    change (JS.expect "." (string_of_list_ascii ("e"%char :: sgn :: ds)))
      with (@None string).
    cbv beta iota.
    change (string_of_list_ascii ("e"%char :: sgn :: ds))
      with (String "e" (string_of_list_ascii (sgn :: ds))).
    cbv beta iota. change (Ascii.eqb "e" "e") with true.
    cbn [orb]. rewrite Hspan.
    destruct ds; [congruence | reflexivity].
Qed.

Lemma valid_unsigned_fraction (ints fracs rest : list ascii) :
  Forall (fun c => JS.is_digit c = true) ints ->
  fracs <> [] ->
  Forall (fun c => JS.is_digit c = true) fracs ->
  rest = [] \/ (exists n, rest = JS.exponent_suffix n) ->
  HTML.valid_unsigned
    (string_of_list_ascii (ints ++ "."%char :: fracs ++ rest)) = true.
Proof.
  intros Hints Hne Hfracs Hrest. unfold HTML.valid_unsigned.
  rewrite (span_digits_app _ _ Hints)
    by (intros a r E; inversion E; reflexivity).
  change (JS.expect "." (string_of_list_ascii ("."%char :: fracs ++ rest)))
    with (Some (string_of_list_ascii (fracs ++ rest))).
  cbv beta iota.
  destruct Hrest as [-> | [n ->]].
  - rewrite (span_digits_app _ [] Hfracs) by discriminate.
    destruct fracs; [congruence | reflexivity].
  - destruct (exponent_suffix_valid n) as (sgn & ds & -> & Hspan & Hds).
    rewrite (span_digits_app _ _ Hfracs)
      by (intros a r E; inversion E; reflexivity).
    destruct fracs; [congruence |].
    change (string_of_list_ascii ("e"%char :: sgn :: ds))
      with (String "e" (string_of_list_ascii (sgn :: ds))).
    cbv beta iota. change (Ascii.eqb "e" "e") with true.
    cbn [orb]. rewrite Hspan.
    destruct ds; [congruence | reflexivity].
Qed.

Lemma unsigned_toString_valid (s : N) (e : Z) :
  HTML.valid_unsigned (string_of_list_ascii (JS.unsigned_toString s e))
  = true.
Proof.
  unfold JS.unsigned_toString.
  destruct (digits_of_spec s) as (Hall & _ & Hne).
  remember (JS.digits_of s) as ds eqn:Eds. clear Eds.
  set (k := Z.of_nat (List.length ds)).
  destruct ((k <=? k + e) && (k + e <=? 21))%Z eqn:C1.
  { rewrite <- (app_nil_r (ds ++ _)). apply valid_unsigned_integer.
    - destruct ds; [congruence | discriminate].
    - apply Forall_app. split; [exact Hall | apply zeros_are_digits].
    - left. reflexivity. }
  destruct ((0 <? k + e) && (k + e <=? 21))%Z eqn:C2.
  { apply andb_prop in C2 as [C2 C2']. apply Z.ltb_lt in C2.
    apply Z.leb_le in C2'. apply andb_false_iff in C1.
    assert (Hn : (k + e < k)%Z).
    { destruct C1 as [C1 | C1]; apply Z.leb_gt in C1; lia. }
    assert (Hboth : Forall (fun c => JS.is_digit c = true)
                      (firstn (Z.to_nat (k + e)) ds)
                    /\ Forall (fun c => JS.is_digit c = true)
                         (skipn (Z.to_nat (k + e)) ds)).
    { apply Forall_app. rewrite firstn_skipn. exact Hall. }
    rewrite <- (app_nil_r (skipn _ ds)). apply valid_unsigned_fraction.
    - apply Hboth.
    - intros H. apply (f_equal (@List.length ascii)) in H.
      rewrite length_skipn in H. simpl in H. unfold k in *. lia.
    - apply Hboth.
    - left. reflexivity. }
  destruct ((-6 <? k + e) && (k + e <=? 0))%Z eqn:C3.
  { change ("0"%char :: "."%char :: repeat "0"%char (Z.to_nat (- (k + e)))
            ++ ds)
      with (["0"%char] ++ "."%char :: repeat "0"%char (Z.to_nat (- (k + e)))
            ++ ds).
    rewrite <- (app_nil_r ds) at 1. rewrite app_assoc.
    apply valid_unsigned_fraction.
    - constructor; [reflexivity | constructor].
    - destruct ds; [congruence |]. destruct (repeat _ _); discriminate.
    - apply Forall_app. split; [apply zeros_are_digits | exact Hall].
    - left. reflexivity. }
  destruct ds as [| d rest]; [congruence |].
  destruct rest as [| d' rest'].
  - change (d :: JS.exponent_suffix (k + e))
      with ([d] ++ JS.exponent_suffix (k + e)).
    apply valid_unsigned_integer; [discriminate | exact Hall | eauto].
  - change (d :: "."%char :: (d' :: rest') ++ JS.exponent_suffix (k + e))
      with ([d] ++ "."%char :: (d' :: rest') ++ JS.exponent_suffix (k + e)).
    apply valid_unsigned_fraction; [| discriminate | | eauto].
    + constructor; [inversion Hall; assumption | constructor].
    + inversion Hall; assumption.
Qed.

(** The text of [Number_toString] is never empty and is a valid
    floating-point number. *)
Lemma Number_toString_syntax (x : JS.decimal_repr) :
  JS.falsy (JS.Number_toString x) = false
  /\ HTML.valid_floating_point_number (JS.Number_toString x) = true.
Proof.
  unfold JS.Number_toString, HTML.valid_floating_point_number.
  destruct (JS.significand x =? 0)%N; [split; reflexivity |].
  destruct (JS.strip_zeros _ (JS.significand x) (JS.exponent10 x)) as [s e].
  pose proof (unsigned_toString_valid s e) as Hvalid.
  destruct (unsigned_toString_head s e) as (c & r & Hhead & Hc).
  destruct (digit_facts c Hc) as (_ & Hminus & _).
  destruct (JS.negative x).
  - split; [reflexivity |].
    cbn [app string_of_list_ascii].
    change (JS.expect "-" (String "-" ?s)) with (Some s).
    exact Hvalid.
  - cbn [app]. rewrite Hhead in *. split; [reflexivity |].
    cbn [string_of_list_ascii] in *. unfold JS.expect at 1.
    rewrite Hminus. exact Hvalid.
Qed.

(** The number inputs accept the text of [Number_toString]. *)
Lemma Number_toString_valid (x : JS.decimal_repr) :
  JS.falsy (JS.Number_toString x) = false
  /\ HTML.number_required_ok (JS.Number_toString x) = true.
Proof.
  destruct (Number_toString_syntax x) as [Hne Hv].
  split; [exact Hne |]. unfold HTML.number_required_ok.
  rewrite Hv, parseFloat_Number_toString. apply (JS.in_range x).
Qed.

(** The value of [JS.decimal] with a negative exponent, as a fraction. *)
Lemma decimal_fraction (neg : bool) (m : N) (k : nat) :
  JS.decimal neg m (0 - Z.of_nat k)
  == (if neg then - (1) else 1) * inject_Z (Z.of_N m)
     / inject_Z (10 ^ Z.of_nat k).
Proof.
  unfold JS.decimal. rewrite Qred_correct.
  replace (0 - Z.of_nat k)%Z with (- Z.of_nat k)%Z by lia.
  rewrite Qpower_opp, Zpower_Qpower by lia.
  change (inject_Z 10) with (10 # 1). unfold Qdiv.
  destruct neg; ring.
Qed.

(** [parseFloat] reads a decimal numeral as the double nearest to the
    number it denotes. *)
Lemma parseFloat_numeral (neg : bool) (ints fracs : list ascii) :
  ints <> [] ->
  Forall (fun c => JS.is_digit c = true) ints ->
  Forall (fun c => JS.is_digit c = true) fracs ->
  JS.parseFloat (JS.numeral neg ints fracs)
  = JS.to_double (JS.numeral_value neg ints fracs).
Proof.
  intros Hne Hints Hfracs.
  assert (Hparse :
            JS.parse_unsigned neg
              (string_of_list_ascii
                 (ints ++ match fracs with
                          | [] => []
                          | _ :: _ => "."%char :: fracs
                          end))
            = JS.to_double (JS.numeral_value neg ints fracs)).
  { unfold JS.numeral_value. destruct fracs as [| f fs].
    - rewrite parse_unsigned_integer by (assumption || discriminate).
      rewrite app_nil_r. apply to_double_Qeq.
      change (JS.exponent_part (string_of_list_ascii [])) with 0%Z.
      apply (decimal_fraction neg _ 0).
    - rewrite <- (app_nil_r (f :: fs)) at 1.
      rewrite parse_unsigned_fraction by (assumption || discriminate).
      apply to_double_Qeq.
      change (JS.exponent_part (string_of_list_ascii [])) with 0%Z.
      apply decimal_fraction. }
  destruct ints as [| c ints']; [congruence |].
  assert (Hc : JS.is_digit c = true) by (inversion Hints; assumption).
  destruct (digit_facts c Hc) as (Hws & Hminus & Hplus & _).
  unfold JS.numeral, JS.parseFloat.
  destruct neg.
  - cbn [app string_of_list_ascii] in *.
    rewrite trimStart_none by (apply skip_sign_or_dot; auto).
    unfold JS.split_sign.
    change (JS.expect "-" (String "-" ?s)) with (Some s).
    exact Hparse.
  - cbn [app string_of_list_ascii] in *.
    rewrite trimStart_none by apply Hws.
    unfold JS.split_sign, JS.expect. rewrite Hminus, Hplus.
    exact Hparse.
Qed.

End NumberToStringFacts.

(* ================================================================== *)
(** * IncidentReportForm: what [handleSubmit] checks and what it sends *)

Section IncidentReportFormFacts.
Import Supabase IncidentReportForm.
Variable srv : Server.
Variable userId : string.
Variable onSuccess : bool.

(** The guard does not depend on the error cell. *)
Lemma missing_required_setError (e : string) (st : State) :
  missing_required (setError e st) = missing_required st.
Proof. reflexivity. Qed.

Lemma payload_setError (e : string) (st : State) :
  payload userId (setError e st) = payload userId st.
Proof. reflexivity. Qed.

Lemma payload_setLoading (b : bool) (st : State) :
  payload userId (setLoading b st) = payload userId st.
Proof. reflexivity. Qed.

(** When a required text is empty the handler stops before any request. *)
Lemma handleSubmit_rejected (clock : string) (st : State) (d : Db) :
  missing_required st = true ->
  handleSubmit srv userId onSuccess clock st d
  = mkOutcome
      (setError "Please fill in all required fields." (setError "" st))
      d false.
Proof.
  intros H. unfold handleSubmit.
  rewrite missing_required_setError, H. reflexivity.
Qed.

(** Otherwise exactly one request is sent: the insert of the payload. *)
Lemma handleSubmit_sends (clock : string) (st : State) (d : Db) :
  missing_required st = false ->
  db (handleSubmit srv userId onSuccess clock st d)
  = fst (send srv (InsertIncident (payload userId st)) d).
Proof.
  intros H. unfold handleSubmit.
  rewrite missing_required_setError, H.
  rewrite payload_setLoading, payload_setError.
  destruct (send srv (InsertIncident (payload userId st)) d) as [d' [e|]];
    reflexivity.
Qed.

Lemma handleSubmit_accepted (clock : string) (st : State) (d : Db) :
  missing_required st = false ->
  refuses srv (InsertIncident (payload userId st)) d = None ->
  handleSubmit srv userId onSuccess clock st d
  = mkOutcome
      (setLoading false
         (reset_fields clock (setLoading true (setError "" st))))
      (log_request (InsertIncident (payload userId st))
         (apply_request srv (InsertIncident (payload userId st)) d))
      onSuccess.
Proof.
  intros H Hacc. unfold handleSubmit.
  rewrite missing_required_setError, H.
  rewrite payload_setLoading, payload_setError.
  unfold send. rewrite Hacc. reflexivity.
Qed.

Lemma missing_required_false (st : State) :
  missing_required st = false <->
  type st <> "" /\ description st <> "" /\
  locationLat st <> "" /\ locationLng st <> "".
Proof.
  unfold missing_required.
  destruct (type st), (description st), (locationLat st), (locationLng st);
    simpl; split; intros H; try discriminate; try reflexivity;
    try (repeat split; discriminate);
    destruct H as (H1 & H2 & H3 & H4); congruence.
Qed.

End IncidentReportFormFacts.

(* ================================================================== *)
(** * IncidentReportForm: the ingestion claims *)

(** C1 (as stated, refuted).  A submission with latitude text "91" is not
    rejected: with a backend that accepts the request, [handleSubmit] stores
    an incident whose latitude is 91, outside [-90,90], and shows no error. *)
Lemma handleSubmit_latitude_91_is_inserted :
  let st := Fixtures.report "91" "28.0473" "2026-11-01T09:30" in
  let o :=
    IncidentReportForm.handleSubmit Fixtures.accepting "user-1" false
      "2026-11-02T10:00" st Fixtures.empty_db in
  IncidentReportForm.latitude_in_range
    (JS.parseFloat (IncidentReportForm.locationLat st)) = false
  /\ IncidentReportForm.error (IncidentReportForm.state o) = ""
  /\ exists row,
       Supabase.incidents (IncidentReportForm.db o) = [row]
       /\ Supabase.Incident.location_lat row = JS.of_Z 91.
Proof.
  cbv zeta. split; [reflexivity | split; [reflexivity |]].
  eexists. split; reflexivity.
Qed.

(** C1 (amended).  [handleSubmit] performs no range check on the
    coordinates: whenever the type, the description and the two coordinate
    texts are non-empty, it sends one insert whose coordinates are
    [parseFloat] of the two texts, whatever their values; when the backend
    accepts the request the incident is stored with those coordinates and
    the error message stays empty. *)
Theorem handleSubmit_no_coordinate_range_check :
  forall (srv : Supabase.Server) (userId : string) (onSuccess : bool)
         (clock : string) (st : IncidentReportForm.State) (d : Supabase.Db),
    IncidentReportForm.type st <> "" ->
    IncidentReportForm.description st <> "" ->
    IncidentReportForm.locationLat st <> "" ->
    IncidentReportForm.locationLng st <> "" ->
    let o := IncidentReportForm.handleSubmit srv userId onSuccess clock st d in
    let p := IncidentReportForm.payload userId st in
    Supabase.received (IncidentReportForm.db o)
    = Supabase.received d ++ [Supabase.InsertIncident p]
    /\ Supabase.NewIncident.location_lat p
       = JS.parseFloat (IncidentReportForm.locationLat st)
    /\ Supabase.NewIncident.location_lng p
       = JS.parseFloat (IncidentReportForm.locationLng st)
    /\ (Supabase.refuses srv (Supabase.InsertIncident p) d = None ->
        IncidentReportForm.error (IncidentReportForm.state o) = ""
        /\ exists row,
             Supabase.incidents (IncidentReportForm.db o)
             = Supabase.incidents d ++ [row]
             /\ Supabase.Incident.location_lat row
                = JS.parseFloat (IncidentReportForm.locationLat st)
             /\ Supabase.Incident.location_lng row
                = JS.parseFloat (IncidentReportForm.locationLng st)).
Proof.
  intros srv userId onSuccess clock st d Ht Hd Hlat Hlng o p.
  assert (Hm : IncidentReportForm.missing_required st = false)
    by (apply missing_required_false; auto).
  split; [| split; [reflexivity | split; [reflexivity |]]].
  - subst o p. rewrite handleSubmit_sends by exact Hm. apply send_received.
  - intros Hacc. subst o p.
    rewrite handleSubmit_accepted by assumption. simpl.
    split; [reflexivity |]. eexists. split; [reflexivity |]. split; reflexivity.
Qed.

Lemma handleSubmit_no_coordinate_range_check_witness :
  let st := Fixtures.report "91" "-181" "2026-11-01T09:30" in
  Supabase.received
    (IncidentReportForm.db
       (IncidentReportForm.handleSubmit Fixtures.accepting "user-1" false
          "2026-11-02T10:00" st Fixtures.empty_db))
  = [Supabase.InsertIncident (IncidentReportForm.payload "user-1" st)].
Proof.
  intros st.
  refine (proj1 (handleSubmit_no_coordinate_range_check Fixtures.accepting
                   "user-1" false "2026-11-02T10:00" st Fixtures.empty_db
                   _ _ _ _)); discriminate.
Defined.

(** C2 (as stated, refuted).  With every other field filled in and the
    date cleared, [handleSubmit] does not stop at its guard: it sends the
    insert, with the empty string as timestamp. *)
Lemma handleSubmit_empty_timestamp_is_sent :
  let st := Fixtures.report "-26.2041" "28.0473" "" in
  let o :=
    IncidentReportForm.handleSubmit Fixtures.accepting "user-1" false
      "2026-11-02T10:00" st Fixtures.empty_db in
  IncidentReportForm.incidentDate st = ""
  /\ IncidentReportForm.missing_required st = false
  /\ Supabase.received (IncidentReportForm.db o)
     = [Supabase.InsertIncident (IncidentReportForm.payload "user-1" st)]
  /\ Supabase.NewIncident.timestamp (IncidentReportForm.payload "user-1" st)
     = ""
  /\ IncidentReportForm.error (IncidentReportForm.state o) = "".
Proof.
  cbv zeta. repeat split.
Qed.

(** C2 (amended).  [handleSubmit] rejects a submission if and only if the
    type, the description, the latitude text or the longitude text is empty
    (the severity always has a value).  On such a rejection it shows
    "Please fill in all required fields.", leaves the backend as it was,
    request log included, and does not call [onSuccess]; otherwise it sends
    the insert.  An empty timestamp is stopped by the [required] attribute
    of the date input instead: a click on the submit button then changes
    nothing. *)
Theorem handleSubmit_rejects_iff_text_missing :
  forall (srv : Supabase.Server) (userId : string) (onSuccess : bool)
         (max clock : string) (st : IncidentReportForm.State)
         (d : Supabase.Db),
    let o := IncidentReportForm.handleSubmit srv userId onSuccess clock st d in
    (IncidentReportForm.missing_required st = true
     <-> IncidentReportForm.type st = ""
         \/ IncidentReportForm.description st = ""
         \/ IncidentReportForm.locationLat st = ""
         \/ IncidentReportForm.locationLng st = "")
    /\ (IncidentReportForm.missing_required st = true ->
        IncidentReportForm.db o = d
        /\ IncidentReportForm.error (IncidentReportForm.state o)
           = "Please fill in all required fields."
        /\ IncidentReportForm.onSuccess_called o = false)
    /\ (IncidentReportForm.missing_required st = false ->
        Supabase.received (IncidentReportForm.db o)
        = Supabase.received d
          ++ [Supabase.InsertIncident (IncidentReportForm.payload userId st)])
    /\ (IncidentReportForm.incidentDate st = "" ->
        IncidentReportForm.submit_click srv userId onSuccess max clock st d
        = IncidentReportForm.mkOutcome st d false).
Proof.
  intros srv userId onSuccess max clock st d o.
  split; [| split; [| split]].
  - unfold IncidentReportForm.missing_required.
    destruct (IncidentReportForm.type st),
             (IncidentReportForm.description st),
             (IncidentReportForm.locationLat st),
             (IncidentReportForm.locationLng st);
      simpl; split; intros H; auto; try discriminate H;
      destruct H as [H | [H | [H | H]]]; discriminate H.
  - intros Hm. subst o. rewrite handleSubmit_rejected by exact Hm.
    repeat split.
  - intros Hm. subst o. rewrite handleSubmit_sends by exact Hm.
    apply send_received.
  - intros Hdate. unfold IncidentReportForm.submit_click.
    destruct (IncidentReportForm.loading st); [reflexivity |].
    replace (IncidentReportForm.checkValidity max st) with false;
      [reflexivity |].
    unfold IncidentReportForm.checkValidity. rewrite Hdate.
    unfold HTML.datetime_local_ok. simpl.
    now rewrite andb_false_r.
Qed.

Lemma handleSubmit_rejects_iff_text_missing_witness :
  let st :=
    IncidentReportForm.mkState "Theft" "" Supabase.medium "-26.2041"
      "28.0473" "" "" false "" in
  let o :=
    IncidentReportForm.handleSubmit Fixtures.accepting "user-1" true
      "2026-11-02T10:00" st Fixtures.empty_db in
  IncidentReportForm.missing_required st = true
  /\ IncidentReportForm.incidentDate st = ""
  /\ IncidentReportForm.db o = Fixtures.empty_db
  /\ IncidentReportForm.submit_click Fixtures.accepting "user-1" true
       "2026-11-02T10:00" "2026-11-02T10:00" st Fixtures.empty_db
     = IncidentReportForm.mkOutcome st Fixtures.empty_db false.
Proof.
  intros st o.
  destruct (handleSubmit_rejects_iff_text_missing Fixtures.accepting
              "user-1" true "2026-11-02T10:00" "2026-11-02T10:00" st
              Fixtures.empty_db) as (_ & Rejected & _ & Gate).
  split; [reflexivity | split; [reflexivity | split]].
  - exact (proj1 (Rejected eq_refl)).
  - exact (Gate eq_refl).
Defined.

(** C3 (as stated, refuted).  At 2026-11-02 10:00 a submission dated
    2999-01-01 00:00 is accepted: [handleSubmit] stores it with that
    timestamp, which is later than the clock, and shows no error. *)
Lemma handleSubmit_future_timestamp_is_inserted :
  let clock := "2026-11-02T10:00" in
  let st := Fixtures.report "-26.2041" "28.0473" "2999-01-01T00:00" in
  let o :=
    IncidentReportForm.handleSubmit Fixtures.accepting "user-1" false clock
      st Fixtures.empty_db in
  IncidentReportForm.error (IncidentReportForm.state o) = ""
  /\ (exists row,
        Supabase.incidents (IncidentReportForm.db o) = [row]
        /\ Supabase.Incident.timestamp row = "2999-01-01T00:00")
  /\ exists now t,
       HTML.parse_local_date_time clock = Some now
       /\ HTML.parse_local_date_time "2999-01-01T00:00" = Some t
       /\ (now < t)%N.
Proof.
  cbv zeta. split; [reflexivity | split].
  - eexists. split; reflexivity.
  - do 2 eexists. split; [reflexivity | split; [reflexivity |]].
    vm_compute. reflexivity.
Qed.

(** C3 (amended).  [handleSubmit] does not compare the timestamp with the
    clock: past its guard it sends [incidentDate] unchanged.  The one bound
    is the [max] attribute of the date input: a click on the submit button
    sends nothing unless [incidentDate] is a valid local date and time, and
    not later than [max] when [max] is one. *)
Theorem timestamp_bounded_by_max_attribute_only :
  forall (srv : Supabase.Server) (userId : string) (onSuccess : bool)
         (max clock : string) (st : IncidentReportForm.State)
         (d : Supabase.Db),
    (IncidentReportForm.missing_required st = false ->
     Supabase.received
       (IncidentReportForm.db
          (IncidentReportForm.handleSubmit srv userId onSuccess clock st d))
     = Supabase.received d
       ++ [Supabase.InsertIncident (IncidentReportForm.payload userId st)]
     /\ Supabase.NewIncident.timestamp (IncidentReportForm.payload userId st)
        = IncidentReportForm.incidentDate st)
    /\ (Supabase.received
          (IncidentReportForm.db
             (IncidentReportForm.submit_click srv userId onSuccess max clock
                st d))
        <> Supabase.received d ->
        exists t,
          HTML.parse_local_date_time (IncidentReportForm.incidentDate st)
          = Some t
          /\ forall m, HTML.parse_local_date_time max = Some m -> (t <= m)%N).
Proof.
  intros srv userId onSuccess max clock st d. split.
  - intros Hm. split; [| reflexivity].
    rewrite handleSubmit_sends by exact Hm. apply send_received.
  - unfold IncidentReportForm.submit_click.
    destruct (IncidentReportForm.loading st); [intros H; now elim H |].
    destruct (IncidentReportForm.checkValidity max st) eqn:Hv;
      [| intros H; now elim H].
    intros _. unfold IncidentReportForm.checkValidity in Hv.
    repeat (apply andb_prop in Hv; destruct Hv as [Hv ?]).
    match goal with
    | H : HTML.datetime_local_ok _ _ = true |- _ =>
        unfold HTML.datetime_local_ok in H;
        destruct (HTML.parse_local_date_time
                    (IncidentReportForm.incidentDate st)) as [t|];
        [| discriminate H];
        exists t; split; [reflexivity |];
        intros m Hmax; rewrite Hmax in H; now apply N.leb_le
    end.
Qed.

Lemma timestamp_bounded_by_max_attribute_only_witness :
  let st := Fixtures.report "-26.2041" "28.0473" "2026-11-01T09:30" in
  IncidentReportForm.missing_required st = false
  /\ Supabase.NewIncident.timestamp (IncidentReportForm.payload "user-1" st)
     = "2026-11-01T09:30"
  /\ exists t,
       HTML.parse_local_date_time "2026-11-01T09:30" = Some t
       /\ forall m,
            HTML.parse_local_date_time "2026-11-02T10:00" = Some m ->
            (t <= m)%N.
Proof.
  intros st.
  destruct (timestamp_bounded_by_max_attribute_only Fixtures.accepting
              "user-1" false "2026-11-02T10:00" "2026-11-02T10:01" st
              Fixtures.empty_db) as [Sent Bound].
  split; [reflexivity | split].
  - exact (proj2 (Sent eq_refl)).
  - apply Bound. vm_compute. discriminate.
Defined.



(** Through the submit button the two coordinates always reach the backend
    as finite numbers: the number inputs accept nothing else. *)
Lemma submit_click_sends_finite_coordinates :
  forall (srv : Supabase.Server) (userId : string) (onSuccess : bool)
         (max clock : string) (st : IncidentReportForm.State)
         (d : Supabase.Db),
    Supabase.received
      (IncidentReportForm.db
         (IncidentReportForm.submit_click srv userId onSuccess max clock
            st d))
    <> Supabase.received d ->
    exists lat lng,
      JS.parseFloat (IncidentReportForm.locationLat st) = JS.Finite lat
      /\ JS.parseFloat (IncidentReportForm.locationLng st) = JS.Finite lng.
Proof.
  intros srv userId onSuccess max clock st d.
  unfold IncidentReportForm.submit_click.
  destruct (IncidentReportForm.loading st); [intros H; now elim H |].
  destruct (IncidentReportForm.checkValidity max st) eqn:Hv;
    [| intros H; now elim H].
  intros _. unfold IncidentReportForm.checkValidity in Hv.
  apply andb_prop in Hv. destruct Hv as [Hv Hlng].
  apply andb_prop in Hv. destruct Hv as [_ Hlat].
  destruct (number_required_ok_finite _ Hlat) as [_ [lat Elat]].
  destruct (number_required_ok_finite _ Hlng) as [_ [lng Elng]].
  eauto.
Qed.

(* ================================================================== *)
(** * Incident status: the union type and its frame *)

Section StatusFrame.
Import Supabase.
Variable srv : Server.
Variable userId : string.
Variable Date_getTime : string -> option Z.

Lemma grows_refl (d : Db) : App.grows d d.
Proof. exists []. split; [now rewrite app_nil_r | constructor]. Qed.

Lemma grows_trans (a b c : Db) :
  App.grows a b -> App.grows b c -> App.grows a c.
Proof.
  intros (n1 & E1 & F1) (n2 & E2 & F2). exists (n1 ++ n2). split.
  - now rewrite E2, E1, app_assoc.
  - apply Forall_app. now split.
Qed.

Lemma grows_same_incidents (d d' : Db) :
  incidents d' = incidents d -> App.grows d d'.
Proof.
  intros E. exists []. split; [now rewrite app_nil_r | constructor].
Qed.

(** A request leaves the incidents alone unless it is an accepted insert
    into [incidents]. *)
Lemma send_incidents (q : Request) (d : Db) :
  (forall r, q <> InsertIncident r) ->
  incidents (fst (send srv q d)) = incidents d.
Proof.
  intros Hq. unfold send. destruct (refuses srv q d); simpl.
  - reflexivity.
  - destruct q; try reflexivity. now elim (Hq row).
Qed.

Lemma send_insert_incident (r : NewIncident.t) (d : Db) :
  NewIncident.status r = pending ->
  App.grows d (fst (send srv (InsertIncident r) d)).
Proof.
  intros Hp. unfold send. destruct (refuses srv _ d); simpl.
  - now apply grows_same_incidents.
  - exists [new_incident_row srv r d]. split; [reflexivity |].
    constructor; [exact Hp | constructor].
Qed.

Lemma handleSubmit_grows (onSuccess : bool) (clock : string)
      (st : IncidentReportForm.State) (d : Db) :
  App.grows d (IncidentReportForm.db
             (IncidentReportForm.handleSubmit srv userId onSuccess clock
                st d)).
Proof.
  destruct (IncidentReportForm.missing_required st) eqn:Hm.
  - rewrite handleSubmit_rejected by exact Hm. apply grows_refl.
  - rewrite handleSubmit_sends by exact Hm.
    now apply send_insert_incident.
Qed.

Lemma step_grows (w : App.World) (e : App.Event) :
  App.grows (App.db w) (App.db (App.step srv userId Date_getTime w e)).
Proof.
  destruct e; simpl; try apply grows_refl.
  - apply handleSubmit_grows.
  - unfold AlertsPanel.markAsRead.
    pose proof (send_incidents (MarkAlertRead alertId) (App.db w)) as H.
    destruct (send srv (MarkAlertRead alertId) (App.db w)) as [d' [e|]];
      simpl in *; apply grows_same_incidents, H; discriminate.
  - unfold AlertsPanel.markAllAsRead.
    pose proof (send_incidents (MarkUnreadAlertsRead userId) (App.db w))
      as H.
    destruct (send srv (MarkUnreadAlertsRead userId) (App.db w))
      as [d' [e|]];
      simpl in *; apply grows_same_incidents, H; discriminate.
  - unfold NeighbourhoodWatch.handleCreateGroup.
    set (q1 := InsertGroup _).
    pose proof (send_incidents q1 (App.db w)) as H1.
    destruct (send srv q1 (App.db w)) as [d1 [e|]]; simpl in *.
    + apply grows_same_incidents, H1. subst q1. discriminate.
    + set (q2 := InsertGroupMember _).
      pose proof (send_incidents q2 d1) as H2.
      assert (E1 : incidents d1 = incidents (App.db w))
        by (apply H1; subst q1; discriminate).
      destruct (send srv q2 d1) as [d2 [e|]]; simpl in *;
        apply grows_same_incidents; rewrite <- E1; apply H2;
        subst q2; discriminate.
  - unfold NeighbourhoodWatch.handleJoinGroup.
    set (q := InsertGroupMember _).
    pose proof (send_incidents q (App.db w)) as H.
    destruct (send srv q (App.db w)) as [d' [e|]];
      simpl in *; apply grows_same_incidents, H; subst q; discriminate.
  - unfold NeighbourhoodWatch.handleLeaveGroup.
    set (q := DeleteGroupMember _ _).
    pose proof (send_incidents q (App.db w)) as H.
    destruct (send srv q (App.db w)) as [d' [e|]];
      simpl in *; apply grows_same_incidents, H; subst q; discriminate.
Qed.

Lemma run_grows (es : list App.Event) (w : App.World) :
  App.grows (App.db w) (App.db (App.run srv userId Date_getTime w es)).
Proof.
  revert w. induction es as [| e es IH]; intros w; simpl.
  - apply grows_refl.
  - eapply grows_trans; [apply step_grows | apply IH].
Qed.

End StatusFrame.

(** C5 (as stated, refuted).  The third status of the code is
    [reported_to_saps]: its literal is not among pending, verified,
    reported, resolved, and "reported" is no status of the code (the
    dashboard gives it the colour of an unknown status). *)
Lemma reported_is_not_the_status_literal :
  ~ In (Supabase.Status_literal Supabase.reported_to_saps)
       ["pending"; "verified"; "reported"; "resolved"]
  /\ Supabase.Status_of_literal "reported" = None
  /\ Dashboard.getStatusColor "reported" = "bg-gray-100 text-gray-800".
Proof.
  split; [| split; reflexivity].
  simpl. intros [H | [H | [H | [H | []]]]]; discriminate H.
Qed.

(** C5 (amended).  Every incident's status is one of exactly the four
    values pending, verified, reported_to_saps, resolved, and no handler of
    the client changes the status of a stored incident: after any sequence of
    handler runs the incidents stored before are still there, unchanged and
    in place, followed only by newly inserted ones whose status is
    pending. *)
Theorem status_values_and_frame :
  (forall s : string,
      Supabase.Status_of_literal s <> None
      <-> In s ["pending"; "verified"; "reported_to_saps"; "resolved"])
  /\ (forall st : Supabase.Status,
         Supabase.Status_of_literal (Supabase.Status_literal st) = Some st)
  /\ (forall (srv : Supabase.Server) (userId : string)
             (Date_getTime : string -> option Z)
             (es : list App.Event) (w : App.World),
         exists new,
           Supabase.incidents
             (App.db (App.run srv userId Date_getTime w es))
           = Supabase.incidents (App.db w) ++ new
           /\ Forall
                (fun i => Supabase.Incident.status i = Supabase.pending) new).
Proof.
  split; [| split].
  - intros s. unfold Supabase.Status_of_literal. simpl.
    destruct (String.eqb_spec s "pending") as [-> | N1];
      [split; [auto | discriminate] |].
    destruct (String.eqb_spec s "verified") as [-> | N2];
      [split; [auto | discriminate] |].
    destruct (String.eqb_spec s "reported_to_saps") as [-> | N3];
      [split; [auto | discriminate] |].
    destruct (String.eqb_spec s "resolved") as [-> | N4];
      [split; [auto 6 | discriminate] |].
    split; [intros H; now elim H |].
    intros [H | [H | [H | [H | []]]]]; congruence.
  - intros []; reflexivity.
  - intros srv userId Date_getTime es w.
    apply (run_grows srv userId Date_getTime es w).
Qed.

(* ================================================================== *)
(** * AlertsPanel: only the read flag changes *)

Section AlertFrame.
Import Supabase.
Variable srv : Server.

Lemma Forall2_map_self {A : Type} (R : A -> A -> Prop) (f : A -> A)
      (l : list A) :
  (forall a, R a (f a)) -> Forall2 R l (map f l).
Proof.
  intros H. induction l as [| a l IH]; simpl; constructor; auto.
Qed.

Lemma Forall2_same {A : Type} (R : A -> A -> Prop) (l : list A) :
  (forall a, R a a) -> Forall2 R l l.
Proof.
  intros H. induction l; constructor; auto.
Qed.

Lemma same_but_is_read_refl (a : Alert.t) : AlertsPanel.same_but_is_read a a.
Proof. repeat split. Qed.

Lemma same_but_is_read_with (b : bool) (a : Alert.t) :
  AlertsPanel.same_but_is_read a (Alert.with_is_read b a).
Proof. repeat split. Qed.

Lemma same_but_is_read_mark (p : Alert.t -> bool) (a : Alert.t) :
  AlertsPanel.same_but_is_read a (mark_read_if p a).
Proof.
  unfold mark_read_if. destruct (p a).
  - apply same_but_is_read_with.
  - apply same_but_is_read_refl.
Qed.

(** Ordering keeps exactly the rows it is given. *)
Lemma In_insert_desc {A K : Type} (leb : K -> K -> bool) (key : A -> K)
      (x y : A) (l : list A) :
  In y (insert_desc leb key x l) <-> y = x \/ In y l.
Proof.
  induction l as [| z l IH]; simpl.
  - intuition congruence.
  - destruct (leb (key z) (key x)); simpl.
    + intuition congruence.
    + rewrite IH. intuition congruence.
Qed.

Lemma In_order_desc {A K : Type} (leb : K -> K -> bool) (key : A -> K)
      (y : A) (l : list A) :
  In y (order_desc leb key l) <-> In y l.
Proof.
  unfold order_desc. induction l as [| x l IH]; simpl.
  - reflexivity.
  - rewrite In_insert_desc, IH. intuition congruence.
Qed.

(** The effect of the two alert updates on the table. *)
Lemma send_mark_alert (alertId : string) (d : Db) :
  let d' := fst (send srv (MarkAlertRead alertId) d) in
  alerts d' = alerts d
  \/ alerts d'
     = map (mark_read_if (fun a => String.eqb (Alert.id a) alertId))
           (alerts d).
Proof.
  unfold send. destruct (refuses srv _ d); simpl; auto.
Qed.

Lemma send_mark_unread (u : string) (d : Db) :
  let d' := fst (send srv (MarkUnreadAlertsRead u) d) in
  alerts d' = alerts d
  \/ alerts d'
     = map (mark_read_if
              (fun a => String.eqb (Alert.user_id a) u
                        && Bool.eqb (Alert.is_read a) false))
           (alerts d).
Proof.
  unfold send. destruct (refuses srv _ d); simpl; auto.
Qed.

End AlertFrame.

(** C6.  [markAsRead] and [markAllAsRead] change no field of an alert other
    than [is_read], in the table and in the list the panel holds; and
    [markAsRead alertId] leaves every alert whose id differs from [alertId]
    identical, in both.  After [markAllAsRead] the panel holds either the
    list it had or rows of the updated table. *)
Theorem alert_handlers_change_only_is_read :
  forall (srv : Supabase.Server) (userId : string),
    (forall (alertId : string) (st : AlertsPanel.State) (d : Supabase.Db),
        let st' := fst (AlertsPanel.markAsRead srv alertId st d) in
        let d' := snd (AlertsPanel.markAsRead srv alertId st d) in
        Forall2 AlertsPanel.same_but_is_read
          (Supabase.alerts d) (Supabase.alerts d')
        /\ Forall2 AlertsPanel.same_but_is_read
             (AlertsPanel.alerts st) (AlertsPanel.alerts st')
        /\ Forall2 (fun a a' => Supabase.Alert.id a <> alertId -> a' = a)
             (Supabase.alerts d) (Supabase.alerts d')
        /\ Forall2 (fun a a' => Supabase.Alert.id a <> alertId -> a' = a)
             (AlertsPanel.alerts st) (AlertsPanel.alerts st'))
    /\ (forall (st : AlertsPanel.State) (d : Supabase.Db),
           let st' := fst (AlertsPanel.markAllAsRead srv userId st d) in
           let d' := snd (AlertsPanel.markAllAsRead srv userId st d) in
           Forall2 AlertsPanel.same_but_is_read
             (Supabase.alerts d) (Supabase.alerts d')
           /\ (AlertsPanel.alerts st' = AlertsPanel.alerts st
               \/ forall a, In a (AlertsPanel.alerts st') ->
                            In a (Supabase.alerts d'))).
Proof.
  intros srv userId. split.
  - intros alertId st d. unfold AlertsPanel.markAsRead.
    pose proof (send_mark_alert srv alertId d) as Hd. simpl in Hd.
    assert (Hkeep : forall a : Supabase.Alert.t,
               Supabase.Alert.id a <> alertId ->
               Supabase.mark_read_if
                 (fun a => String.eqb (Supabase.Alert.id a) alertId) a = a).
    { intros a Hne. unfold Supabase.mark_read_if.
      destruct (String.eqb_spec (Supabase.Alert.id a) alertId);
        [contradiction | reflexivity]. }
    assert (Htable :
              Forall2 AlertsPanel.same_but_is_read (Supabase.alerts d)
                (Supabase.alerts
                   (fst (Supabase.send srv (Supabase.MarkAlertRead alertId) d)))
              /\ Forall2
                   (fun a a' => Supabase.Alert.id a <> alertId -> a' = a)
                   (Supabase.alerts d)
                   (Supabase.alerts
                      (fst (Supabase.send srv
                              (Supabase.MarkAlertRead alertId) d)))).
    { destruct Hd as [-> | ->]; split.
      - apply Forall2_same, same_but_is_read_refl.
      - apply Forall2_same. reflexivity.
      - apply Forall2_map_self. intros a. apply same_but_is_read_mark.
      - apply Forall2_map_self. intros a. apply Hkeep. }
    destruct (Supabase.send srv (Supabase.MarkAlertRead alertId) d)
      as [d' [e|]]; simpl in *; destruct Htable as [T1 T2].
    + repeat split; try assumption.
      * apply Forall2_same, same_but_is_read_refl.
      * apply Forall2_same. reflexivity.
    + repeat split; try assumption.
      * apply Forall2_map_self. intros a.
        destruct (String.eqb (Supabase.Alert.id a) alertId).
        -- apply same_but_is_read_with.
        -- apply same_but_is_read_refl.
      * apply Forall2_map_self. intros a Hne.
        destruct (String.eqb_spec (Supabase.Alert.id a) alertId);
          [contradiction | reflexivity].
  - intros st d. unfold AlertsPanel.markAllAsRead.
    pose proof (send_mark_unread srv userId d) as Hd. simpl in Hd.
    assert (Htable :
              Forall2 AlertsPanel.same_but_is_read (Supabase.alerts d)
                (Supabase.alerts
                   (fst (Supabase.send srv
                           (Supabase.MarkUnreadAlertsRead userId) d)))).
    { destruct Hd as [-> | ->].
      - apply Forall2_same, same_but_is_read_refl.
      - apply Forall2_map_self. intros a. apply same_but_is_read_mark. }
    destruct (Supabase.send srv (Supabase.MarkUnreadAlertsRead userId) d)
      as [d' [e|]]; simpl in *; split; try assumption.
    + now left.
    + unfold AlertsPanel.fetchAlerts.
      destruct (Supabase.select_fails srv "alerts" d'); simpl; [now left |].
      right. intros a Ha. unfold AlertsPanel.query in Ha.
      apply In_order_desc in Ha. apply filter_In in Ha. tauto.
Qed.

Lemma alert_handlers_change_only_is_read_witness :
  let l := [Fixtures.alert "a-1" false; Fixtures.alert "a-2" false] in
  let st := AlertsPanel.mkState l false AlertsPanel.unread in
  AlertsPanel.alerts
    (fst (AlertsPanel.markAsRead Fixtures.accepting "a-1" st
            (Fixtures.db_with_alerts l)))
  = [Fixtures.alert "a-1" true; Fixtures.alert "a-2" false]
  /\ Forall2
       (fun a a' => Supabase.Alert.id a <> "a-1" -> a' = a)
       l
       (AlertsPanel.alerts
          (fst (AlertsPanel.markAsRead Fixtures.accepting "a-1" st
                  (Fixtures.db_with_alerts l)))).
Proof.
  intros l st. split; [reflexivity |].
  apply (proj1 (alert_handlers_change_only_is_read Fixtures.accepting
                  "user-1") "a-1" st (Fixtures.db_with_alerts l)).
Defined.

(* ================================================================== *)
(** * Dashboard: the four counters *)

Section DashboardFacts.
Import Supabase.
Variable srv : Server.
Variable Date_getTime : string -> option Z.

Lemma filter_length_bound {A : Type} (f : A -> bool) (l : list A) :
  (List.length (List.filter f l) <= List.length l)%nat.
Proof.
  induction l as [| a l IH]; simpl; [lia |].
  destruct (f a); simpl; lia.
Qed.

(** Two filters that never hold together select at most the whole list. *)
Lemma disjoint_filters_bound {A : Type} (f g : A -> bool) (l : list A) :
  (forall a, f a = true -> g a = false) ->
  (List.length (List.filter f l) + List.length (List.filter g l)
   <= List.length l)%nat.
Proof.
  intros Hfg. induction l as [| a l IH]; simpl; [lia |].
  destruct (f a) eqn:Hf.
  - rewrite (Hfg a Hf). simpl. lia.
  - destruct (g a); simpl; lia.
Qed.

Lemma critical_active_not_resolved (i : Incident.t) :
  Dashboard.is_critical_active i = true -> Dashboard.is_resolved i = false.
Proof.
  unfold Dashboard.is_critical_active, Dashboard.is_resolved.
  intros H. apply andb_prop in H. destruct H as [_ H].
  now apply negb_true_iff in H.
Qed.

Lemma compute_stats_bounds (now : Z) (l : list Incident.t) :
  let s := Dashboard.compute_stats Date_getTime now l in
  Dashboard.Stats.totalIncidents s = List.length l
  /\ (Dashboard.Stats.recentIncidents s <= Dashboard.Stats.totalIncidents s)%nat
  /\ (Dashboard.Stats.criticalIncidents s <= Dashboard.Stats.totalIncidents s)%nat
  /\ (Dashboard.Stats.resolvedIncidents s <= Dashboard.Stats.totalIncidents s)%nat
  /\ (Dashboard.Stats.criticalIncidents s + Dashboard.Stats.resolvedIncidents s
      <= Dashboard.Stats.totalIncidents s)%nat.
Proof.
  simpl. repeat split; try apply filter_length_bound.
  apply disjoint_filters_bound, critical_active_not_resolved.
Qed.

End DashboardFacts.

(** C8.  For every incident list that [fetchDashboardData] fetches, the
    statistics it stores satisfy: [totalIncidents] is the length of the
    list; [recentIncidents], [criticalIncidents] and [resolvedIncidents] are
    each at most [totalIncidents]; and [criticalIncidents] plus
    [resolvedIncidents] is at most [totalIncidents]. *)
Theorem dashboard_stats_bounds :
  forall (srv : Supabase.Server) (Date_getTime : string -> option Z)
         (now : Z) (st : Dashboard.State) (d : Supabase.Db)
         (allIncidents : list Supabase.Incident.t),
    Dashboard.select_incidents srv d = Some allIncidents ->
    let s :=
      Dashboard.stats (Dashboard.fetchDashboardData srv Date_getTime now st d)
    in
    Dashboard.Stats.totalIncidents s = List.length allIncidents
    /\ (Dashboard.Stats.recentIncidents s <= Dashboard.Stats.totalIncidents s)%nat
    /\ (Dashboard.Stats.criticalIncidents s <= Dashboard.Stats.totalIncidents s)%nat
    /\ (Dashboard.Stats.resolvedIncidents s <= Dashboard.Stats.totalIncidents s)%nat
    /\ (Dashboard.Stats.criticalIncidents s + Dashboard.Stats.resolvedIncidents s
        <= Dashboard.Stats.totalIncidents s)%nat.
Proof.
  intros srv Date_getTime now st d allIncidents Hsel.
  unfold Dashboard.fetchDashboardData. rewrite Hsel.
  apply compute_stats_bounds.
Qed.

Lemma dashboard_stats_bounds_witness :
  let d :=
    IncidentReportForm.db
      (IncidentReportForm.handleSubmit Fixtures.accepting "user-1" false
         "2026-11-02T10:00"
         (Fixtures.report "-26.2041" "28.0473" "2026-11-01T09:30")
         Fixtures.empty_db) in
  exists l,
    Dashboard.select_incidents Fixtures.accepting d = Some l
    /\ Dashboard.Stats.totalIncidents
         (Dashboard.stats
            (Dashboard.fetchDashboardData Fixtures.accepting
               (fun _ => Some 0%Z) 0%Z
               (Dashboard.mkState (Dashboard.Stats.mk 0 0 0 0) [] true) d))
       = List.length l.
Proof.
  intros d. eexists. split; [reflexivity |].
  refine (proj1 (dashboard_stats_bounds Fixtures.accepting (fun _ => Some 0%Z)
                   0%Z _ d _ _)).
  reflexivity.
Defined.

(* ================================================================== *)
(** * HotspotMap: the severity classes *)

Section SeverityClasses.

Lemma ge_finite (q : Q) (z : Z) :
  JS.ge (JS.Finite q) (JS.of_Z z) = true <-> (inject_Z z <= q)%Q.
Proof. simpl. apply Qle_bool_iff. Qed.

Lemma not_ge_finite (q : Q) (z : Z) :
  JS.ge (JS.Finite q) (JS.of_Z z) = false <-> (q < inject_Z z)%Q.
Proof.
  simpl. split.
  - intros H. apply Qnot_le_lt. intros Hle.
    apply Qle_bool_iff in Hle. congruence.
  - intros H. destruct (Qle_bool (inject_Z z) q) eqn:E; [| reflexivity].
    apply Qle_bool_iff in E. now apply Qlt_not_le in H.
Qed.

Lemma ge_weaken (s : JS.number) (a b : Z) :
  (a <= b)%Z -> JS.ge s (JS.of_Z b) = true -> JS.ge s (JS.of_Z a) = true.
Proof.
  intros Hab. destruct s; simpl; try congruence.
  rewrite !Qle_bool_iff. intros H.
  apply Qle_trans with (inject_Z b); [| exact H].
  now rewrite <- Zle_Qle.
Qed.

End SeverityClasses.

(** C9 (as stated, refuted).  A score above 10 is not "Low": 11 is at least
    8, so its label is "Critical" and its colour red. *)
Lemma score_11_is_critical_not_low :
  HotspotMap.getSeverityLabel (JS.of_Z 11) = "Critical"
  /\ HotspotMap.getSeverityLabel (JS.of_Z 11) <> "Low"
  /\ HotspotMap.getSeverityColor (JS.of_Z 11) = "bg-red-500"
  /\ (10 < 11)%Q.
Proof.
  split; [reflexivity | split; [discriminate | split; reflexivity]].
Qed.

(** C9 (amended).  [getSeverityLabel] is total and its four labels partition
    the scores: "Critical" exactly for scores at least 8 (scores above 10
    among them), "High" exactly from 5 up to but not including 8, "Medium"
    exactly from 3 up to but not including 5, and "Low" for everything else,
    that is scores below 3 (negative ones too) and [NaN].
    [getSeverityColor] gives red, orange, yellow and green on exactly the
    same four classes. *)
Theorem severity_label_partition :
  (forall s : JS.number,
      (HotspotMap.getSeverityLabel s = "Critical"
       <-> JS.ge s (JS.of_Z 8) = true)
      /\ (HotspotMap.getSeverityLabel s = "High"
          <-> JS.ge s (JS.of_Z 5) = true /\ JS.ge s (JS.of_Z 8) = false)
      /\ (HotspotMap.getSeverityLabel s = "Medium"
          <-> JS.ge s (JS.of_Z 3) = true /\ JS.ge s (JS.of_Z 5) = false)
      /\ (HotspotMap.getSeverityLabel s = "Low"
          <-> JS.ge s (JS.of_Z 3) = false)
      /\ (HotspotMap.getSeverityColor s = "bg-red-500"
          <-> HotspotMap.getSeverityLabel s = "Critical")
      /\ (HotspotMap.getSeverityColor s = "bg-orange-500"
          <-> HotspotMap.getSeverityLabel s = "High")
      /\ (HotspotMap.getSeverityColor s = "bg-yellow-500"
          <-> HotspotMap.getSeverityLabel s = "Medium")
      /\ (HotspotMap.getSeverityColor s = "bg-green-500"
          <-> HotspotMap.getSeverityLabel s = "Low"))
  /\ (forall q : Q,
         (HotspotMap.getSeverityLabel (JS.Finite q) = "Critical"
          <-> (8 <= q)%Q)
         /\ (HotspotMap.getSeverityLabel (JS.Finite q) = "High"
             <-> (5 <= q)%Q /\ (q < 8)%Q)
         /\ (HotspotMap.getSeverityLabel (JS.Finite q) = "Medium"
             <-> (3 <= q)%Q /\ (q < 5)%Q)
         /\ (HotspotMap.getSeverityLabel (JS.Finite q) = "Low"
             <-> (q < 3)%Q))
  /\ HotspotMap.getSeverityLabel JS.NaN = "Low"
  /\ HotspotMap.getSeverityLabel JS.PosInfinity = "Critical"
  /\ HotspotMap.getSeverityLabel JS.NegInfinity = "Low".
Proof.
  assert (General : forall s : JS.number,
      (HotspotMap.getSeverityLabel s = "Critical"
       <-> JS.ge s (JS.of_Z 8) = true)
      /\ (HotspotMap.getSeverityLabel s = "High"
          <-> JS.ge s (JS.of_Z 5) = true /\ JS.ge s (JS.of_Z 8) = false)
      /\ (HotspotMap.getSeverityLabel s = "Medium"
          <-> JS.ge s (JS.of_Z 3) = true /\ JS.ge s (JS.of_Z 5) = false)
      /\ (HotspotMap.getSeverityLabel s = "Low"
          <-> JS.ge s (JS.of_Z 3) = false)
      /\ (HotspotMap.getSeverityColor s = "bg-red-500"
          <-> HotspotMap.getSeverityLabel s = "Critical")
      /\ (HotspotMap.getSeverityColor s = "bg-orange-500"
          <-> HotspotMap.getSeverityLabel s = "High")
      /\ (HotspotMap.getSeverityColor s = "bg-yellow-500"
          <-> HotspotMap.getSeverityLabel s = "Medium")
      /\ (HotspotMap.getSeverityColor s = "bg-green-500"
          <-> HotspotMap.getSeverityLabel s = "Low")).
  { intros s.
    unfold HotspotMap.getSeverityLabel, HotspotMap.getSeverityColor.
    pose proof (ge_weaken s 5 8 ltac:(lia)) as H85.
    pose proof (ge_weaken s 3 5 ltac:(lia)) as H53.
    destruct (JS.ge s (JS.of_Z 8)) eqn:E8.
    - rewrite (H85 eq_refl) in *. rewrite (H53 eq_refl).
      repeat split; intros; try discriminate; try tauto;
        match goal with H : _ /\ _ |- _ => destruct H; discriminate end.
    - destruct (JS.ge s (JS.of_Z 5)) eqn:E5.
      + rewrite (H53 eq_refl).
        repeat split; intros; try discriminate; try tauto;
          match goal with H : _ /\ _ |- _ => destruct H; discriminate end.
      + destruct (JS.ge s (JS.of_Z 3)) eqn:E3;
          repeat split; intros; try discriminate; try tauto;
            match goal with H : _ /\ _ |- _ => destruct H; discriminate end. }
  split; [exact General | split; [| repeat split]].
  intros q. destruct (General (JS.Finite q)) as (C & H & M & L & _).
  rewrite C, H, M, L.
  rewrite !ge_finite, !not_ge_finite. simpl. tauto.
Qed.

(* ================================================================== *)
(** * NeighbourhoodWatch: roles given on creation and on joining *)

Section MembershipFacts.
Import Supabase.
Variable srv : Server.

Lemma send_accepted (q : Request) (d : Db) :
  refuses srv q d = None ->
  send srv q d = (log_request q (apply_request srv q d), None).
Proof. intros H. unfold send. now rewrite H. Qed.

End MembershipFacts.

(** C10.  Whenever the insert of the group made by [handleCreateGroup] is
    accepted, the very next request is the insert of the creating user into
    [group_members] for the new group with role "admin", and when that is
    accepted too the tables hold the new group and that member row.
    [handleJoinGroup] always sends, as its one request, the insert of the
    user for the given group with role "member", and when it is accepted the
    table holds that row. *)
Theorem group_roles_on_create_and_join :
  forall (srv : Supabase.Server) (userId : string),
    (forall (st : NeighbourhoodWatch.State) (d : Supabase.Db),
        let g :=
          NeighbourhoodWatch.group_payload userId
            (NeighbourhoodWatch.formData st) in
        let newGroup := Supabase.new_group_row srv g d in
        let admin :=
          Supabase.GroupMember.mk
            (Supabase.NeighbourhoodWatchGroup.id newGroup) userId "admin" in
        let d1 := fst (Supabase.send srv (Supabase.InsertGroup g) d) in
        let d' := snd (NeighbourhoodWatch.handleCreateGroup srv userId st d) in
        Supabase.refuses srv (Supabase.InsertGroup g) d = None ->
        Supabase.received d'
        = Supabase.received d
          ++ [Supabase.InsertGroup g; Supabase.InsertGroupMember admin]
        /\ (Supabase.refuses srv (Supabase.InsertGroupMember admin) d1 = None ->
            Supabase.neighbourhood_watch_groups d'
            = Supabase.neighbourhood_watch_groups d ++ [newGroup]
            /\ Supabase.group_members d'
               = Supabase.group_members d ++ [admin]))
    /\ (forall (groupId : string) (st : NeighbourhoodWatch.State)
               (d : Supabase.Db),
           let member := Supabase.GroupMember.mk groupId userId "member" in
           let d' :=
             snd (NeighbourhoodWatch.handleJoinGroup srv userId groupId st d)
           in
           Supabase.received d'
           = Supabase.received d ++ [Supabase.InsertGroupMember member]
           /\ (Supabase.refuses srv (Supabase.InsertGroupMember member) d
               = None ->
               Supabase.group_members d'
               = Supabase.group_members d ++ [member])).
Proof.
  intros srv userId. split.
  - intros st d g newGroup admin d1 d' Hacc.
    subst d' d1. unfold NeighbourhoodWatch.handleCreateGroup.
    fold g. fold newGroup. fold admin.
    rewrite (send_accepted srv _ _ Hacc). simpl fst.
    set (d1 := Supabase.log_request _ _).
    pose proof (send_received srv (Supabase.InsertGroupMember admin) d1) as Hr.
    split.
    + destruct (Supabase.send srv (Supabase.InsertGroupMember admin) d1)
        as [d2 [e|]]; simpl in *; rewrite Hr; subst d1; simpl;
        now rewrite <- app_assoc.
    + intros Hacc2. rewrite (send_accepted srv _ _ Hacc2). simpl.
      split; reflexivity.
  - intros groupId st d member d'. subst d'.
    unfold NeighbourhoodWatch.handleJoinGroup. fold member.
    pose proof (send_received srv (Supabase.InsertGroupMember member) d) as Hr.
    split.
    + destruct (Supabase.send srv (Supabase.InsertGroupMember member) d)
        as [d2 [e|]]; simpl in *; exact Hr.
    + intros Hacc. rewrite (send_accepted srv _ _ Hacc). reflexivity.
Qed.

Lemma group_roles_on_create_and_join_witness :
  let d' :=
    snd (NeighbourhoodWatch.handleCreateGroup Fixtures.accepting "user-1"
           Fixtures.watch_form Fixtures.empty_db) in
  Supabase.refuses Fixtures.accepting
    (Supabase.InsertGroup
       (NeighbourhoodWatch.group_payload "user-1"
          (NeighbourhoodWatch.formData Fixtures.watch_form)))
    Fixtures.empty_db = None
  /\ Supabase.group_members d'
     = [Supabase.GroupMember.mk "row-1" "user-1" "admin"].
Proof.
  intros d'. split; [reflexivity |].
  refine (proj2 (proj2 (proj1 (group_roles_on_create_and_join
                                 Fixtures.accepting "user-1")
                          Fixtures.watch_form Fixtures.empty_db eq_refl)
                   eq_refl)).
Defined.

(* ================================================================== *)
(** * Severity Scorer: the output is a function of the members *)

Section ScorerFacts.
Import SeverityScorer.
Local Open Scope R_scope.
Variable cfg : Config.
Variable now : R.

Lemma sum_weights_perm (l l' : list Member) :
  Permutation l l' -> sum_weights cfg now l = sum_weights cfg now l'.
Proof.
  induction 1 as [| m l l' _ IH | a b l | l1 l2 l3 _ IH1 _ IH2]; simpl.
  - reflexivity.
  - now rewrite IH.
  - lra.
  - now rewrite IH1.
Qed.

Lemma members_recompute (t : R) (c : Cluster) :
  members (recompute cfg t c) = members c.
Proof. reflexivity. Qed.

Lemma filter_perm {A : Type} (f : A -> bool) (l l' : list A) :
  Permutation l l' -> Permutation (List.filter f l) (List.filter f l').
Proof.
  induction 1 as [| x l l' _ IH | x y l | l1 l2 l3 _ IH1 _ IH2]; simpl.
  - apply perm_nil.
  - destruct (f x); [apply perm_skip |]; exact IH.
  - destruct (f x), (f y); try apply Permutation_refl. apply perm_swap.
  - eapply perm_trans; eassumption.
Qed.

Lemma type_weight_perm (l l' : list Member) (t : string) :
  Permutation l l' -> type_weight cfg now l t = type_weight cfg now l' t.
Proof.
  intros H. unfold type_weight. apply sum_weights_perm, filter_perm, H.
Qed.

Lemma beats_perm (l l' : list Member) (a b : Member) :
  Permutation l l' -> beats cfg now l a b = beats cfg now l' a b.
Proof.
  intros H. unfold beats.
  rewrite (type_weight_perm l l' (type a) H).
  rewrite (type_weight_perm l l' (type b) H). reflexivity.
Qed.

(** [a] beats [b] when it is above [b] in the order of summed weight, then
    of time, then of name. *)
Lemma beats_true (ms : list Member) (a b : Member) :
  beats cfg now ms a b = true
  <-> type_weight cfg now ms (type b) < type_weight cfg now ms (type a)
      \/ (type_weight cfg now ms (type a) = type_weight cfg now ms (type b)
          /\ (timestamp b < timestamp a
              \/ (timestamp a = timestamp b
                  /\ String.compare (type a) (type b) = Lt))).
Proof.
  unfold beats.
  destruct (Rlt_dec (type_weight cfg now ms (type b))
              (type_weight cfg now ms (type a))) as [H1 | H1].
  { split; [auto | reflexivity]. }
  destruct (Rlt_dec (type_weight cfg now ms (type a))
              (type_weight cfg now ms (type b))) as [H2 | H2].
  { split; [discriminate |]. intros [H | [H _]]; lra. }
  destruct (Rlt_dec (timestamp b) (timestamp a)) as [H3 | H3].
  { split; [intros _; right; split; [lra | auto] | reflexivity]. }
  destruct (Rlt_dec (timestamp a) (timestamp b)) as [H4 | H4].
  { split; [discriminate |]. intros [H | [_ [H | [H _]]]]; lra. }
  destruct (String.compare (type a) (type b)) eqn:E.
  - split; [discriminate |]. intros [H | [_ [H | [_ H]]]]; try lra.
    discriminate.
  - split; [| reflexivity]. intros _. right. split; [lra |].
    right. split; [lra | reflexivity].
  - split; [discriminate |]. intros [H | [_ [H | [_ H]]]]; try lra.
    discriminate.
Qed.

Lemma compare_Lt_trans (a b c : string) :
  String.compare a b = Lt -> String.compare b c = Lt ->
  String.compare a c = Lt.
Proof.
  intros H1 H2.
  apply OrderedTypeEx.String_as_OT.cmp_lt in H1.
  apply OrderedTypeEx.String_as_OT.cmp_lt in H2.
  apply OrderedTypeEx.String_as_OT.cmp_lt.
  eapply OrderedTypeEx.String_as_OT.lt_trans; eassumption.
Qed.

Lemma compare_refl (a : string) : String.compare a a <> Lt.
Proof.
  pose proof (String.compare_antisym a a) as H.
  destruct (String.compare a a); simpl in H; congruence.
Qed.

Lemma beats_irrefl (ms : list Member) (a : Member) :
  beats cfg now ms a a = false.
Proof.
  destruct (beats cfg now ms a a) eqn:E; [| reflexivity].
  apply beats_true in E.
  destruct E as [H | [_ [H | [_ H]]]]; try lra.
  now elim (compare_refl (type a)).
Qed.

Lemma beats_trans (ms : list Member) (a b c : Member) :
  beats cfg now ms a b = true -> beats cfg now ms b c = true ->
  beats cfg now ms a c = true.
Proof.
  intros H1 H2. apply beats_true in H1. apply beats_true in H2.
  apply beats_true.
  destruct H1 as [H1 | [W1 H1]], H2 as [H2 | [W2 H2]].
  - left. lra.
  - left. lra.
  - left. lra.
  - right. split; [lra |].
    destruct H1 as [H1 | [T1 H1]], H2 as [H2 | [T2 H2]].
    + left. lra.
    + left. lra.
    + left. lra.
    + right. split; [lra |]. eapply compare_Lt_trans; eassumption.
Qed.

(** Two members of which neither beats the other are of one type. *)
Lemma beats_neither (ms : list Member) (a b : Member) :
  beats cfg now ms a b = false -> beats cfg now ms b a = false ->
  type a = type b.
Proof.
  intros H1 H2.
  assert (N1 : ~ (beats cfg now ms a b = true)) by congruence.
  assert (N2 : ~ (beats cfg now ms b a = true)) by congruence.
  rewrite beats_true in N1, N2.
  destruct (Rtotal_order (type_weight cfg now ms (type a))
              (type_weight cfg now ms (type b))) as [W | [W | W]];
    [elim N2; left; exact W | | elim N1; left; exact W].
  destruct (Rtotal_order (timestamp a) (timestamp b)) as [T | [T | T]];
    [elim N2; right; split; [lra | left; exact T] |
    | elim N1; right; split; [lra | left; exact T]].
  pose proof (String.compare_antisym (type a) (type b)) as Hanti.
  destruct (String.compare (type a) (type b)) eqn:E.
  - apply String.compare_eq_iff, E.
  - elim N1. right. split; [exact W |]. right. split; [exact T | reflexivity].
  - elim N2. right. split; [lra |]. right. split; [lra |].
    destruct (String.compare (type b) (type a)); simpl in Hanti;
      congruence.
Qed.

(** The fold of [best] keeps a member that no member seen so far beats. *)
Lemma best_fold (ms : list Member) (l : list Member) :
  forall (seen : list Member) (acc : Member),
    In acc seen ->
    (forall x, In x seen -> beats cfg now ms x acc = false) ->
    exists r,
      fold_left
        (fun acc m =>
           match acc with
           | None => Some m
           | Some b => if beats cfg now ms m b then Some m else Some b
           end) l (Some acc) = Some r
      /\ In r (seen ++ l)
      /\ forall x, In x (seen ++ l) -> beats cfg now ms x r = false.
Proof.
  induction l as [| m l IH]; intros seen acc Hin Hmax.
  - exists acc. rewrite app_nil_r. auto.
  - cbn [fold_left].
    destruct (beats cfg now ms m acc) eqn:E.
    + destruct (IH (seen ++ [m]) m) as (r & Hr & Hin' & Hmax').
      * apply in_or_app. right. now left.
      * intros x Hx. apply in_app_or in Hx.
        destruct Hx as [Hx | [<- | []]]; [| apply beats_irrefl].
        destruct (beats cfg now ms x m) eqn:Exm; [| reflexivity].
        rewrite <- (Hmax x Hx). symmetry.
        eapply beats_trans; eassumption.
      * exists r. rewrite <- app_assoc in Hin', Hmax'. auto.
    + destruct (IH (seen ++ [m]) acc) as (r & Hr & Hin' & Hmax').
      * apply in_or_app. now left.
      * intros x Hx. apply in_app_or in Hx.
        destruct Hx as [Hx | [<- | []]]; [apply Hmax, Hx | exact E].
      * exists r. rewrite <- app_assoc in Hin', Hmax'. auto.
Qed.

(** The winner is a candidate that no candidate beats. *)
Lemma best_spec (ms : list Member) (m : Member) (l : list Member) :
  exists r,
    best cfg now ms (m :: l) = Some r
    /\ In r (m :: l)
    /\ forall x, In x (m :: l) -> beats cfg now ms x r = false.
Proof.
  unfold best. cbn [fold_left].
  apply (best_fold ms l [m] m).
  - now left.
  - intros x [<- | []]. apply beats_irrefl.
Qed.

Lemma best_nil (ms : list Member) : best cfg now ms [] = None.
Proof. reflexivity. Qed.

(** The dominant type does not depend on the order of the members. *)
Lemma dominant_perm (l l' : list Member) :
  Permutation l l' ->
  option_map type (best cfg now l l) = option_map type (best cfg now l' l').
Proof.
  intros Hp.
  destruct l as [| m l0].
  - apply Permutation_nil in Hp. subst l'. reflexivity.
  - destruct l' as [| m' l0'];
      [apply Permutation_sym, Permutation_nil in Hp; discriminate |].
    destruct (best_spec (m :: l0) m l0) as (r & Hr & Hin & Hmax).
    destruct (best_spec (m' :: l0') m' l0') as (r' & Hr' & Hin' & Hmax').
    rewrite Hr, Hr'. simpl. f_equal.
    apply (beats_neither (m :: l0)).
    + rewrite (beats_perm _ _ r r' Hp). apply Hmax'.
      apply (Permutation_in _ Hp), Hin.
    + apply Hmax. apply (Permutation_in _ (Permutation_sym Hp)), Hin'.
Qed.

Lemma score_perm (c c' : Cluster) :
  Permutation (members c) (members c') ->
  score cfg now c = score cfg now c'.
Proof.
  intros Hp. unfold score.
  rewrite (sum_weights_perm _ _ Hp), (dominant_perm _ _ Hp). reflexivity.
Qed.

End ScorerFacts.

Section ClockFacts.
Import SeverityScorer.
Local Open Scope R_scope.

(** The weight of a high-severity incident one half-life and two
    half-lives old. *)
Lemma weight_after_half_lives :
  weight ScorerFixtures.default_config 40 ScorerFixtures.theft_a = 2
  /\ weight ScorerFixtures.default_config 70 ScorerFixtures.theft_a = 1.
Proof.
  unfold weight, recencyDecay. simpl.
  assert (H2 : Rpower 2 1 = 2) by (apply Rpower_1; lra).
  assert (H4 : Rpower 2 2 = 4).
  { replace 2 with (1 + 1) at 2 by lra. rewrite Rpower_plus, H2. lra. }
  split.
  - replace (- (40 - 10) / 30) with (- (1)) by lra.
    rewrite Rpower_Ropp, H2. unfold Rmax.
    destruct (Rle_dec (/ 1000) (/ 2)); lra.
  - replace (- (70 - 10) / 30) with (- (2)) by lra.
    rewrite Rpower_Ropp, H4. unfold Rmax.
    destruct (Rle_dec (/ 1000) (/ 4)); lra.
Qed.

End ClockFacts.

(** C7 (as stated, refuted).  With no change of membership the score of a
    cluster is not one value: for one incident of severity high reported on
    day 10, half-life 30 days, it is 2 when computed on day 40 and 1 when
    computed on day 70. *)
Lemma score_changes_with_the_clock :
  fst (SeverityScorer.score ScorerFixtures.default_config 40
         ScorerFixtures.single) = 2%R
  /\ fst (SeverityScorer.score ScorerFixtures.default_config 70
            ScorerFixtures.single) = 1%R
  /\ SeverityScorer.score ScorerFixtures.default_config 40
       ScorerFixtures.single
     <> SeverityScorer.score ScorerFixtures.default_config 70
          ScorerFixtures.single.
Proof.
  destruct weight_after_half_lives as [H40 H70].
  assert (E40 : fst (SeverityScorer.score ScorerFixtures.default_config 40
                       ScorerFixtures.single) = 2%R).
  { unfold SeverityScorer.score. cbn [fst ScorerFixtures.single
      SeverityScorer.members SeverityScorer.sum_weights fold_right].
    rewrite H40. cbn [ScorerFixtures.default_config SeverityScorer.cap].
    unfold Rmin. destruct (Rle_dec 10 (2 + 0)); lra. }
  assert (E70 : fst (SeverityScorer.score ScorerFixtures.default_config 70
                       ScorerFixtures.single) = 1%R).
  { unfold SeverityScorer.score. cbn [fst ScorerFixtures.single
      SeverityScorer.members SeverityScorer.sum_weights fold_right].
    rewrite H70. cbn [ScorerFixtures.default_config SeverityScorer.cap].
    unfold Rmin. destruct (Rle_dec 10 (1 + 0)); lra. }
  split; [exact E40 |]. split; [exact E70 |].
  intros H. rewrite H in E40. rewrite E40 in E70. lra.
Qed.

(** C7 (amended).  At one evaluation instant [score] is a function of the
    set of members of the cluster: two clusters whose members are the same,
    listed in whatever order and whatever the stored score, label, centre
    and update time, get the same score and the same dominant type.  The
    dominant type is the type of a member, and no member's type has a
    higher summed weight; there is none exactly when there is no member.
    Scoring after a recomputation has stored its result gives the same
    output, and recomputing twice is recomputing once.  (Between two
    instants the output may change with the same members: the weights decay
    with age.) *)
Theorem score_is_function_of_members_at_an_instant :
  forall (cfg : SeverityScorer.Config) (now : R),
    (forall c c' : SeverityScorer.Cluster,
        Permutation (SeverityScorer.members c) (SeverityScorer.members c') ->
        SeverityScorer.score cfg now c = SeverityScorer.score cfg now c')
    /\ (forall (c : SeverityScorer.Cluster) (t : string),
           snd (SeverityScorer.score cfg now c) = Some t ->
           (exists m, In m (SeverityScorer.members c)
                      /\ SeverityScorer.type m = t)
           /\ forall x,
                In x (SeverityScorer.members c) ->
                (SeverityScorer.type_weight cfg now (SeverityScorer.members c)
                   (SeverityScorer.type x)
                 <= SeverityScorer.type_weight cfg now
                      (SeverityScorer.members c) t)%R)
    /\ (forall c : SeverityScorer.Cluster,
           snd (SeverityScorer.score cfg now c) = None
           <-> SeverityScorer.members c = [])
    /\ (forall (earlier : R) (c : SeverityScorer.Cluster),
           SeverityScorer.score cfg now
             (SeverityScorer.recompute cfg earlier c)
           = SeverityScorer.score cfg now c)
    /\ (forall c : SeverityScorer.Cluster,
           SeverityScorer.recompute cfg now
             (SeverityScorer.recompute cfg now c)
           = SeverityScorer.recompute cfg now c).
Proof.
  intros cfg now. split; [| split; [| split; [| split]]].
  - intros c c'. apply score_perm.
  - intros c t. unfold SeverityScorer.score. cbn [snd].
    destruct (SeverityScorer.members c) as [| m l] eqn:Em;
      [discriminate |].
    destruct (best_spec cfg now (m :: l) m l) as (r & Hr & Hin & Hmax).
    rewrite Hr. cbn [option_map]. intros Ht. inversion Ht; subst t.
    split; [exists r; auto |].
    intros x Hx. specialize (Hmax x Hx).
    destruct (Rle_dec
                (SeverityScorer.type_weight cfg now (m :: l)
                   (SeverityScorer.type x))
                (SeverityScorer.type_weight cfg now (m :: l)
                   (SeverityScorer.type r))) as [Hle | Hgt]; [exact Hle |].
    assert (Hb : SeverityScorer.beats cfg now (m :: l) x r = true).
    { apply beats_true. left. lra. }
    congruence.
  - intros c. unfold SeverityScorer.score. cbn [snd].
    destruct (SeverityScorer.members c) as [| m l] eqn:Em.
    + split; reflexivity.
    + destruct (best_spec cfg now (m :: l) m l) as (r & Hr & _).
      rewrite Hr. split; discriminate.
  - intros earlier c. apply score_perm. apply Permutation_refl.
  - intros c. reflexivity.
Qed.

(** Theft and assault level in weight and in time: the same output for
    both orders of the members, whatever the cluster had stored. *)
Lemma score_is_function_of_members_at_an_instant_witness :
  Permutation (SeverityScorer.members ScorerFixtures.level)
    (SeverityScorer.members ScorerFixtures.level_swapped)
  /\ SeverityScorer.score ScorerFixtures.default_config 40
       ScorerFixtures.level
     = SeverityScorer.score ScorerFixtures.default_config 40
         ScorerFixtures.level_swapped.
Proof.
  split; [apply perm_swap |].
  apply (proj1 (score_is_function_of_members_at_an_instant
                  ScorerFixtures.default_config 40)).
  apply perm_swap.
Defined.

(* ================================================================== *)
(** * Further properties of the components *)

(** ** Lists: ordering and filtering *)

Section OrderingFacts.
Context {A K : Type}.
Variable leb : K -> K -> bool.
Variable key : A -> K.

Lemma insert_desc_perm (x : A) (l : list A) :
  Permutation (Supabase.insert_desc leb key x l) (x :: l).
Proof.
  induction l as [| y l IH]; simpl.
  - apply Permutation_refl.
  - destruct (leb (key y) (key x)).
    + apply Permutation_refl.
    + apply perm_trans with (y :: x :: l).
      * now apply perm_skip.
      * apply perm_swap.
Qed.

Lemma order_desc_perm (l : list A) :
  Permutation (Supabase.order_desc leb key l) l.
Proof.
  unfold Supabase.order_desc. induction l as [| x l IH]; simpl.
  - apply perm_nil.
  - eapply perm_trans; [apply insert_desc_perm | now apply perm_skip].
Qed.

Lemma order_desc_length (l : list A) :
  List.length (Supabase.order_desc leb key l) = List.length l.
Proof. apply Permutation_length, order_desc_perm. Qed.

Lemma order_desc_nil (l : list A) :
  l = [] -> Supabase.order_desc leb key l = [].
Proof. intros ->. reflexivity. Qed.

(** The order is total and transitive on the keys that satisfy [ok]. *)
Variable ok : K -> Prop.
Hypothesis leb_total :
  forall a b, ok a -> ok b -> leb a b = true \/ leb b a = true.
Hypothesis leb_trans :
  forall a b c, ok a -> ok b -> ok c ->
                leb a b = true -> leb b c = true -> leb a c = true.

Lemma insert_desc_sorted (x : A) (l : list A) :
  ok (key x) -> Forall (fun y => ok (key y)) l ->
  Supabase.descending leb key l ->
  Supabase.descending leb key (Supabase.insert_desc leb key x l).
Proof.
  unfold Supabase.descending.
  intros Hx Hl Hs. induction l as [| y l IH]; simpl.
  - constructor; constructor.
  - apply StronglySorted_inv in Hs. destruct Hs as [Hs Hy].
    inversion Hl as [| ? ? Hoky Hl']; subst.
    destruct (leb (key y) (key x)) eqn:E.
    + constructor; [constructor; assumption |].
      constructor; [exact E |].
      rewrite Forall_forall in *. intros z Hz.
      apply leb_trans with (key y); auto.
    + constructor; [now apply IH |].
      assert (Hxy : leb (key x) (key y) = true).
      { destruct (leb_total (key x) (key y) Hx Hoky); congruence. }
      rewrite Forall_forall in *. intros z Hz.
      apply (Permutation_in _ (insert_desc_perm x l)) in Hz.
      destruct Hz as [<- | Hz]; auto.
Qed.

Lemma order_desc_sorted (l : list A) :
  Forall (fun y => ok (key y)) l ->
  Supabase.descending leb key (Supabase.order_desc leb key l).
Proof.
  unfold Supabase.order_desc. induction l as [| x l IH]; intros Hl; simpl.
  - constructor.
  - inversion Hl; subst. apply insert_desc_sorted; auto.
    rewrite Forall_forall in *. intros y Hy.
    apply (Permutation_in _ (order_desc_perm l)) in Hy. auto.
Qed.

End OrderingFacts.

Section FilterFacts.
Context {A : Type}.

Lemma filter_length_perm (f : A -> bool) (l l' : list A) :
  Permutation l l' ->
  List.length (List.filter f l) = List.length (List.filter f l').
Proof.
  induction 1 as [| x l l' _ IH | x y l | l1 l2 l3 _ IH1 _ IH2]; simpl.
  - reflexivity.
  - destruct (f x); simpl; congruence.
  - destruct (f x), (f y); reflexivity.
  - congruence.
Qed.

Lemma filter_none (f : A -> bool) (l : list A) :
  (forall a, In a l -> f a = false) -> List.filter f l = [].
Proof.
  induction l as [| a l IH]; simpl; intros H; [reflexivity |].
  rewrite (H a (or_introl eq_refl)). apply IH. auto.
Qed.

Lemma filter_all (f : A -> bool) (l : list A) :
  (forall a, In a l -> f a = true) -> List.filter f l = l.
Proof.
  induction l as [| a l IH]; simpl; intros H; [reflexivity |].
  rewrite (H a (or_introl eq_refl)). f_equal. apply IH. auto.
Qed.

Lemma Forall2_trans_rel (R : A -> A -> Prop) (l1 l2 l3 : list A) :
  (forall a b c, R a b -> R b c -> R a c) ->
  Forall2 R l1 l2 -> Forall2 R l2 l3 -> Forall2 R l1 l3.
Proof.
  intros HR H12. revert l3.
  induction H12 as [| a b l1 l2 Hab _ IH]; intros l3 H23;
    inversion H23; subst; constructor; eauto.
Qed.

End FilterFacts.

(** ** The write requests of a run *)

Section RequestFacts.
Import Supabase.
Variable srv : Server.
Variable userId : string.
Variable Date_getTime : string -> option Z.

Lemma send_all_app (qs qs' : list Request) (d : Db) :
  App.send_all srv (qs ++ qs') d
  = App.send_all srv qs' (App.send_all srv qs d).
Proof. unfold App.send_all. apply fold_left_app. Qed.

Lemma send_all_received (qs : list Request) (d : Db) :
  received (App.send_all srv qs d) = received d ++ qs.
Proof.
  revert d. induction qs as [| q qs IH]; intros d; simpl.
  - now rewrite app_nil_r.
  - rewrite IH, send_received, <- app_assoc. reflexivity.
Qed.

(** What one handler run sends: at most two requests, all for the user. *)
Lemma step_requests (w : App.World) (e : App.Event) :
  exists qs,
    App.db (App.step srv userId Date_getTime w e)
    = App.send_all srv qs (App.db w)
    /\ Forall (App.by_user userId) qs
    /\ (List.length qs <= 2)%nat.
Proof.
  destruct e; simpl;
    try (exists []; split; [reflexivity | split; [constructor | simpl; lia]]).
  - (* handleSubmit *)
    destruct (IncidentReportForm.missing_required (App.report w)) eqn:Hm.
    + exists []. rewrite handleSubmit_rejected by exact Hm.
      split; [reflexivity | split; [constructor | simpl; lia]].
    + exists [InsertIncident
                (IncidentReportForm.payload userId (App.report w))].
      rewrite handleSubmit_sends by exact Hm.
      split; [reflexivity | split; [| simpl; lia]].
      constructor; [split; reflexivity | constructor].
  - (* markAsRead *)
    exists [MarkAlertRead alertId]. unfold AlertsPanel.markAsRead.
    destruct (send srv (MarkAlertRead alertId) (App.db w)) as [d' [err|]]
      eqn:E; simpl; rewrite E;
      (split; [reflexivity | split; [| simpl; lia]]);
      repeat constructor.
  - (* markAllAsRead *)
    exists [MarkUnreadAlertsRead userId]. unfold AlertsPanel.markAllAsRead.
    destruct (send srv (MarkUnreadAlertsRead userId) (App.db w))
      as [d' [err|]] eqn:E; simpl; rewrite E;
      (split; [reflexivity | split; [| simpl; lia]]);
      repeat constructor.
  - (* handleCreateGroup *)
    unfold NeighbourhoodWatch.handleCreateGroup.
    set (q1 := InsertGroup _). set (q2 := InsertGroupMember _).
    destruct (send srv q1 (App.db w)) as [d1 [err|]] eqn:E1.
    + exists [q1]. simpl. rewrite E1.
      split; [reflexivity | split; [| simpl; lia]].
      constructor; [reflexivity | constructor].
    + exists [q1; q2]. simpl. rewrite E1. simpl.
      destruct (send srv q2 d1) as [d2 [err|]] eqn:E2; simpl;
        (split; [reflexivity | split; [| simpl; lia]]);
        repeat constructor.
  - (* handleJoinGroup *)
    unfold NeighbourhoodWatch.handleJoinGroup.
    set (q := InsertGroupMember _). exists [q].
    destruct (send srv q (App.db w)) as [d' [err|]] eqn:E;
      simpl; rewrite E;
      (split; [reflexivity | split; [| simpl; lia]]);
      repeat constructor.
  - (* handleLeaveGroup *)
    unfold NeighbourhoodWatch.handleLeaveGroup.
    set (q := DeleteGroupMember _ _). exists [q].
    destruct (send srv q (App.db w)) as [d' [err|]] eqn:E;
      simpl; rewrite E;
      (split; [reflexivity | split; [| simpl; lia]]);
      repeat constructor.
Qed.

Lemma run_requests (es : list App.Event) (w : App.World) :
  exists qs,
    App.db (App.run srv userId Date_getTime w es)
    = App.send_all srv qs (App.db w)
    /\ Forall (App.by_user userId) qs
    /\ (List.length qs <= 2 * List.length es)%nat.
Proof.
  revert w. induction es as [| e es IH]; intros w; simpl.
  - exists []. split; [reflexivity | split; [constructor | simpl; lia]].
  - destruct (step_requests w e) as (q1 & E1 & F1 & L1).
    destruct (IH (App.step srv userId Date_getTime w e))
      as (q2 & E2 & F2 & L2).
    exists (q1 ++ q2). split; [| split].
    + unfold App.run in *. simpl. rewrite E2, E1. symmetry.
      apply send_all_app.
    + apply Forall_app. now split.
    + rewrite length_app. lia.
Qed.

End RequestFacts.

Section TableFrames.
Import Supabase.
Variable srv : Server.
Variable userId : string.

(** A membership row of another user. *)
Let foreign (m : GroupMember.t) : bool :=
  negb (String.eqb (GroupMember.user_id m) userId).

(** An alert before and after: the same but for a read flag that can only
    have been raised. *)
Let read_later (a a' : Alert.t) : Prop :=
  AlertsPanel.same_but_is_read a a'
  /\ (Alert.is_read a = true -> Alert.is_read a' = true).

Lemma read_later_refl (a : Alert.t) : read_later a a.
Proof. split; [repeat split | auto]. Qed.

Lemma read_later_trans (a b c : Alert.t) :
  read_later a b -> read_later b c -> read_later a c.
Proof.
  intros [S1 M1] [S2 M2]. split; [| auto].
  unfold AlertsPanel.same_but_is_read in *.
  repeat match goal with H : _ /\ _ |- _ => destruct H end.
  repeat split; congruence.
Qed.

Lemma read_later_mark (p : Alert.t -> bool) (a : Alert.t) :
  read_later a (mark_read_if p a).
Proof.
  unfold mark_read_if. destruct (p a).
  - split; [repeat split | reflexivity].
  - apply read_later_refl.
Qed.

Lemma send_hotspots (q : Request) (d : Db) :
  hotspots (fst (send srv q d)) = hotspots d.
Proof.
  unfold send. destruct (refuses srv q d); simpl; [reflexivity |].
  destruct q; reflexivity.
Qed.

Lemma send_groups (q : Request) (d : Db) :
  App.by_user userId q ->
  exists new,
    neighbourhood_watch_groups (fst (send srv q d))
    = neighbourhood_watch_groups d ++ new
    /\ Forall (fun g => NeighbourhoodWatchGroup.created_by g = userId) new.
Proof.
  intros Hq. unfold send. destruct (refuses srv q d); simpl.
  - exists []. split; [now rewrite app_nil_r | constructor].
  - destruct q; simpl;
      try (exists []; split; [now rewrite app_nil_r | constructor]).
    exists [new_group_row srv row d]. split; [reflexivity |].
    constructor; [exact Hq | constructor].
Qed.

Lemma foreign_after_delete (g : string) (l : list GroupMember.t) :
  List.filter foreign
    (List.filter (fun m => negb (member_matches g userId m)) l)
  = List.filter foreign l.
Proof.
  induction l as [| m l IH]; simpl; [reflexivity |].
  destruct (String.eqb (GroupMember.user_id m) userId) eqn:E.
  - assert (Hf : foreign m = false) by (unfold foreign; now rewrite E).
    rewrite Hf. destruct (negb (member_matches g userId m)); simpl;
      [rewrite Hf |]; exact IH.
  - assert (Hf : foreign m = true) by (unfold foreign; now rewrite E).
    unfold member_matches. rewrite E, andb_false_r. simpl.
    rewrite Hf. f_equal. exact IH.
Qed.

Lemma send_foreign_members (q : Request) (d : Db) :
  App.by_user userId q ->
  List.filter foreign (group_members (fst (send srv q d)))
  = List.filter foreign (group_members d).
Proof.
  intros Hq. unfold send. destruct (refuses srv q d); simpl; [reflexivity |].
  destruct q; simpl in *; try reflexivity.
  - rewrite filter_app. simpl.
    assert (Hf : foreign row = false)
      by (unfold foreign; now rewrite Hq, String.eqb_refl).
    rewrite Hf. apply app_nil_r.
  - subst user_id. apply foreign_after_delete.
Qed.

Lemma send_alerts (q : Request) (d : Db) :
  Forall2 read_later (alerts d) (alerts (fst (send srv q d))).
Proof.
  unfold send. destruct (refuses srv q d); simpl.
  - apply Forall2_same, read_later_refl.
  - destruct q; simpl; try (apply Forall2_same, read_later_refl);
      apply Forall2_map_self; intros a; apply read_later_mark.
Qed.

Lemma send_all_frames (qs : list Request) (d : Db) :
  Forall (App.by_user userId) qs ->
  hotspots (App.send_all srv qs d) = hotspots d
  /\ (exists new,
         neighbourhood_watch_groups (App.send_all srv qs d)
         = neighbourhood_watch_groups d ++ new
         /\ Forall (fun g => NeighbourhoodWatchGroup.created_by g = userId)
              new)
  /\ List.filter foreign (group_members (App.send_all srv qs d))
     = List.filter foreign (group_members d)
  /\ Forall2 read_later (alerts d) (alerts (App.send_all srv qs d)).
Proof.
  revert d. induction qs as [| q qs IH]; intros d Hqs; simpl.
  - repeat split.
    + exists []. split; [now rewrite app_nil_r | constructor].
    + apply Forall2_same, read_later_refl.
  - inversion Hqs as [| ? ? Hq Hqs']; subst.
    destruct (IH (fst (send srv q d)) Hqs') as (H1 & (n2 & E2 & F2) & H3 & H4).
    destruct (send_groups q d Hq) as (n1 & E1 & F1).
    repeat split.
    + now rewrite H1, send_hotspots.
    + exists (n1 ++ n2). split.
      * now rewrite E2, E1, app_assoc.
      * apply Forall_app. now split.
    + now rewrite H3, send_foreign_members.
    + eapply Forall2_trans_rel;
        [apply read_later_trans | apply send_alerts | exact H4].
Qed.

End TableFrames.

(** X1.  In any run of the handlers the backend is changed through awaited
    write requests only, at most two per handler run, and every one of them
    is made for the signed-in user: an incident reported in that user's name
    with status pending, a group created by that user, a membership row of
    that user inserted or deleted, or the read flag of alerts.  The request
    log grows by exactly these requests. *)
Theorem client_requests_are_for_the_user :
  forall (srv : Supabase.Server) (userId : string)
         (Date_getTime : string -> option Z)
         (es : list App.Event) (w : App.World),
    exists qs,
      App.db (App.run srv userId Date_getTime w es)
      = App.send_all srv qs (App.db w)
      /\ Supabase.received (App.db (App.run srv userId Date_getTime w es))
         = Supabase.received (App.db w) ++ qs
      /\ Forall (App.by_user userId) qs
      /\ (List.length qs <= 2 * List.length es)%nat.
Proof.
  intros srv userId Date_getTime es w.
  destruct (run_requests srv userId Date_getTime es w) as (qs & E & F & L).
  exists qs. split; [exact E | split; [| split; assumption]].
  rewrite E. apply send_all_received.
Qed.

(** X2.  No run of the handlers writes the hotspots table, removes or changes
    a watch group (groups are only appended, each created by the signed-in
    user), or touches a membership row of another user. *)
Theorem client_leaves_foreign_rows_alone :
  forall (srv : Supabase.Server) (userId : string)
         (Date_getTime : string -> option Z)
         (es : list App.Event) (w : App.World),
    let d := App.db w in
    let d' := App.db (App.run srv userId Date_getTime w es) in
    Supabase.hotspots d' = Supabase.hotspots d
    /\ (exists new,
           Supabase.neighbourhood_watch_groups d'
           = Supabase.neighbourhood_watch_groups d ++ new
           /\ Forall
                (fun g =>
                   Supabase.NeighbourhoodWatchGroup.created_by g = userId)
                new)
    /\ List.filter
         (fun m => negb (String.eqb (Supabase.GroupMember.user_id m) userId))
         (Supabase.group_members d')
       = List.filter
           (fun m => negb (String.eqb (Supabase.GroupMember.user_id m) userId))
           (Supabase.group_members d).
Proof.
  intros srv userId Date_getTime es w d d'. subst d d'.
  destruct (run_requests srv userId Date_getTime es w) as (qs & E & F & _).
  rewrite E.
  destruct (send_all_frames srv userId qs (App.db w) F) as (H1 & H2 & H3 & _).
  split; [exact H1 | split; [exact H2 | exact H3]].
Qed.

(** X3.  Over any run of the handlers the alerts table keeps its rows, one
    for one and in place; no field of an alert other than [is_read] changes,
    and an alert that was read stays read. *)
Theorem alerts_only_become_read :
  forall (srv : Supabase.Server) (userId : string)
         (Date_getTime : string -> option Z)
         (es : list App.Event) (w : App.World),
    Forall2
      (fun a a' =>
         AlertsPanel.same_but_is_read a a'
         /\ (Supabase.Alert.is_read a = true ->
             Supabase.Alert.is_read a' = true))
      (Supabase.alerts (App.db w))
      (Supabase.alerts (App.db (App.run srv userId Date_getTime w es))).
Proof.
  intros srv userId Date_getTime es w.
  destruct (run_requests srv userId Date_getTime es w) as (qs & E & F & _).
  rewrite E.
  apply (send_all_frames srv userId qs (App.db w) F).
Qed.

(** ** AlertsPanel: what the list holds *)

Section AlertsPanelFacts.
Import Supabase.
Variable srv : Server.
Variable userId : string.

Lemma In_query (f : AlertsPanel.Filter) (d : Db) (a : Alert.t) :
  In a (AlertsPanel.query srv userId f d)
  <-> In a (alerts d)
      /\ Alert.user_id a = userId
      /\ (f = AlertsPanel.unread -> Alert.is_read a = false).
Proof.
  unfold AlertsPanel.query. rewrite In_order_desc, filter_In.
  rewrite andb_true_iff, String.eqb_eq.
  destruct f; split.
  - intros (Hin & Hu & _). repeat split; auto. discriminate.
  - intros (Hin & Hu & _). auto.
  - intros (Hin & Hu & Hr). repeat split; auto.
    intros _. now destruct (Alert.is_read a).
  - intros (Hin & Hu & Hr). repeat split; auto.
    now rewrite (Hr eq_refl).
Qed.

Lemma query_length (f : AlertsPanel.Filter) (d : Db) :
  List.length (AlertsPanel.query srv userId f d)
  = List.length
      (List.filter
         (fun a =>
            String.eqb (Alert.user_id a) userId
            && match f with
               | AlertsPanel.unread => Bool.eqb (Alert.is_read a) false
               | AlertsPanel.all => true
               end)
         (alerts d)).
Proof. unfold AlertsPanel.query. apply order_desc_length. Qed.

Lemma unread_length (l : list Alert.t) :
  (forall a, In a l -> Alert.is_read a = false) ->
  List.length (List.filter (fun a => negb (Alert.is_read a)) l)
  = List.length l.
Proof.
  intros H. rewrite filter_all; [reflexivity |].
  intros a Ha. now rewrite (H a Ha).
Qed.

(** The function [markAsRead] maps over the list it holds, and the one the
    update applies to the table, are the same. *)
Lemma mark_read_if_id (alertId : string) (a : Alert.t) :
  (if String.eqb (Alert.id a) alertId then Alert.with_is_read true a else a)
  = mark_read_if (fun a => String.eqb (Alert.id a) alertId) a.
Proof. reflexivity. Qed.

Lemma markAsRead_accepted (alertId : string) (st : AlertsPanel.State)
      (d : Db) :
  refuses srv (MarkAlertRead alertId) d = None ->
  AlertsPanel.markAsRead srv alertId st d
  = (AlertsPanel.setAlerts
       (map (mark_read_if (fun a => String.eqb (Alert.id a) alertId))
            (AlertsPanel.alerts st)) st,
     log_request (MarkAlertRead alertId)
       (apply_request srv (MarkAlertRead alertId) d)).
Proof.
  intros H. unfold AlertsPanel.markAsRead.
  rewrite (send_accepted srv _ _ H). reflexivity.
Qed.

Lemma markAsRead_refused (alertId : string) (st : AlertsPanel.State)
      (d : Db) (e : PostgrestError) :
  refuses srv (MarkAlertRead alertId) d = Some e ->
  AlertsPanel.markAsRead srv alertId st d
  = (st, log_request (MarkAlertRead alertId) d).
Proof.
  intros H. unfold AlertsPanel.markAsRead, send. now rewrite H.
Qed.

Lemma mark_read_if_idem (p : Alert.t -> bool) (a : Alert.t) :
  (forall b x, p (Alert.with_is_read b x) = p x) ->
  mark_read_if p (mark_read_if p a) = mark_read_if p a.
Proof.
  intros Hp. unfold mark_read_if. destruct (p a) eqn:E.
  - now rewrite Hp, E.
  - now rewrite E.
Qed.

(** Unread alerts before and after marking those that satisfy [p]. *)
Lemma unread_after_mark (p : Alert.t -> bool) (l : list Alert.t) :
  (List.length
     (List.filter (fun a => negb (Alert.is_read a)) (map (mark_read_if p) l))
   + List.length
       (List.filter (fun a => p a && negb (Alert.is_read a)) l)
   = List.length (List.filter (fun a => negb (Alert.is_read a)) l))%nat.
Proof.
  induction l as [| a l IH]; simpl; [reflexivity |].
  unfold mark_read_if at 1. destruct (p a); simpl.
  - destruct (Alert.is_read a); simpl; lia.
  - destruct (Alert.is_read a); simpl; lia.
Qed.

End AlertsPanelFacts.

(** X4.  After [fetchAlerts] the panel is no longer loading and keeps its
    filter.  When the select succeeds, the list holds exactly the alerts of
    the table that belong to the user, and under the "unread" filter only the
    unread ones, each as often as it is in the table; when the select fails,
    the list is left as it was. *)
Theorem fetchAlerts_holds_the_users_alerts :
  forall (srv : Supabase.Server) (userId : string)
         (st : AlertsPanel.State) (d : Supabase.Db),
    let st' := AlertsPanel.fetchAlerts srv userId st d in
    AlertsPanel.loading st' = false
    /\ AlertsPanel.filter st' = AlertsPanel.filter st
    /\ (Supabase.select_fails srv "alerts" d = None ->
        (forall a,
            In a (AlertsPanel.alerts st')
            <-> In a (Supabase.alerts d)
                /\ Supabase.Alert.user_id a = userId
                /\ (AlertsPanel.filter st = AlertsPanel.unread ->
                    Supabase.Alert.is_read a = false))
        /\ Permutation (AlertsPanel.alerts st')
             (List.filter
                (fun a =>
                   String.eqb (Supabase.Alert.user_id a) userId
                   && match AlertsPanel.filter st with
                      | AlertsPanel.unread =>
                          Bool.eqb (Supabase.Alert.is_read a) false
                      | AlertsPanel.all => true
                      end)
                (Supabase.alerts d)))
    /\ (Supabase.select_fails srv "alerts" d <> None ->
        AlertsPanel.alerts st' = AlertsPanel.alerts st).
Proof.
  intros srv userId st d st'. subst st'. unfold AlertsPanel.fetchAlerts.
  destruct (Supabase.select_fails srv "alerts" d) as [e |]; simpl.
  - split; [reflexivity | split; [reflexivity | split]].
    + discriminate.
    + reflexivity.
  - split; [reflexivity | split; [reflexivity | split]].
    + intros _. split.
      * intros a. apply (In_query srv userId).
      * unfold AlertsPanel.query. apply order_desc_perm.
    + intros H. now elim H.
Qed.

Lemma fetchAlerts_holds_the_users_alerts_witness :
  let d :=
    Fixtures.db_with_alerts
      [Fixtures.alert "a-1" false; Fixtures.alert "a-2" true] in
  let st := AlertsPanel.mkState [] true AlertsPanel.unread in
  Supabase.select_fails Fixtures.accepting "alerts" d = None
  /\ Permutation
       (AlertsPanel.alerts
          (AlertsPanel.fetchAlerts Fixtures.accepting "user-1" st d))
       [Fixtures.alert "a-1" false].
Proof.
  intros d st. split; [reflexivity |].
  exact (proj2 (proj1 (proj2 (proj2
           (fetchAlerts_holds_the_users_alerts Fixtures.accepting "user-1"
              st d))) eq_refl)).
Defined.



(** X6.  An accepted [markAsRead] keeps the length of the list and lowers
    [unreadCount] by exactly the number of unread alerts in the list whose
    id is the given one (so by nothing when the alert is already read or is
    not in the list); a refused one leaves the panel as it was. *)
Theorem markAsRead_lowers_unreadCount :
  forall (srv : Supabase.Server) (alertId : string)
         (st : AlertsPanel.State) (d : Supabase.Db),
    let st' := fst (AlertsPanel.markAsRead srv alertId st d) in
    (Supabase.refuses srv (Supabase.MarkAlertRead alertId) d = None ->
     List.length (AlertsPanel.alerts st')
     = List.length (AlertsPanel.alerts st)
     /\ (AlertsPanel.unreadCount st'
         + List.length
             (List.filter
                (fun a =>
                   String.eqb (Supabase.Alert.id a) alertId
                   && negb (Supabase.Alert.is_read a))
                (AlertsPanel.alerts st))
         = AlertsPanel.unreadCount st)%nat)
    /\ (Supabase.refuses srv (Supabase.MarkAlertRead alertId) d <> None ->
        st' = st).
Proof.
  intros srv alertId st d st'. subst st'. split.
  - intros Hacc. rewrite markAsRead_accepted by exact Hacc. simpl.
    split; [apply length_map |].
    unfold AlertsPanel.unreadCount. simpl.
    apply (unread_after_mark
             (fun a => String.eqb (Supabase.Alert.id a) alertId)).
  - intros Href.
    destruct (Supabase.refuses srv (Supabase.MarkAlertRead alertId) d)
      as [e |] eqn:E; [| now elim Href].
    now rewrite (markAsRead_refused srv alertId st d e E).
Qed.

Lemma markAsRead_lowers_unreadCount_witness :
  let l := [Fixtures.alert "a-1" false; Fixtures.alert "a-2" false] in
  let st := AlertsPanel.mkState l false AlertsPanel.unread in
  AlertsPanel.unreadCount st = 2%nat
  /\ (AlertsPanel.unreadCount
        (fst (AlertsPanel.markAsRead Fixtures.accepting "a-2" st
                (Fixtures.db_with_alerts l)))
      + 1 = AlertsPanel.unreadCount st)%nat.
Proof.
  intros l st. split; [reflexivity |].
  exact (proj2 (proj1 (markAsRead_lowers_unreadCount Fixtures.accepting
                         "a-2" st (Fixtures.db_with_alerts l)) eq_refl)).
Defined.

(** X7.  Marking the same alert read twice is the same as marking it once:
    when both requests are accepted, the second leaves the list of the panel
    and the alerts table exactly as the first left them. *)
Theorem markAsRead_twice_is_once :
  forall (srv : Supabase.Server) (alertId : string)
         (st : AlertsPanel.State) (d : Supabase.Db),
    let once := AlertsPanel.markAsRead srv alertId st d in
    let twice := AlertsPanel.markAsRead srv alertId (fst once) (snd once) in
    Supabase.refuses srv (Supabase.MarkAlertRead alertId) d = None ->
    Supabase.refuses srv (Supabase.MarkAlertRead alertId) (snd once) = None ->
    fst twice = fst once
    /\ Supabase.alerts (snd twice) = Supabase.alerts (snd once).
Proof.
  intros srv alertId st d once twice H1 H2. subst twice.
  rewrite (markAsRead_accepted srv alertId (fst once) (snd once) H2).
  subst once. rewrite (markAsRead_accepted srv alertId st d H1). simpl.
  assert (Hidem : forall l : list Supabase.Alert.t,
             map (Supabase.mark_read_if
                    (fun a => String.eqb (Supabase.Alert.id a) alertId))
               (map (Supabase.mark_read_if
                       (fun a => String.eqb (Supabase.Alert.id a) alertId))
                  l)
             = map (Supabase.mark_read_if
                      (fun a => String.eqb (Supabase.Alert.id a) alertId))
                 l).
  { intros l. rewrite map_map. apply map_ext. intros a.
    apply mark_read_if_idem. reflexivity. }
  split.
  - unfold AlertsPanel.setAlerts. simpl. now rewrite Hidem.
  - apply Hidem.
Qed.

Lemma markAsRead_twice_is_once_witness :
  let l := [Fixtures.alert "a-1" false; Fixtures.alert "a-2" false] in
  let st := AlertsPanel.mkState l false AlertsPanel.all in
  let once :=
    AlertsPanel.markAsRead Fixtures.accepting "a-1" st
      (Fixtures.db_with_alerts l) in
  AlertsPanel.alerts (fst once)
  = [Fixtures.alert "a-1" true; Fixtures.alert "a-2" false]
  /\ fst (AlertsPanel.markAsRead Fixtures.accepting "a-1" (fst once)
            (snd once))
     = fst once.
Proof.
  intros l st once. split; [reflexivity |].
  exact (proj1 (markAsRead_twice_is_once Fixtures.accepting "a-1" st
                  (Fixtures.db_with_alerts l) eq_refl eq_refl)).
Defined.

(** X8.  After an accepted [markAllAsRead] no alert of the user is unread in
    the table, and the alerts of other users are identical to what they
    were.  If the fetch that follows succeeds, a panel under the "unread"
    filter holds no alert and its [unreadCount] is 0; and the count that
    [fetchUnreadAlerts] would then put on the Alerts tab is 0. *)
Theorem markAllAsRead_leaves_nothing_unread :
  forall (srv : Supabase.Server) (userId : string) (badge : nat)
         (st : AlertsPanel.State) (d : Supabase.Db),
    Supabase.refuses srv (Supabase.MarkUnreadAlertsRead userId) d = None ->
    let st' := fst (AlertsPanel.markAllAsRead srv userId st d) in
    let d' := snd (AlertsPanel.markAllAsRead srv userId st d) in
    (forall a,
        In a (Supabase.alerts d') ->
        Supabase.Alert.user_id a = userId ->
        Supabase.Alert.is_read a = true)
    /\ Forall2
         (fun a a' => Supabase.Alert.user_id a <> userId -> a' = a)
         (Supabase.alerts d) (Supabase.alerts d')
    /\ (Supabase.select_fails srv "alerts" d' = None ->
        (AlertsPanel.filter st = AlertsPanel.unread ->
         AlertsPanel.alerts st' = [] /\ AlertsPanel.unreadCount st' = 0%nat)
        /\ (JS.falsy userId = false ->
            App.fetchUnreadAlerts srv userId badge d' = 0%nat)).
Proof.
  intros srv userId badge st d Hacc st' d'. subst st' d'.
  unfold AlertsPanel.markAllAsRead.
  rewrite (send_accepted srv _ _ Hacc). simpl.
  set (p := fun a : Supabase.Alert.t =>
              String.eqb (Supabase.Alert.user_id a) userId
              && Bool.eqb (Supabase.Alert.is_read a) false).
  assert (Hread : forall a,
             In a (map (Supabase.mark_read_if p) (Supabase.alerts d)) ->
             Supabase.Alert.user_id a = userId ->
             Supabase.Alert.is_read a = true).
  { intros a Ha Hu. apply in_map_iff in Ha. destruct Ha as (b & <- & _).
    unfold Supabase.mark_read_if in *. destruct (p b) eqn:E; [reflexivity |].
    unfold p in E. rewrite Hu, String.eqb_refl in E. simpl in E.
    now destruct (Supabase.Alert.is_read b). }
  assert (Hnone : List.filter p
                    (map (Supabase.mark_read_if p) (Supabase.alerts d)) = []).
  { apply filter_none. intros a Ha. unfold p.
    destruct (String.eqb_spec (Supabase.Alert.user_id a) userId) as [Hu | Hu];
      [| reflexivity].
    now rewrite (Hread a Ha Hu). }
  split; [exact Hread | split; [| intros Hsel; split]].
  - apply Forall2_map_self. intros a Hu. unfold Supabase.mark_read_if, p.
    destruct (String.eqb_spec (Supabase.Alert.user_id a) userId);
      [contradiction | reflexivity].
  - intros Hf. unfold AlertsPanel.fetchAlerts.
    unfold Supabase.log_request, Supabase.apply_request in *. simpl in *.
    rewrite Hsel, Hf. simpl.
    assert (Hq : AlertsPanel.query srv userId AlertsPanel.unread
                   (Supabase.mkDb (Supabase.incidents d)
                      (Supabase.hotspots d)
                      (map (Supabase.mark_read_if p) (Supabase.alerts d))
                      (Supabase.neighbourhood_watch_groups d)
                      (Supabase.group_members d)
                      (Supabase.received d
                       ++ [Supabase.MarkUnreadAlertsRead userId]))
                 = []).
    { unfold AlertsPanel.query. simpl. fold p. now rewrite Hnone. }
    rewrite Hq. split; reflexivity.
  - intros Hu. unfold App.fetchUnreadAlerts.
    unfold Supabase.log_request, Supabase.apply_request in *. simpl in *.
    rewrite Hu, Hsel. simpl. fold p. now rewrite Hnone.
Qed.

Lemma markAllAsRead_leaves_nothing_unread_witness :
  let l := [Fixtures.alert "a-1" false; Fixtures.alert "a-2" false] in
  let st := AlertsPanel.mkState l false AlertsPanel.unread in
  Supabase.refuses Fixtures.accepting
    (Supabase.MarkUnreadAlertsRead "user-1") (Fixtures.db_with_alerts l)
  = None
  /\ AlertsPanel.alerts
       (fst (AlertsPanel.markAllAsRead Fixtures.accepting "user-1" st
               (Fixtures.db_with_alerts l)))
     = [].
Proof.
  intros l st. split; [reflexivity |].
  exact (proj1 (proj1 (proj2 (proj2
           (markAllAsRead_leaves_nothing_unread Fixtures.accepting "user-1"
              0 st (Fixtures.db_with_alerts l) eq_refl)) eq_refl) eq_refl)).
Defined.

(** X9.  [markAsRead] keeps the panel in step with the table: if every alert
    held by the panel is a row of the alerts table before the call, the same
    is true after it, whether the request was accepted or refused. *)
Theorem markAsRead_keeps_panel_in_table :
  forall (srv : Supabase.Server) (alertId : string)
         (st : AlertsPanel.State) (d : Supabase.Db),
    (forall a, In a (AlertsPanel.alerts st) -> In a (Supabase.alerts d)) ->
    forall a,
      In a (AlertsPanel.alerts (fst (AlertsPanel.markAsRead srv alertId st d)))
      -> In a (Supabase.alerts (snd (AlertsPanel.markAsRead srv alertId st d))).
Proof.
  intros srv alertId st d Hsub a.
  destruct (Supabase.refuses srv (Supabase.MarkAlertRead alertId) d)
    as [e |] eqn:E.
  - rewrite (markAsRead_refused srv alertId st d e E). simpl. apply Hsub.
  - rewrite (markAsRead_accepted srv alertId st d E). simpl.
    rewrite !in_map_iff. intros (b & <- & Hb). exists b. auto.
Qed.

Lemma markAsRead_keeps_panel_in_table_witness :
  let l := [Fixtures.alert "a-1" false; Fixtures.alert "a-2" false] in
  let st := AlertsPanel.mkState [Fixtures.alert "a-2" false] false
              AlertsPanel.unread in
  In (Fixtures.alert "a-2" true)
     (Supabase.alerts
        (snd (AlertsPanel.markAsRead Fixtures.accepting "a-2" st
                (Fixtures.db_with_alerts l)))).
Proof.
  intros l st.
  apply (markAsRead_keeps_panel_in_table Fixtures.accepting "a-2" st
           (Fixtures.db_with_alerts l)).
  - intros a [<- | []]. simpl. auto.
  - simpl. auto.
Defined.

(** ** Dashboard: the counters and the recent list *)

Section DashboardMoreFacts.
Import Supabase.
Variable srv : Server.
Variable Date_getTime : string -> option Z.

Lemma compute_stats_perm (now : Z) (l l' : list Incident.t) :
  Permutation l l' ->
  Dashboard.compute_stats Date_getTime now l
  = Dashboard.compute_stats Date_getTime now l'.
Proof.
  intros Hp. unfold Dashboard.compute_stats.
  rewrite (Permutation_length Hp).
  rewrite (filter_length_perm _ _ _ Hp).
  rewrite (filter_length_perm Dashboard.is_critical_active _ _ Hp).
  rewrite (filter_length_perm Dashboard.is_resolved _ _ Hp).
  reflexivity.
Qed.

Lemma filter_length_mono {A : Type} (f g : A -> bool) (l : list A) :
  (forall a, f a = true -> g a = true) ->
  (List.length (List.filter f l) <= List.length (List.filter g l))%nat.
Proof.
  intros H. induction l as [| a l IH]; simpl; [lia |].
  destruct (f a) eqn:Ef.
  - rewrite (H a Ef). simpl. lia.
  - destruct (g a); simpl; lia.
Qed.

Lemma fetchDashboardData_fetched (now : Z) (st : Dashboard.State) (d : Db) :
  select_fails srv "incidents" d = None ->
  Dashboard.fetchDashboardData srv Date_getTime now st d
  = Dashboard.mkState
      (Dashboard.compute_stats Date_getTime now
         (order_desc (timestamp_leb srv) Incident.timestamp (incidents d)))
      (firstn 10
         (order_desc (timestamp_leb srv) Incident.timestamp (incidents d)))
      false.
Proof.
  intros H. unfold Dashboard.fetchDashboardData, Dashboard.select_incidents.
  now rewrite H.
Qed.

End DashboardMoreFacts.

Section SortedFacts.
Context {A : Type}.
Variable R : A -> A -> Prop.

Lemma StronglySorted_app_inv (l1 l2 : list A) :
  StronglySorted R (l1 ++ l2) ->
  StronglySorted R l1
  /\ forall x y, In x l1 -> In y l2 -> R x y.
Proof.
  induction l1 as [| a l1 IH]; simpl; intros H.
  - split; [constructor | intros x y []].
  - apply StronglySorted_inv in H. destruct H as [Hs Ha].
    destruct (IH Hs) as [Hs1 Hcross]. split.
    + constructor; [exact Hs1 |].
      rewrite Forall_forall in *. intros x Hx. apply Ha.
      apply in_or_app. now left.
    + intros x y [<- | Hx] Hy.
      * rewrite Forall_forall in Ha. apply Ha. apply in_or_app. now right.
      * now apply Hcross.
Qed.

End SortedFacts.

(** X10.  The four counters do not depend on the order in which the backend
    returns the incidents: when the select succeeds they are the counts over
    the rows of the incidents table itself, and [totalIncidents] is the
    number of rows of the table. *)
Theorem dashboard_stats_count_the_table :
  forall (srv : Supabase.Server) (Date_getTime : string -> option Z)
         (now : Z) (st : Dashboard.State) (d : Supabase.Db),
    Supabase.select_fails srv "incidents" d = None ->
    let s :=
      Dashboard.stats (Dashboard.fetchDashboardData srv Date_getTime now st d)
    in
    s = Dashboard.compute_stats Date_getTime now (Supabase.incidents d)
    /\ Dashboard.Stats.totalIncidents s
       = List.length (Supabase.incidents d)
    /\ forall l,
         Permutation l (Supabase.incidents d) ->
         Dashboard.compute_stats Date_getTime now l = s.
Proof.
  intros srv Date_getTime now st d Hsel s. subst s.
  rewrite fetchDashboardData_fetched by exact Hsel. simpl.
  assert (E : Dashboard.compute_stats Date_getTime now
                (Supabase.order_desc (Supabase.timestamp_leb srv)
                   Supabase.Incident.timestamp (Supabase.incidents d))
              = Dashboard.compute_stats Date_getTime now
                  (Supabase.incidents d))
    by apply compute_stats_perm, order_desc_perm.
  split; [exact E | split; [apply order_desc_length |]].
  intros l Hp. rewrite E. now apply compute_stats_perm.
Qed.

Lemma dashboard_stats_count_the_table_witness :
  let d :=
    Fixtures.db_with_incidents
      [Fixtures.incident_at "i-1" "2026-10-30T08:00" Supabase.critical
         Supabase.pending;
       Fixtures.incident_at "i-2" "2026-11-01T09:30" Supabase.low
         Supabase.resolved] in
  Supabase.select_fails Fixtures.dated "incidents" d = None
  /\ Dashboard.Stats.totalIncidents
       (Dashboard.stats
          (Dashboard.fetchDashboardData Fixtures.dated (fun _ => None) 0%Z
             (Dashboard.mkState (Dashboard.Stats.mk 0 0 0 0) [] true) d))
     = 2%nat.
Proof.
  intros d. split; [reflexivity |].
  exact (proj1 (proj2 (dashboard_stats_count_the_table Fixtures.dated
                         (fun _ => None) 0%Z _ d eq_refl))).
Defined.

(** X11.  The "recent" counter can only fall as the clock advances: for two
    clock readings, the later one counts no more recent incidents than the
    earlier one over the same list; and an incident whose timestamp is not a
    date is never counted. *)
Theorem recent_count_falls_with_time :
  forall (Date_getTime : string -> option Z) (now now' : Z)
         (l : list Supabase.Incident.t),
    ((now <= now')%Z ->
     (Dashboard.Stats.recentIncidents
        (Dashboard.compute_stats Date_getTime now' l)
      <= Dashboard.Stats.recentIncidents
           (Dashboard.compute_stats Date_getTime now l))%nat)
    /\ ((forall i, In i l ->
                   Date_getTime (Supabase.Incident.timestamp i) = None) ->
        Dashboard.Stats.recentIncidents
          (Dashboard.compute_stats Date_getTime now l) = 0%nat).
Proof.
  intros Date_getTime now now' l. split.
  - intros Hle. simpl. apply filter_length_mono. intros i.
    unfold Dashboard.is_recent.
    destruct (Date_getTime (Supabase.Incident.timestamp i)) as [t |];
      [| discriminate].
    rewrite !Z.leb_le. lia.
  - intros Hnone. simpl. rewrite filter_none; [reflexivity |].
    intros i Hi. unfold Dashboard.is_recent. now rewrite (Hnone i Hi).
Qed.

Lemma recent_count_falls_with_time_witness :
  let l := [Fixtures.incident_at "i-1" "2026-10-30T08:00" Supabase.high
              Supabase.pending] in
  (Dashboard.Stats.recentIncidents
     (Dashboard.compute_stats (fun _ => Some 1000%Z) 604801001%Z l)
   <= Dashboard.Stats.recentIncidents
        (Dashboard.compute_stats (fun _ => Some 1000%Z) 604800000%Z l))%nat.
Proof.
  intros l.
  apply (proj1 (recent_count_falls_with_time (fun _ => Some 1000%Z)
                  604800000%Z 604801001%Z l)).
  lia.
Defined.

Lemma date_leb_total (a b : string) :
  Fixtures.date_leb a b = true \/ Fixtures.date_leb b a = true.
Proof.
  unfold Fixtures.date_leb. rewrite !N.leb_le. lia.
Qed.

Lemma date_leb_trans (a b c : string) :
  Fixtures.date_leb a b = true -> Fixtures.date_leb b c = true ->
  Fixtures.date_leb a c = true.
Proof.
  unfold Fixtures.date_leb. rewrite !N.leb_le. lia.
Qed.

(** X12.  When the select succeeds, the list under "Recent Incidents" holds
    ten incidents of the table, or all of them when there are fewer; the
    list and the incidents left out make up the table, each row once.  If
    the backend's order of timestamps is total and transitive, the list is
    in descending order of timestamp and no incident left out is later than
    one that is shown. *)
Theorem recent_list_is_latest_ten :
  forall (srv : Supabase.Server) (Date_getTime : string -> option Z)
         (now : Z) (st : Dashboard.State) (d : Supabase.Db),
    Supabase.select_fails srv "incidents" d = None ->
    let recent :=
      Dashboard.recentIncidents
        (Dashboard.fetchDashboardData srv Date_getTime now st d) in
    List.length recent = Nat.min 10 (List.length (Supabase.incidents d))
    /\ exists rest,
         Permutation (recent ++ rest) (Supabase.incidents d)
         /\ ((forall a b,
                 Supabase.timestamp_leb srv a b = true
                 \/ Supabase.timestamp_leb srv b a = true) ->
             (forall a b c,
                 Supabase.timestamp_leb srv a b = true ->
                 Supabase.timestamp_leb srv b c = true ->
                 Supabase.timestamp_leb srv a c = true) ->
             Supabase.descending (Supabase.timestamp_leb srv)
               Supabase.Incident.timestamp recent
             /\ forall x y,
                  In x recent -> In y rest ->
                  Supabase.timestamp_leb srv
                    (Supabase.Incident.timestamp y)
                    (Supabase.Incident.timestamp x) = true).
Proof.
  intros srv Date_getTime now st d Hsel recent. subst recent.
  rewrite fetchDashboardData_fetched by exact Hsel.
  cbn [Dashboard.recentIncidents].
  set (sorted := Supabase.order_desc (Supabase.timestamp_leb srv)
                   Supabase.Incident.timestamp (Supabase.incidents d)).
  split.
  - rewrite length_firstn. unfold sorted. now rewrite order_desc_length.
  - exists (skipn 10 sorted). split.
    + rewrite firstn_skipn. apply order_desc_perm.
    + intros Htotal Htrans.
      assert (Hs : Supabase.descending (Supabase.timestamp_leb srv)
                     Supabase.Incident.timestamp sorted).
      { apply (order_desc_sorted (Supabase.timestamp_leb srv)
                 Supabase.Incident.timestamp (fun _ => True)); auto.
        - intros a b c _ _ _. apply Htrans.
        - apply Forall_forall. auto. }
      unfold Supabase.descending in *.
      rewrite <- (firstn_skipn 10 sorted) in Hs.
      apply StronglySorted_app_inv in Hs. exact Hs.
Qed.

Lemma recent_list_is_latest_ten_witness :
  let d :=
    Fixtures.db_with_incidents
      [Fixtures.incident_at "i-1" "2026-10-30T08:00" Supabase.critical
         Supabase.pending;
       Fixtures.incident_at "i-2" "2026-11-01T09:30" Supabase.low
         Supabase.resolved] in
  Supabase.select_fails Fixtures.dated "incidents" d = None
  /\ List.length
       (Dashboard.recentIncidents
          (Dashboard.fetchDashboardData Fixtures.dated (fun _ => None) 0%Z
             (Dashboard.mkState (Dashboard.Stats.mk 0 0 0 0) [] true) d))
     = 2%nat
  /\ exists rest,
       Supabase.descending Fixtures.date_leb Supabase.Incident.timestamp
         (Dashboard.recentIncidents
            (Dashboard.fetchDashboardData Fixtures.dated (fun _ => None) 0%Z
               (Dashboard.mkState (Dashboard.Stats.mk 0 0 0 0) [] true) d))
       /\ forall y, In y rest -> In y (Supabase.incidents d).
Proof.
  intros d. split; [reflexivity |].
  destruct (recent_list_is_latest_ten Fixtures.dated (fun _ => None) 0%Z
              (Dashboard.mkState (Dashboard.Stats.mk 0 0 0 0) [] true) d
              eq_refl) as (Hlen & rest & Hperm & Hsorted).
  split; [exact Hlen |].
  exists rest. split.
  - exact (proj1 (Hsorted date_leb_total date_leb_trans)).
  - intros y Hy. apply (Permutation_in _ Hperm). apply in_or_app. now right.
Defined.

(** ** Dashboard and HotspotMap: what is shown for a status and a score *)

Section DisplayFacts.

Lemma replace_first_occurrences (a b : ascii) (s : string) :
  a <> b ->
  JS.occurrences a (JS.replace_first a b s) = Nat.pred (JS.occurrences a s).
Proof.
  intros Hab. unfold JS.occurrences.
  induction s as [| c s IH]; simpl; [reflexivity |].
  destruct (Ascii.eqb_spec c a) as [-> | Hca].
  - rewrite Ascii.eqb_refl. simpl.
    destruct (Ascii.eqb_spec a b); [contradiction | reflexivity].
  - simpl. destruct (Ascii.eqb_spec a c) as [E | _]; [now elim Hca |].
    exact IH.
Qed.

Lemma replace_first_length (a b : ascii) (s : string) :
  String.length (JS.replace_first a b s) = String.length s.
Proof.
  induction s as [| c s IH]; simpl; [reflexivity |].
  destruct (Ascii.eqb c a); simpl; congruence.
Qed.

Lemma ge_trans (s t : JS.number) (k : Z) :
  JS.ge t s = true -> JS.ge s (JS.of_Z k) = true ->
  JS.ge t (JS.of_Z k) = true.
Proof.
  destruct s, t; simpl; try congruence.
  rewrite !Qle_bool_iff. intros H1 H2. eapply Qle_trans; eauto.
Qed.

Lemma le_total_numbers (a b : JS.number) :
  a <> JS.NaN -> b <> JS.NaN -> JS.le a b = true \/ JS.le b a = true.
Proof.
  intros Ha Hb. unfold JS.le.
  destruct a, b; simpl; auto; try congruence.
  rewrite !Qle_bool_iff. destruct (Qlt_le_dec q q0) as [H | H].
  - left. now apply Qlt_le_weak.
  - now right.
Qed.

Lemma le_trans_numbers (a b c : JS.number) :
  JS.le a b = true -> JS.le b c = true -> JS.le a c = true.
Proof.
  unfold JS.le. destruct a, b, c; simpl; try congruence.
  rewrite !Qle_bool_iff. intros H1 H2. eapply Qle_trans; eauto.
Qed.

End DisplayFacts.

(** X13.  The status cell shows the status with its first underscore only
    turned into a space: the text has the length of the literal and one
    underscore fewer.  So the text still holds an underscore exactly for the
    status reported_to_saps, which is shown as "reported to_saps". *)
Theorem status_text_keeps_second_underscore :
  forall i : Supabase.Incident.t,
    String.length (Dashboard.status_text i)
    = String.length (Supabase.Status_literal (Supabase.Incident.status i))
    /\ JS.occurrences "_" (Dashboard.status_text i)
       = Nat.pred
           (JS.occurrences "_"
              (Supabase.Status_literal (Supabase.Incident.status i)))
    /\ ((0 < JS.occurrences "_" (Dashboard.status_text i))%nat
        <-> Supabase.Incident.status i = Supabase.reported_to_saps)
    /\ (Supabase.Incident.status i = Supabase.reported_to_saps ->
        Dashboard.status_text i = "reported to_saps").
Proof.
  intros i. unfold Dashboard.status_text.
  split; [apply replace_first_length | split].
  - apply replace_first_occurrences. discriminate.
  - destruct (Supabase.Incident.status i); vm_compute;
      (split; [split; [intros H; try lia; reflexivity
                      | intros H; try discriminate H; lia]
              | intros H; try discriminate H; reflexivity]).
Qed.

Lemma status_text_keeps_second_underscore_witness :
  Dashboard.status_text
    (Fixtures.incident_at "i-1" "2026-10-30T08:00" Supabase.high
       Supabase.reported_to_saps)
  = "reported to_saps".
Proof.
  apply (proj2 (proj2 (proj2 (status_text_keeps_second_underscore _)))).
  reflexivity.
Defined.

(** X14.  The colour coding is unambiguous.  On the dashboard two different
    statuses never get the same colour, nor do two different severities, and
    none of them gets the grey of an unknown value.  In the alerts panel the
    card of a read alert differs from the card of every unread one, and
    unread alerts of different types have different cards. *)
Theorem colours_tell_values_apart :
  (forall s1 s2 : Supabase.Status,
      Dashboard.getStatusColor (Supabase.Status_literal s1)
      = Dashboard.getStatusColor (Supabase.Status_literal s2) -> s1 = s2)
  /\ (forall s : Supabase.Status,
         Dashboard.getStatusColor (Supabase.Status_literal s)
         <> "bg-gray-100 text-gray-800")
  /\ (forall s1 s2 : Supabase.Severity,
         Dashboard.getSeverityColor (Supabase.Severity_literal s1)
         = Dashboard.getSeverityColor (Supabase.Severity_literal s2) ->
         s1 = s2)
  /\ (forall s : Supabase.Severity,
         Dashboard.getSeverityColor (Supabase.Severity_literal s)
         <> "bg-gray-100 text-gray-800 border-gray-200")
  /\ (forall a b : Supabase.Alert.t,
         AlertsPanel.card_color a = AlertsPanel.card_color b ->
         Supabase.Alert.is_read a = Supabase.Alert.is_read b
         /\ (Supabase.Alert.is_read a = false ->
             Supabase.Alert.alert_type a = Supabase.Alert.alert_type b)).
Proof.
  repeat split.
  - intros [] []; simpl; intros H; try reflexivity; discriminate H.
  - intros []; discriminate.
  - intros [] []; simpl; intros H; try reflexivity; discriminate H.
  - intros []; discriminate.
  - revert H. unfold AlertsPanel.card_color.
    destruct (Supabase.Alert.is_read a), (Supabase.Alert.is_read b),
      (Supabase.Alert.alert_type a), (Supabase.Alert.alert_type b);
      simpl; intros H; try reflexivity; discriminate H.
  - revert H. unfold AlertsPanel.card_color. intros H Hr. rewrite Hr in H.
    destruct (Supabase.Alert.is_read b),
      (Supabase.Alert.alert_type a), (Supabase.Alert.alert_type b);
      simpl in H; try reflexivity; discriminate H.
Qed.

Lemma colours_tell_values_apart_witness :
  Supabase.Alert.alert_type (Fixtures.alert "a-1" false)
  = Supabase.Alert.alert_type (Fixtures.alert "a-2" false).
Proof.
  apply (proj2 (proj2 (proj2 (proj2 colours_tell_values_apart)))
           (Fixtures.alert "a-1" false) (Fixtures.alert "a-2" false));
    reflexivity.
Defined.

(** X15.  The severity label never falls as the score rises: if one score is
    at most another, then a "Critical" first one makes the second "Critical",
    a "High" first one makes the second "High" or "Critical", a "Low" second
    one makes the first "Low", and a "Medium" second one makes the first
    "Medium" or "Low". *)
Theorem severity_label_rises_with_score :
  forall s t : JS.number,
    JS.le s t = true ->
    (HotspotMap.getSeverityLabel s = "Critical" ->
     HotspotMap.getSeverityLabel t = "Critical")
    /\ (HotspotMap.getSeverityLabel s = "High" ->
        HotspotMap.getSeverityLabel t = "High"
        \/ HotspotMap.getSeverityLabel t = "Critical")
    /\ (HotspotMap.getSeverityLabel t = "Low" ->
        HotspotMap.getSeverityLabel s = "Low")
    /\ (HotspotMap.getSeverityLabel t = "Medium" ->
        HotspotMap.getSeverityLabel s = "Medium"
        \/ HotspotMap.getSeverityLabel s = "Low").
Proof.
  intros s t Hle. unfold JS.le in Hle.
  pose proof (ge_trans s t 8 Hle) as H8.
  pose proof (ge_trans s t 5 Hle) as H5.
  pose proof (ge_trans s t 3 Hle) as H3.
  unfold HotspotMap.getSeverityLabel.
  destruct (JS.ge s (JS.of_Z 8)) eqn:S8.
  { rewrite (H8 eq_refl). repeat split; auto; discriminate. }
  destruct (JS.ge s (JS.of_Z 5)) eqn:S5.
  { rewrite (H5 eq_refl). destruct (JS.ge t (JS.of_Z 8));
      repeat split; auto; discriminate. }
  destruct (JS.ge s (JS.of_Z 3)) eqn:S3.
  { rewrite (H3 eq_refl).
    destruct (JS.ge t (JS.of_Z 8)), (JS.ge t (JS.of_Z 5));
      repeat split; auto; discriminate. }
  destruct (JS.ge t (JS.of_Z 8)), (JS.ge t (JS.of_Z 5)),
    (JS.ge t (JS.of_Z 3)); repeat split; auto; discriminate.
Qed.

Lemma severity_label_rises_with_score_witness :
  HotspotMap.getSeverityLabel (JS.parseFloat "7.5") = "High"
  /\ (HotspotMap.getSeverityLabel (JS.parseFloat "9.25") = "High"
      \/ HotspotMap.getSeverityLabel (JS.parseFloat "9.25") = "Critical").
Proof.
  split; [reflexivity |].
  apply (proj1 (proj2 (severity_label_rises_with_score
                         (JS.parseFloat "7.5") (JS.parseFloat "9.25")
                         eq_refl))).
  reflexivity.
Defined.

Lemma In_firstn {A : Type} (n : nat) (x : A) (l : list A) :
  In x (firstn n l) -> In x l.
Proof.
  intros H. rewrite <- (firstn_skipn n l). apply in_or_app. now left.
Qed.

(** X16.  [fetchHotspotsAndIncidents] always ends the loading state and keeps
    the selected hotspot.  When the hotspots select succeeds the list holds
    the rows of the hotspots table, each once, and, if no score is [NaN], in
    descending order of score; when the incidents select succeeds the list
    holds at most 50 incidents, all rows of the table.  A select that fails
    leaves its list as it was. *)
Theorem fetchHotspotsAndIncidents_lists :
  forall (srv : Supabase.Server) (st : HotspotMap.State) (d : Supabase.Db),
    let st' := HotspotMap.fetchHotspotsAndIncidents srv st d in
    HotspotMap.loading st' = false
    /\ HotspotMap.selectedHotspot st' = HotspotMap.selectedHotspot st
    /\ (Supabase.select_fails srv "hotspots" d = None ->
        Permutation (HotspotMap.hotspots st') (Supabase.hotspots d)
        /\ (Forall
              (fun h => Supabase.Hotspot.severity_score h <> JS.NaN)
              (Supabase.hotspots d) ->
            Supabase.descending JS.le Supabase.Hotspot.severity_score
              (HotspotMap.hotspots st')))
    /\ (Supabase.select_fails srv "hotspots" d <> None ->
        HotspotMap.hotspots st' = HotspotMap.hotspots st)
    /\ (Supabase.select_fails srv "incidents" d = None ->
        (List.length (HotspotMap.incidents st') <= 50)%nat
        /\ List.length (HotspotMap.incidents st')
           = Nat.min 50 (List.length (Supabase.incidents d))
        /\ forall i, In i (HotspotMap.incidents st') ->
                     In i (Supabase.incidents d))
    /\ (Supabase.select_fails srv "incidents" d <> None ->
        HotspotMap.incidents st' = HotspotMap.incidents st).
Proof.
  intros srv st d st'. subst st'. unfold HotspotMap.fetchHotspotsAndIncidents.
  cbn [HotspotMap.loading HotspotMap.selectedHotspot HotspotMap.hotspots
       HotspotMap.incidents].
  split; [reflexivity | split; [reflexivity |]].
  split; [| split; [| split]].
  - intros Hsel. rewrite Hsel. split; [apply order_desc_perm |].
    intros Hnan.
    apply (order_desc_sorted JS.le Supabase.Hotspot.severity_score
             (fun x => x <> JS.NaN)).
    + apply le_total_numbers.
    + intros a b c _ _ _. apply le_trans_numbers.
    + exact Hnan.
  - intros Hsel.
    destruct (Supabase.select_fails srv "hotspots" d);
      [reflexivity | now elim Hsel].
  - intros Hsel. rewrite Hsel. split; [apply firstn_le_length | split].
    + now rewrite length_firstn, order_desc_length.
    + intros i Hi. apply In_firstn in Hi.
      now apply In_order_desc in Hi.
  - intros Hsel.
    destruct (Supabase.select_fails srv "incidents" d);
      [reflexivity | now elim Hsel].
Qed.

Lemma fetchHotspotsAndIncidents_lists_witness :
  let d :=
    Supabase.mkDb []
      [Fixtures.hotspot_scored "h-1" "4.5"; Fixtures.hotspot_scored "h-2" "9";
       Fixtures.hotspot_scored "h-3" "6.25"] [] [] [] [] in
  let st := HotspotMap.mkState [] [] true None in
  map Supabase.Hotspot.id
    (HotspotMap.hotspots
       (HotspotMap.fetchHotspotsAndIncidents Fixtures.accepting st d))
  = ["h-2"; "h-3"; "h-1"]
  /\ Supabase.descending JS.le Supabase.Hotspot.severity_score
       (HotspotMap.hotspots
          (HotspotMap.fetchHotspotsAndIncidents Fixtures.accepting st d)).
Proof.
  intros d st. split; [reflexivity |].
  apply (proj2 (proj1 (proj2 (proj2
           (fetchHotspotsAndIncidents_lists Fixtures.accepting st d)))
           eq_refl)).
  repeat constructor; discriminate.
Defined.

(** ** IncidentReportForm: after the request *)

Section SubmitFacts.
Import Supabase IncidentReportForm.
Variable srv : Server.
Variable userId : string.
Variable onSuccess : bool.

Lemma handleSubmit_refused (clock : string) (st : State) (d : Db)
      (e : PostgrestError) :
  missing_required st = false ->
  refuses srv (InsertIncident (payload userId st)) d = Some e ->
  handleSubmit srv userId onSuccess clock st d
  = mkOutcome
      (setLoading false
         (setError
            (JS.or_else (error_message e) "Failed to submit incident report.")
            (setLoading true (setError "" st))))
      (log_request (InsertIncident (payload userId st)) d)
      false.
Proof.
  intros Hm Href. unfold handleSubmit.
  rewrite missing_required_setError, Hm.
  rewrite payload_setLoading, payload_setError.
  unfold send. rewrite Href. reflexivity.
Qed.

Lemma or_else_not_empty (a b : string) : b <> "" -> JS.or_else a b <> "".
Proof.
  intros Hb. unfold JS.or_else. destruct a; simpl; [exact Hb | discriminate].
Qed.

Lemma checkValidity_fields (max : string) (st : State) :
  checkValidity max st = true -> missing_required st = false.
Proof.
  unfold checkValidity, missing_required,
    HTML.select_required_ok, HTML.text_required_ok, HTML.number_required_ok.
  intros H.
  repeat (apply andb_prop in H; destruct H as [H ?]).
  destruct (type st); [discriminate |].
  destruct (description st); [discriminate |].
  destruct (locationLat st); [discriminate |].
  destruct (locationLng st); [discriminate |].
  reflexivity.
Qed.

End SubmitFacts.

(** X17.  When the backend refuses the insert, [handleSubmit] loses nothing
    the user typed: type, description, severity, coordinates, address and
    date are as before; the form is no longer loading, shows an error
    message that is never empty (the message of the backend, or "Failed to
    submit incident report." when that is empty), does not call
    [onSuccess], and the incidents table is unchanged. *)
Theorem refused_report_keeps_the_form :
  forall (srv : Supabase.Server) (userId : string) (onSuccess : bool)
         (clock : string) (st : IncidentReportForm.State) (d : Supabase.Db)
         (e : Supabase.PostgrestError),
    IncidentReportForm.missing_required st = false ->
    Supabase.refuses srv
      (Supabase.InsertIncident (IncidentReportForm.payload userId st)) d
    = Some e ->
    let o := IncidentReportForm.handleSubmit srv userId onSuccess clock st d in
    let st' := IncidentReportForm.state o in
    IncidentReportForm.type st' = IncidentReportForm.type st
    /\ IncidentReportForm.description st' = IncidentReportForm.description st
    /\ IncidentReportForm.severity st' = IncidentReportForm.severity st
    /\ IncidentReportForm.locationLat st' = IncidentReportForm.locationLat st
    /\ IncidentReportForm.locationLng st' = IncidentReportForm.locationLng st
    /\ IncidentReportForm.locationAddress st'
       = IncidentReportForm.locationAddress st
    /\ IncidentReportForm.incidentDate st'
       = IncidentReportForm.incidentDate st
    /\ IncidentReportForm.loading st' = false
    /\ IncidentReportForm.error st' <> ""
    /\ IncidentReportForm.error st'
       = JS.or_else (Supabase.error_message e)
           "Failed to submit incident report."
    /\ IncidentReportForm.onSuccess_called o = false
    /\ Supabase.incidents (IncidentReportForm.db o) = Supabase.incidents d.
Proof.
  intros srv userId onSuccess clock st d e Hm Href o st'. subst st' o.
  rewrite (handleSubmit_refused srv userId onSuccess clock st d e Hm Href).
  simpl. repeat split. apply or_else_not_empty. discriminate.
Qed.

Lemma refused_report_keeps_the_form_witness :
  let srv :=
    Supabase.mkServer (fun _ _ => Some (Supabase.mkError ""))
      (fun _ _ => None) (fun _ => "row-1") (fun _ => "2026-11-02T10:00")
      String.leb in
  let st := Fixtures.report "-26.2041" "28.0473" "2026-11-01T09:30" in
  IncidentReportForm.error
    (IncidentReportForm.state
       (IncidentReportForm.handleSubmit srv "user-1" true "2026-11-02T10:00"
          st Fixtures.empty_db))
  = "Failed to submit incident report.".
Proof.
  intros srv st.
  destruct (refused_report_keeps_the_form srv "user-1" true
              "2026-11-02T10:00" st Fixtures.empty_db (Supabase.mkError "")
              eq_refl eq_refl)
    as (_ & _ & _ & _ & _ & _ & _ & _ & _ & Hmsg & _).
  exact Hmsg.
Defined.

(** X18.  After an accepted report the form is back to its defaults (empty
    texts, severity medium, the date at the clock, no error, not loading) and
    [onSuccess] is called if it was given.  Submitting again at once inserts
    nothing: the second run stops at the guard with "Please fill in all
    required fields." and sends no request. *)
Theorem accepted_report_is_not_sent_twice :
  forall (srv : Supabase.Server) (userId : string) (onSuccess : bool)
         (clock clock' : string) (st : IncidentReportForm.State)
         (d : Supabase.Db),
    IncidentReportForm.missing_required st = false ->
    Supabase.refuses srv
      (Supabase.InsertIncident (IncidentReportForm.payload userId st)) d
    = None ->
    let o1 := IncidentReportForm.handleSubmit srv userId onSuccess clock st d
    in
    let o2 :=
      IncidentReportForm.handleSubmit srv userId onSuccess clock'
        (IncidentReportForm.state o1) (IncidentReportForm.db o1) in
    IncidentReportForm.state o1
    = IncidentReportForm.mkState "" "" Supabase.medium "" "" "" clock false ""
    /\ IncidentReportForm.onSuccess_called o1 = onSuccess
    /\ IncidentReportForm.db o2 = IncidentReportForm.db o1
    /\ IncidentReportForm.error (IncidentReportForm.state o2)
       = "Please fill in all required fields."
    /\ IncidentReportForm.onSuccess_called o2 = false.
Proof.
  intros srv userId onSuccess clock clock' st d Hm Hacc o1 o2.
  subst o2 o1.
  rewrite (handleSubmit_accepted srv userId onSuccess clock st d Hm Hacc).
  cbn [IncidentReportForm.state IncidentReportForm.db
       IncidentReportForm.onSuccess_called].
  rewrite handleSubmit_rejected by reflexivity.
  repeat split.
Qed.

Lemma accepted_report_is_not_sent_twice_witness :
  let st := Fixtures.report "-26.2041" "28.0473" "2026-11-01T09:30" in
  let o1 :=
    IncidentReportForm.handleSubmit Fixtures.accepting "user-1" true
      "2026-11-02T10:00" st Fixtures.empty_db in
  List.length (Supabase.incidents (IncidentReportForm.db o1)) = 1%nat
  /\ IncidentReportForm.db
       (IncidentReportForm.handleSubmit Fixtures.accepting "user-1" true
          "2026-11-02T10:01" (IncidentReportForm.state o1)
          (IncidentReportForm.db o1))
     = IncidentReportForm.db o1.
Proof.
  intros st o1. split; [reflexivity |].
  exact (proj1 (proj2 (proj2
           (accepted_report_is_not_sent_twice Fixtures.accepting "user-1"
              true "2026-11-02T10:00" "2026-11-02T10:01" st
              Fixtures.empty_db eq_refl eq_refl)))).
Defined.

(** X19.  Whatever the browser lets through passes the guard of
    [handleSubmit] too, so behind the submit button the guard never fires:
    a click sends exactly one request, the insert of the form's payload,
    when the button is enabled and the form is valid, and no request
    otherwise. *)
Theorem submit_click_sends_one_insert_or_nothing :
  forall (srv : Supabase.Server) (userId : string) (onSuccess : bool)
         (max clock : string) (st : IncidentReportForm.State)
         (d : Supabase.Db),
    (IncidentReportForm.checkValidity max st = true ->
     IncidentReportForm.missing_required st = false)
    /\ Supabase.received
         (IncidentReportForm.db
            (IncidentReportForm.submit_click srv userId onSuccess max clock
               st d))
       = Supabase.received d
         ++ (if negb (IncidentReportForm.loading st)
                && IncidentReportForm.checkValidity max st
             then [Supabase.InsertIncident
                     (IncidentReportForm.payload userId st)]
             else []).
Proof.
  intros srv userId onSuccess max clock st d.
  split; [apply checkValidity_fields |].
  unfold IncidentReportForm.submit_click.
  destruct (IncidentReportForm.loading st); simpl;
    [now rewrite app_nil_r |].
  destruct (IncidentReportForm.checkValidity max st) eqn:Hv; simpl;
    [| now rewrite app_nil_r].
  rewrite handleSubmit_sends by (now apply (checkValidity_fields max)).
  apply send_received.
Qed.

Lemma submit_click_sends_one_insert_or_nothing_witness :
  let st := Fixtures.report "-26.2041" "28.0473" "2026-11-01T09:30" in
  IncidentReportForm.checkValidity "2026-11-02T10:00" st = true
  /\ IncidentReportForm.missing_required st = false.
Proof.
  intros st. split; [reflexivity |].
  apply (proj1 (submit_click_sends_one_insert_or_nothing Fixtures.accepting
                  "user-1" true "2026-11-02T10:00" "2026-11-02T10:00" st
                  Fixtures.empty_db)).
  reflexivity.
Defined.

(** ** NeighbourhoodWatch: groups and memberships *)

Section WatchFacts.
Import Supabase.
Variable srv : Server.
Variable userId : string.

Lemma maybeSingle_Some {A : Type} (l : list A) (x : A) :
  NeighbourhoodWatch.maybeSingle l = Some x <-> l = [x].
Proof.
  destruct l as [| a [| b l]]; simpl; split; intros H;
    try discriminate; congruence.
Qed.

Lemma member_matches_group (g u : string) (m : GroupMember.t) :
  member_matches g u m = true ->
  String.eqb (GroupMember.group_id m) g = true.
Proof.
  unfold member_matches. intros H. now apply andb_prop in H.
Qed.

(** The derived fields of one group. *)
Lemma with_details_fields (d : Db) (g : NeighbourhoodWatchGroup.t) :
  let r := NeighbourhoodWatch.with_details srv userId d g in
  let count_failed :=
    select_fails srv
      (NeighbourhoodWatch.count_request (NeighbourhoodWatchGroup.id g)) d in
  NeighbourhoodWatch.group r = g
  /\ (NeighbourhoodWatch.is_member r = true
      <-> NeighbourhoodWatch.user_role r <> None)
  /\ (NeighbourhoodWatch.is_member r = true -> count_failed = None ->
      (1 <= NeighbourhoodWatch.member_count r)%nat)
  /\ (count_failed <> None -> NeighbourhoodWatch.member_count r = O).
Proof.
  unfold NeighbourhoodWatch.with_details.
  cbn [NeighbourhoodWatch.group NeighbourhoodWatch.is_member
         NeighbourhoodWatch.user_role NeighbourhoodWatch.member_count].
  set (gid := NeighbourhoodWatchGroup.id g).
  split; [reflexivity |].
  split; [| split].
  - destruct (match select_fails srv
                      (NeighbourhoodWatch.role_request userId gid) d with
              | Some _ => None
              | None => _
              end) as [m |]; simpl; split;
      try discriminate; try reflexivity; intros H; now elim H.
  - destruct (select_fails srv (NeighbourhoodWatch.role_request userId gid) d)
      as [e |]; [discriminate |].
    destruct (NeighbourhoodWatch.maybeSingle
                (List.filter (member_matches gid userId) (group_members d)))
      as [m |] eqn:E; [| discriminate].
    intros _ ->. apply maybeSingle_Some in E.
    assert (Hin : In m (List.filter (member_matches gid userId)
                          (group_members d)))
      by (rewrite E; now left).
    apply filter_In in Hin. destruct Hin as [Hin Hm].
    apply member_matches_group in Hm.
    assert (Hin' : In m (List.filter
                           (fun m0 => String.eqb (GroupMember.group_id m0)
                                        gid)
                           (group_members d)))
      by (apply filter_In; split; assumption).
    destruct (List.filter
                (fun m0 => String.eqb (GroupMember.group_id m0) gid)
                (group_members d));
      [destruct Hin' | simpl; lia].
  - destruct (select_fails srv (NeighbourhoodWatch.count_request gid) d);
      [reflexivity | intros H; now elim H].
Qed.

Lemma send_delete_members (g : string) (d : Db) :
  refuses srv (DeleteGroupMember g userId) d = None ->
  group_members (fst (send srv (DeleteGroupMember g userId) d))
  = List.filter (fun m => negb (member_matches g userId m)) (group_members d).
Proof.
  intros H. now rewrite (send_accepted srv _ _ H).
Qed.

Lemma filter_matches_nil (g : string) (l : list GroupMember.t) :
  List.filter (member_matches g userId)
    (List.filter (fun m => negb (member_matches g userId m)) l) = [].
Proof.
  apply filter_none. intros m Hm. apply filter_In in Hm.
  destruct Hm as [_ Hm]. now apply negb_true_iff in Hm.
Qed.

End WatchFacts.

(** X20.  After a [fetchGroups] whose select succeeds the view is no longer
    loading and shows the groups of the table, each once.  For every group
    shown, [user_role] is set exactly when [is_member] holds; a group of
    which the user is a member counts at least one member when the read of
    its count succeeded, and a group whose count could not be read is shown
    with 0 members, member or not.  When the select fails, the groups shown
    are left as they were. *)
Theorem fetchGroups_derives_consistent_fields :
  forall (srv : Supabase.Server) (userId : string)
         (st : NeighbourhoodWatch.State) (d : Supabase.Db),
    let st' := NeighbourhoodWatch.fetchGroups srv userId st d in
    let count_failed g :=
      Supabase.select_fails srv
        (NeighbourhoodWatch.count_request
           (Supabase.NeighbourhoodWatchGroup.id (NeighbourhoodWatch.group g)))
        d in
    NeighbourhoodWatch.loading st' = false
    /\ (Supabase.select_fails srv "neighbourhood_watch_groups" d = None ->
        Permutation
          (map NeighbourhoodWatch.group (NeighbourhoodWatch.groups st'))
          (Supabase.neighbourhood_watch_groups d)
        /\ forall g,
             In g (NeighbourhoodWatch.groups st') ->
             (NeighbourhoodWatch.is_member g = true
              <-> NeighbourhoodWatch.user_role g <> None)
             /\ (NeighbourhoodWatch.is_member g = true ->
                 count_failed g = None ->
                 (1 <= NeighbourhoodWatch.member_count g)%nat)
             /\ (count_failed g <> None ->
                 NeighbourhoodWatch.member_count g = 0%nat))
    /\ (Supabase.select_fails srv "neighbourhood_watch_groups" d <> None ->
        NeighbourhoodWatch.groups st' = NeighbourhoodWatch.groups st).
Proof.
  intros srv userId st d st' count_failed. subst st' count_failed.
  unfold NeighbourhoodWatch.fetchGroups.
  destruct (Supabase.select_fails srv "neighbourhood_watch_groups" d)
    as [e |]; simpl.
  - split; [reflexivity | split; [discriminate | reflexivity]].
  - split; [reflexivity | split; [| intros H; now elim H]].
    intros _. split.
    + rewrite map_map.
      rewrite (map_ext _ (fun g => g)), map_id; [apply order_desc_perm |].
      intros g. apply (with_details_fields srv userId d g).
    + intros g Hg. apply in_map_iff in Hg. destruct Hg as (g0 & <- & _).
      destruct (with_details_fields srv userId d g0) as (Hid & Hrole & Hcount).
      rewrite Hid. split; [exact Hrole | exact Hcount].
Qed.

(** A member whose count could not be read: the group is shown as joined,
    with 0 members. *)
Lemma fetchGroups_derives_consistent_fields_witness :
  let d :=
    snd (NeighbourhoodWatch.handleCreateGroup Fixtures.accepting "user-1"
           Fixtures.watch_form Fixtures.empty_db) in
  let st' :=
    NeighbourhoodWatch.fetchGroups Fixtures.no_counts "user-1"
      Fixtures.watch_form d in
  Supabase.select_fails Fixtures.no_counts "neighbourhood_watch_groups" d
  = None
  /\ Permutation
       (map NeighbourhoodWatch.group (NeighbourhoodWatch.groups st'))
       (Supabase.neighbourhood_watch_groups d)
  /\ map NeighbourhoodWatch.is_member (NeighbourhoodWatch.groups st')
     = [true]
  /\ forall g, In g (NeighbourhoodWatch.groups st') ->
               NeighbourhoodWatch.member_count g = 0%nat.
Proof.
  intros d st'. split; [reflexivity |].
  pose proof (proj1 (proj2
           (fetchGroups_derives_consistent_fields Fixtures.no_counts "user-1"
              Fixtures.watch_form d)) eq_refl) as [Hperm Hall].
  split; [exact Hperm |]. split; [reflexivity |].
  intros g Hg. apply (proj2 (proj2 (Hall g Hg))).
  destruct Hg as [<- | []]. discriminate.
Defined.

Section CreateFacts.
Import Supabase.
Variable srv : Server.
Variable userId : string.

Lemma handleCreateGroup_both_accepted (st : NeighbourhoodWatch.State)
      (d : Db) :
  let g := NeighbourhoodWatch.group_payload userId
             (NeighbourhoodWatch.formData st) in
  let admin :=
    GroupMember.mk (NeighbourhoodWatchGroup.id (new_group_row srv g d))
      userId "admin" in
  let d1 := log_request (InsertGroup g) (apply_request srv (InsertGroup g) d)
  in
  let d2 :=
    log_request (InsertGroupMember admin)
      (apply_request srv (InsertGroupMember admin) d1) in
  refuses srv (InsertGroup g) d = None ->
  refuses srv (InsertGroupMember admin) d1 = None ->
  NeighbourhoodWatch.handleCreateGroup srv userId st d
  = (NeighbourhoodWatch.fetchGroups srv userId
       (NeighbourhoodWatch.mkState (NeighbourhoodWatch.groups st)
          (NeighbourhoodWatch.loading st) false
          NeighbourhoodWatch.empty_form) d2,
     d2).
Proof.
  intros g admin d1 d2 H1 H2. unfold NeighbourhoodWatch.handleCreateGroup.
  fold g. rewrite (send_accepted srv _ _ H1). fold d1. fold admin.
  rewrite (send_accepted srv _ _ H2). reflexivity.
Qed.

Lemma handleCreateGroup_member_refused (st : NeighbourhoodWatch.State)
      (d : Db) (e : PostgrestError) :
  let g := NeighbourhoodWatch.group_payload userId
             (NeighbourhoodWatch.formData st) in
  let admin :=
    GroupMember.mk (NeighbourhoodWatchGroup.id (new_group_row srv g d))
      userId "admin" in
  let d1 := log_request (InsertGroup g) (apply_request srv (InsertGroup g) d)
  in
  refuses srv (InsertGroup g) d = None ->
  refuses srv (InsertGroupMember admin) d1 = Some e ->
  NeighbourhoodWatch.handleCreateGroup srv userId st d
  = (st, log_request (InsertGroupMember admin) d1).
Proof.
  intros g admin d1 H1 H2. unfold NeighbourhoodWatch.handleCreateGroup.
  fold g. rewrite (send_accepted srv _ _ H1). fold d1. fold admin.
  unfold send. rewrite H2. reflexivity.
Qed.

Lemma handleCreateGroup_group_refused (st : NeighbourhoodWatch.State)
      (d : Db) (e : PostgrestError) :
  let g := NeighbourhoodWatch.group_payload userId
             (NeighbourhoodWatch.formData st) in
  refuses srv (InsertGroup g) d = Some e ->
  NeighbourhoodWatch.handleCreateGroup srv userId st d
  = (st, log_request (InsertGroup g) d).
Proof.
  intros g H1. unfold NeighbourhoodWatch.handleCreateGroup.
  fold g. unfold send. rewrite H1. reflexivity.
Qed.

End CreateFacts.

(** X21.  When both inserts of [handleCreateGroup] are accepted, the reads
    that follow succeed (the select of the groups and, for the new group,
    the count of its members and the row of the user) and no membership row
    already carries the id given to the new group, the refreshed view shows
    the new group with the user as a member, with role "admin" and a member
    count of 1; the create form is hidden and emptied. *)
Theorem created_group_is_shown_with_admin :
  forall (srv : Supabase.Server) (userId : string)
         (st : NeighbourhoodWatch.State) (d : Supabase.Db),
    let g :=
      NeighbourhoodWatch.group_payload userId
        (NeighbourhoodWatch.formData st) in
    let newGroup := Supabase.new_group_row srv g d in
    let admin :=
      Supabase.GroupMember.mk (Supabase.NeighbourhoodWatchGroup.id newGroup)
        userId "admin" in
    let d1 := fst (Supabase.send srv (Supabase.InsertGroup g) d) in
    let st' := fst (NeighbourhoodWatch.handleCreateGroup srv userId st d) in
    let d' := snd (NeighbourhoodWatch.handleCreateGroup srv userId st d) in
    Supabase.refuses srv (Supabase.InsertGroup g) d = None ->
    Supabase.refuses srv (Supabase.InsertGroupMember admin) d1 = None ->
    Supabase.select_fails srv "neighbourhood_watch_groups" d' = None ->
    Supabase.select_fails srv
      (NeighbourhoodWatch.count_request
         (Supabase.NeighbourhoodWatchGroup.id newGroup)) d' = None ->
    Supabase.select_fails srv
      (NeighbourhoodWatch.role_request userId
         (Supabase.NeighbourhoodWatchGroup.id newGroup)) d' = None ->
    (forall m, In m (Supabase.group_members d) ->
               Supabase.GroupMember.group_id m
               <> Supabase.NeighbourhoodWatchGroup.id newGroup) ->
    NeighbourhoodWatch.showCreateForm st' = false
    /\ NeighbourhoodWatch.formData st' = NeighbourhoodWatch.empty_form
    /\ In (NeighbourhoodWatch.mkGroupWithMembers newGroup 1 true
             (Some "admin"))
          (NeighbourhoodWatch.groups st').
Proof.
  intros srv userId st d g newGroup admin d1 st' d' H1 H2.
  subst st' d' d1. rewrite (send_accepted srv _ _ H1) in H2. simpl in H2.
  rewrite (handleCreateGroup_both_accepted srv userId st d H1 H2).
  cbn [fst snd]. fold g. fold newGroup. fold admin.
  set (d2 := Supabase.log_request (Supabase.InsertGroupMember admin) _).
  intros S1 S2 S3 Hfresh.
  unfold NeighbourhoodWatch.fetchGroups. rewrite S1. simpl.
  split; [reflexivity | split; [reflexivity |]].
  apply in_map_iff. exists newGroup. split.
  - unfold NeighbourhoodWatch.with_details. rewrite S2, S3.
    assert (Hrows : Supabase.group_members d2
                    = Supabase.group_members d ++ [admin]) by reflexivity.
    rewrite Hrows, !filter_app.
    rewrite (filter_none _ (Supabase.group_members d)).
    + rewrite (filter_none _ (Supabase.group_members d)).
      * simpl. unfold Supabase.member_matches. simpl.
        rewrite !String.eqb_refl. reflexivity.
      * intros m Hm. unfold Supabase.member_matches.
        destruct (String.eqb_spec (Supabase.GroupMember.group_id m)
                    (Supabase.NeighbourhoodWatchGroup.id newGroup))
          as [E | _]; [now elim (Hfresh m Hm) | reflexivity].
    + intros m Hm.
      destruct (String.eqb_spec (Supabase.GroupMember.group_id m)
                  (Supabase.NeighbourhoodWatchGroup.id newGroup))
        as [E | _]; [now elim (Hfresh m Hm) | reflexivity].
  - apply In_order_desc. subst d2. simpl. apply in_or_app. right. now left.
Qed.

Lemma created_group_is_shown_with_admin_witness :
  exists g,
    In g
      (NeighbourhoodWatch.groups
         (fst (NeighbourhoodWatch.handleCreateGroup Fixtures.accepting
                 "user-1" Fixtures.watch_form Fixtures.empty_db)))
    /\ NeighbourhoodWatch.user_role g = Some "admin"
    /\ NeighbourhoodWatch.member_count g = 1%nat.
Proof.
  eexists. split.
  - apply (created_group_is_shown_with_admin Fixtures.accepting "user-1"
             Fixtures.watch_form Fixtures.empty_db);
      try reflexivity.
    intros m [].
  - split; reflexivity.
Defined.

(** X22.  [handleCreateGroup] is not atomic.  If the backend accepts the
    group and refuses the membership row, the group stays in the table
    while [group_members] is unchanged, so that (when no earlier row carries
    its id) the new group has no member at all; the view and the form are
    left exactly as they were.  If the group itself is refused, only that
    one request was sent and no table has changed. *)
Theorem refused_admin_row_leaves_memberless_group :
  forall (srv : Supabase.Server) (userId : string)
         (st : NeighbourhoodWatch.State) (d : Supabase.Db),
    let g :=
      NeighbourhoodWatch.group_payload userId
        (NeighbourhoodWatch.formData st) in
    let newGroup := Supabase.new_group_row srv g d in
    let admin :=
      Supabase.GroupMember.mk (Supabase.NeighbourhoodWatchGroup.id newGroup)
        userId "admin" in
    let d1 := fst (Supabase.send srv (Supabase.InsertGroup g) d) in
    let st' := fst (NeighbourhoodWatch.handleCreateGroup srv userId st d) in
    let d' := snd (NeighbourhoodWatch.handleCreateGroup srv userId st d) in
    (Supabase.refuses srv (Supabase.InsertGroup g) d = None ->
     Supabase.refuses srv (Supabase.InsertGroupMember admin) d1 <> None ->
     st' = st
     /\ Supabase.neighbourhood_watch_groups d'
        = Supabase.neighbourhood_watch_groups d ++ [newGroup]
     /\ Supabase.group_members d' = Supabase.group_members d
     /\ ((forall m, In m (Supabase.group_members d) ->
                    Supabase.GroupMember.group_id m
                    <> Supabase.NeighbourhoodWatchGroup.id newGroup) ->
         forall m, In m (Supabase.group_members d') ->
                   Supabase.GroupMember.group_id m
                   <> Supabase.NeighbourhoodWatchGroup.id newGroup))
    /\ (Supabase.refuses srv (Supabase.InsertGroup g) d <> None ->
        st' = st
        /\ Supabase.received d'
           = Supabase.received d ++ [Supabase.InsertGroup g]
        /\ Supabase.neighbourhood_watch_groups d'
           = Supabase.neighbourhood_watch_groups d
        /\ Supabase.group_members d' = Supabase.group_members d).
Proof.
  intros srv userId st d g newGroup admin d1 st' d'. subst st' d' d1. split.
  - intros H1 H2. rewrite (send_accepted srv _ _ H1) in H2. simpl in H2.
    destruct (Supabase.refuses srv (Supabase.InsertGroupMember admin) _)
      as [e |] eqn:E; [| now elim H2].
    rewrite (handleCreateGroup_member_refused srv userId st d e H1 E).
    simpl. repeat split. auto.
  - intros H1.
    destruct (Supabase.refuses srv (Supabase.InsertGroup g) d) as [e |] eqn:E;
      [| now elim H1].
    rewrite (handleCreateGroup_group_refused srv userId st d e E).
    repeat split.
Qed.

Lemma refused_admin_row_leaves_memberless_group_witness :
  let srv :=
    Supabase.mkServer
      (fun q _ =>
         match q with
         | Supabase.InsertGroupMember _ =>
             Some (Supabase.mkError "new row violates row-level security")
         | _ => None
         end)
      (fun _ _ => None) (fun _ => "row-1") (fun _ => "2026-11-02T10:00")
      String.leb in
  let d' :=
    snd (NeighbourhoodWatch.handleCreateGroup srv "user-1"
           Fixtures.watch_form Fixtures.empty_db) in
  List.length (Supabase.neighbourhood_watch_groups d') = 1%nat
  /\ Supabase.group_members d' = [].
Proof.
  intros srv d'. split; [reflexivity |].
  destruct (proj1 (refused_admin_row_leaves_memberless_group srv "user-1"
                     Fixtures.watch_form Fixtures.empty_db))
    as (_ & _ & Hm & _); [reflexivity | discriminate | exact Hm].
Defined.

(** X23.  An accepted [handleLeaveGroup] removes the membership rows of the
    user in that group and no other row: a row is in [group_members]
    afterwards exactly when it was there before and is not a row of this
    user in this group.  In the refreshed view (the select of the groups
    succeeding, whatever becomes of the reads made for each group) every
    group with that id is shown with the user not a member and without a
    role. *)
Theorem leaving_removes_only_own_membership :
  forall (srv : Supabase.Server) (userId groupId : string)
         (st : NeighbourhoodWatch.State) (d : Supabase.Db),
    let st' :=
      fst (NeighbourhoodWatch.handleLeaveGroup srv userId groupId st d) in
    let d' :=
      snd (NeighbourhoodWatch.handleLeaveGroup srv userId groupId st d) in
    Supabase.refuses srv (Supabase.DeleteGroupMember groupId userId) d
    = None ->
    (forall m,
        In m (Supabase.group_members d')
        <-> In m (Supabase.group_members d)
            /\ ~ (Supabase.GroupMember.group_id m = groupId
                  /\ Supabase.GroupMember.user_id m = userId))
    /\ (Supabase.select_fails srv "neighbourhood_watch_groups" d' = None ->
        forall g,
          In g (NeighbourhoodWatch.groups st') ->
          Supabase.NeighbourhoodWatchGroup.id (NeighbourhoodWatch.group g)
          = groupId ->
          NeighbourhoodWatch.is_member g = false
          /\ NeighbourhoodWatch.user_role g = None).
Proof.
  intros srv userId groupId st d st' d' Hacc. subst st' d'.
  unfold NeighbourhoodWatch.handleLeaveGroup.
  rewrite (send_accepted srv _ _ Hacc). cbn [fst snd].
  set (d' := Supabase.log_request _ _).
  assert (Hrows : Supabase.group_members d'
                  = List.filter
                      (fun m =>
                         negb (Supabase.member_matches groupId userId m))
                      (Supabase.group_members d)) by reflexivity.
  split.
  - intros m. rewrite Hrows, filter_In, negb_true_iff.
    unfold Supabase.member_matches.
    rewrite andb_false_iff, !String.eqb_neq. tauto.
  - intros Hsel g Hg Hid.
    unfold NeighbourhoodWatch.fetchGroups in Hg. rewrite Hsel in Hg.
    simpl in Hg. apply in_map_iff in Hg. destruct Hg as (g0 & <- & _).
    rewrite (proj1 (with_details_fields srv userId d' g0)) in Hid.
    unfold NeighbourhoodWatch.with_details.
    cbn [NeighbourhoodWatch.is_member NeighbourhoodWatch.user_role].
    rewrite Hid.
    destruct (Supabase.select_fails srv
                (NeighbourhoodWatch.role_request userId groupId) d');
      [split; reflexivity |].
    rewrite Hrows, filter_matches_nil. split; reflexivity.
Qed.

Lemma leaving_removes_only_own_membership_witness :
  let d :=
    Supabase.mkDb [] [] [] []
      [Supabase.GroupMember.mk "g-1" "user-1" "member";
       Supabase.GroupMember.mk "g-1" "user-2" "admin";
       Supabase.GroupMember.mk "g-2" "user-1" "member"] [] in
  Supabase.group_members
    (snd (NeighbourhoodWatch.handleLeaveGroup Fixtures.accepting "user-1"
            "g-1" Fixtures.watch_form d))
  = [Supabase.GroupMember.mk "g-1" "user-2" "admin";
     Supabase.GroupMember.mk "g-2" "user-1" "member"]
  /\ In (Supabase.GroupMember.mk "g-1" "user-2" "admin")
        (Supabase.group_members
           (snd (NeighbourhoodWatch.handleLeaveGroup Fixtures.accepting
                   "user-1" "g-1" Fixtures.watch_form d))).
Proof.
  intros d. split; [reflexivity |].
  apply (proj1 (leaving_removes_only_own_membership Fixtures.accepting
                  "user-1" "g-1" Fixtures.watch_form d eq_refl)).
  split; [simpl; auto |].
  intros [_ H]. discriminate H.
Defined.

(** X24.  Joining a group and leaving it again restores the membership
    table: if the user had no row in the group and both requests are
    accepted, [group_members] after the leave is what it was before the
    join. *)
Theorem join_then_leave_restores_members :
  forall (srv : Supabase.Server) (userId groupId : string)
         (st : NeighbourhoodWatch.State) (d : Supabase.Db),
    let joined := NeighbourhoodWatch.handleJoinGroup srv userId groupId st d
    in
    let left :=
      NeighbourhoodWatch.handleLeaveGroup srv userId groupId (fst joined)
        (snd joined) in
    (forall m, In m (Supabase.group_members d) ->
               Supabase.member_matches groupId userId m = false) ->
    Supabase.refuses srv
      (Supabase.InsertGroupMember
         (Supabase.GroupMember.mk groupId userId "member")) d = None ->
    Supabase.refuses srv (Supabase.DeleteGroupMember groupId userId)
      (snd joined) = None ->
    Supabase.group_members (snd joined)
    = Supabase.group_members d
      ++ [Supabase.GroupMember.mk groupId userId "member"]
    /\ Supabase.group_members (snd left) = Supabase.group_members d.
Proof.
  intros srv userId groupId st d joined left Hnone Hj Hl.
  assert (Ej : snd joined
               = Supabase.log_request
                   (Supabase.InsertGroupMember
                      (Supabase.GroupMember.mk groupId userId "member"))
                   (Supabase.apply_request srv
                      (Supabase.InsertGroupMember
                         (Supabase.GroupMember.mk groupId userId "member"))
                      d)).
  { subst joined. unfold NeighbourhoodWatch.handleJoinGroup.
    now rewrite (send_accepted srv _ _ Hj). }
  split; [now rewrite Ej |].
  subst left. unfold NeighbourhoodWatch.handleLeaveGroup.
  rewrite (send_accepted srv _ _ Hl). cbn [fst snd]. rewrite Ej. simpl.
  rewrite filter_app. simpl.
  unfold Supabase.member_matches at 2. simpl. rewrite !String.eqb_refl.
  simpl. rewrite app_nil_r. apply filter_all.
  intros m Hm. now rewrite (Hnone m Hm).
Qed.

Lemma join_then_leave_restores_members_witness :
  let d :=
    Supabase.mkDb [] [] [] []
      [Supabase.GroupMember.mk "g-1" "user-2" "admin"] [] in
  let joined :=
    NeighbourhoodWatch.handleJoinGroup Fixtures.accepting "user-1" "g-1"
      Fixtures.watch_form d in
  Supabase.group_members
    (snd (NeighbourhoodWatch.handleLeaveGroup Fixtures.accepting "user-1"
            "g-1" (fst joined) (snd joined)))
  = Supabase.group_members d.
Proof.
  intros d joined.
  refine (proj2 (join_then_leave_restores_members Fixtures.accepting
                   "user-1" "g-1" Fixtures.watch_form d _ eq_refl eq_refl)).
  intros m [<- | []]. reflexivity.
Defined.

(** X25.  After an accepted [handleJoinGroup] and a refresh whose reads
    succeed (the select of the groups and, for that group, the count of its
    members and the row of the user), a group with that id is shown
    according to the rows the user then has in it.  If the user had none before, the group is shown with
    the user as a member with role "member" and one member more than the
    table counted.  If the user already had a row, the second row makes the
    membership query ambiguous, and the group is shown as not joined and
    without a role. *)
Theorem joined_group_is_shown_by_row_count :
  forall (srv : Supabase.Server) (userId groupId : string)
         (st : NeighbourhoodWatch.State) (d : Supabase.Db),
    let st' :=
      fst (NeighbourhoodWatch.handleJoinGroup srv userId groupId st d) in
    let d' :=
      snd (NeighbourhoodWatch.handleJoinGroup srv userId groupId st d) in
    Supabase.refuses srv
      (Supabase.InsertGroupMember
         (Supabase.GroupMember.mk groupId userId "member")) d = None ->
    Supabase.select_fails srv "neighbourhood_watch_groups" d' = None ->
    Supabase.select_fails srv (NeighbourhoodWatch.count_request groupId) d'
    = None ->
    Supabase.select_fails srv
      (NeighbourhoodWatch.role_request userId groupId) d' = None ->
    forall g,
      In g (NeighbourhoodWatch.groups st') ->
      Supabase.NeighbourhoodWatchGroup.id (NeighbourhoodWatch.group g)
      = groupId ->
      ((forall m, In m (Supabase.group_members d) ->
                  Supabase.member_matches groupId userId m = false) ->
       NeighbourhoodWatch.is_member g = true
       /\ NeighbourhoodWatch.user_role g = Some "member"
       /\ NeighbourhoodWatch.member_count g
          = S (List.length
                 (List.filter
                    (fun m =>
                       String.eqb (Supabase.GroupMember.group_id m) groupId)
                    (Supabase.group_members d))))
      /\ ((exists m, In m (Supabase.group_members d)
                     /\ Supabase.member_matches groupId userId m = true) ->
          NeighbourhoodWatch.is_member g = false
          /\ NeighbourhoodWatch.user_role g = None).
Proof.
  intros srv userId groupId st d st' d' Hacc. subst st' d'.
  unfold NeighbourhoodWatch.handleJoinGroup.
  rewrite (send_accepted srv _ _ Hacc). cbn [fst snd].
  set (row := Supabase.GroupMember.mk groupId userId "member").
  set (d' := Supabase.log_request _ _).
  assert (Hrows : Supabase.group_members d'
                  = Supabase.group_members d ++ [row]) by reflexivity.
  intros S1 S2 S3 g Hg Hid.
  unfold NeighbourhoodWatch.fetchGroups in Hg. rewrite S1 in Hg.
  simpl in Hg. apply in_map_iff in Hg. destruct Hg as (g0 & <- & _).
  rewrite (proj1 (with_details_fields srv userId d' g0)) in Hid.
  unfold NeighbourhoodWatch.with_details.
  cbn [NeighbourhoodWatch.is_member NeighbourhoodWatch.user_role
       NeighbourhoodWatch.member_count].
  rewrite Hid, S2, S3, Hrows, !filter_app.
  assert (Hrow : List.filter (Supabase.member_matches groupId userId) [row]
                 = [row]).
  { simpl. unfold Supabase.member_matches. simpl.
    now rewrite !String.eqb_refl. }
  assert (Hcount : List.filter
                     (fun m =>
                        String.eqb (Supabase.GroupMember.group_id m) groupId)
                     [row] = [row]).
  { simpl. now rewrite String.eqb_refl. }
  rewrite Hrow, Hcount. split.
  - intros Hnone. rewrite (filter_none _ _ Hnone). simpl.
    split; [reflexivity | split; [reflexivity |]].
    rewrite length_app. simpl. lia.
  - intros (m & Hm & Hmatch).
    assert (Hin : In m (List.filter
                          (Supabase.member_matches groupId userId)
                          (Supabase.group_members d)))
      by (apply filter_In; split; assumption).
    destruct (List.filter (Supabase.member_matches groupId userId)
                (Supabase.group_members d)) as [| a [| b l]];
      [destruct Hin | split; reflexivity | split; reflexivity].
Qed.

Lemma joined_group_is_shown_by_row_count_witness :
  let g1 :=
    Supabase.NeighbourhoodWatchGroup.mk "g-1" "Oak Street Watch" None
      (JS.of_Z (-26)) (JS.of_Z 28) (JS.of_Z 1000) "user-2"
      "2026-11-01T10:00" "2026-11-01T10:00" in
  let d :=
    Supabase.mkDb [] [] [] [g1]
      [Supabase.GroupMember.mk "g-1" "user-1" "member"] [] in
  NeighbourhoodWatch.groups
    (fst (NeighbourhoodWatch.handleJoinGroup Fixtures.accepting "user-1"
            "g-1" Fixtures.watch_form d))
  = [NeighbourhoodWatch.mkGroupWithMembers g1 2 false None]
  /\ NeighbourhoodWatch.is_member
       (NeighbourhoodWatch.mkGroupWithMembers g1 2 false None) = false.
Proof.
  intros g1 d. split; [reflexivity |].
  refine (proj1 (proj2 (joined_group_is_shown_by_row_count Fixtures.accepting
                          "user-1" "g-1" Fixtures.watch_form d eq_refl
                          eq_refl eq_refl eq_refl
                          (NeighbourhoodWatch.mkGroupWithMembers g1 2 false
                             None) _ eq_refl) _)).
  - simpl. left. reflexivity.
  - eexists. split; [left; reflexivity | reflexivity].
Defined.

(** ** AuthPage: signing in and signing up *)

Section TrimFacts.

(** A white space character takes at least one byte. *)
Lemma skip_white_space_shorter (s r : string) :
  JS.skip_white_space s = Some r ->
  (String.length r < String.length s)%nat.
Proof.
  unfold JS.skip_white_space.
  destruct s as [| c1 [| c2 [| c3 r3]]]; [discriminate | | |];
    destruct (JS.is_white_space c1);
    try destruct (JS.is_white_space2 c1 c2);
    try destruct (JS.is_white_space3 c1 c2 c3);
    intros H; inversion H; subst; simpl; lia.
Qed.

(** With fuel for every byte, what is left does not start with white
    space. *)
Lemma drop_white_space_done (fuel : nat) :
  forall s : string,
    (String.length s <= fuel)%nat ->
    JS.skip_white_space (JS.drop_white_space fuel s) = None.
Proof.
  induction fuel as [| f IH]; intros s Hlen.
  - destruct s; [reflexivity | simpl in Hlen; lia].
  - cbn [JS.drop_white_space].
    destruct (JS.skip_white_space s) as [r |] eqn:E; [| exact E].
    apply IH. pose proof (skip_white_space_shorter s r E). lia.
Qed.

Lemma trimStart_done (s : string) :
  JS.skip_white_space (JS.trimStart s) = None.
Proof. apply drop_white_space_done. apply Nat.le_refl. Qed.

Lemma trimStart_idempotent (s : string) :
  JS.trimStart (JS.trimStart s) = JS.trimStart s.
Proof. apply trimStart_none, trimStart_done. Qed.

Lemma trim_blank (s : string) :
  JS.falsy (JS.trim s) = true <-> JS.blank s = true.
Proof.
  unfold JS.trim, JS.blank.
  pose proof (trimStart_idempotent s) as Hidem.
  destruct (JS.trimStart s) as [| c r] eqn:E.
  - split; reflexivity.
  - cbn [JS.trimEnd]. unfold JS.blank. rewrite Hidem.
    split; discriminate.
Qed.

End TrimFacts.

(** X26.  After every run of [handleSubmit] of the sign-in page the page is
    no longer loading, at most one call was made to lib/auth, and the error
    and the success message are never shown together.  The error is empty
    exactly when the call made resolved without error (the default texts
    stand in for an empty message), and the success message is shown exactly
    after a sign-up that resolved without error. *)
Theorem auth_submit_ends_with_one_message :
  forall (signIn : string -> string -> AuthPage.AuthResult)
         (signUp : string -> string -> string -> AuthPage.AuthResult)
         (st : AuthPage.State),
    let o := AuthPage.handleSubmit signIn signUp st in
    let st' := AuthPage.state o in
    let resolved_clean :=
      if AuthPage.isLogin st
      then signIn (AuthPage.email st) (AuthPage.password st)
           = AuthPage.Resolved None
      else JS.falsy (JS.trim (AuthPage.fullName st)) = false
           /\ signUp (AuthPage.email st) (AuthPage.password st)
                (AuthPage.fullName st)
              = AuthPage.Resolved None in
    AuthPage.loading st' = false
    /\ (List.length (AuthPage.calls o) <= 1)%nat
    /\ (AuthPage.error st' = "" \/ AuthPage.success st' = "")
    /\ (AuthPage.error st' = "" <-> resolved_clean)
    /\ (AuthPage.success st' <> ""
        <-> AuthPage.isLogin st = false /\ resolved_clean).
Proof.
  intros signIn signUp st o st' resolved_clean.
  subst st' o resolved_clean. unfold AuthPage.handleSubmit.
  destruct (AuthPage.isLogin st) eqn:Hmode.
  - destruct (signIn (AuthPage.email st) (AuthPage.password st))
      as [[e |] | err]; simpl;
      (split; [reflexivity | split; [lia | split; [auto | split]]]).
    + split; [| discriminate]. intros H.
      exfalso. revert H. apply or_else_not_empty. discriminate.
    + split; [intros H; now elim H | intros [H _]; discriminate H].
    + split; reflexivity.
    + split; [intros H; now elim H | intros [H _]; discriminate H].
    + split; [| discriminate]. intros H.
      exfalso. revert H. apply or_else_not_empty. discriminate.
    + split; [intros H; now elim H | intros [H _]; discriminate H].
  - destruct (JS.falsy (JS.trim (AuthPage.fullName st))) eqn:Hblank.
    + simpl. split; [reflexivity | split; [lia | split; [auto | split]]].
      * split; [discriminate | intros [H _]; discriminate H].
      * split; [intros H; now elim H | intros [_ [H _]]; discriminate H].
    + destruct (signUp (AuthPage.email st) (AuthPage.password st)
                  (AuthPage.fullName st)) as [[e |] | err]; simpl;
        (split; [reflexivity | split; [lia | split; [auto | split]]]).
      * split; [| intros [_ H]; discriminate H]. intros H.
        exfalso. revert H. apply or_else_not_empty. discriminate.
      * split; [intros H; now elim H | intros [_ [_ H]]; discriminate H].
      * split; auto.
      * split; [intros _; auto | discriminate].
      * split; [| intros [_ H]; discriminate H]. intros H.
        exfalso. revert H. apply or_else_not_empty. discriminate.
      * split; [intros H; now elim H | intros [_ [_ H]]; discriminate H].
Qed.

(** X27.  In sign-up mode [handleSubmit] calls lib/auth unless the full name
    is blank, that is empty or made of white space only: then no call is
    made and the page shows "Please enter your full name"; otherwise exactly
    one call is made, [signUp] with the e-mail, the password and the full
    name as typed.  In sign-in mode the one call is [signIn] with the e-mail
    and the password, whatever the name. *)
Theorem auth_submit_calls :
  forall (signIn : string -> string -> AuthPage.AuthResult)
         (signUp : string -> string -> string -> AuthPage.AuthResult)
         (st : AuthPage.State),
    let o := AuthPage.handleSubmit signIn signUp st in
    (AuthPage.isLogin st = true ->
     AuthPage.calls o
     = [AuthPage.SignIn (AuthPage.email st) (AuthPage.password st)])
    /\ (AuthPage.isLogin st = false ->
        (AuthPage.calls o = [] <-> JS.blank (AuthPage.fullName st) = true)
        /\ (JS.blank (AuthPage.fullName st) = true ->
            AuthPage.error (AuthPage.state o) = "Please enter your full name")
        /\ (JS.blank (AuthPage.fullName st) = false ->
            AuthPage.calls o
            = [AuthPage.SignUp (AuthPage.email st) (AuthPage.password st)
                 (AuthPage.fullName st)])).
Proof.
  intros signIn signUp st o. subst o. unfold AuthPage.handleSubmit. split.
  - intros ->.
    destruct (signIn (AuthPage.email st) (AuthPage.password st))
      as [[e |] | err]; reflexivity.
  - intros ->. pose proof (trim_blank (AuthPage.fullName st)) as Hb.
    destruct (JS.falsy (JS.trim (AuthPage.fullName st))) eqn:Hf.
    + assert (Hblank : JS.blank (AuthPage.fullName st) = true)
        by (now apply Hb).
      simpl. rewrite Hblank. repeat split; auto; discriminate.
    + assert (Hblank : JS.blank (AuthPage.fullName st) = false).
      { destruct (JS.blank (AuthPage.fullName st)); [| reflexivity].
        symmetry. now apply Hb. }
      rewrite Hblank.
      destruct (signUp (AuthPage.email st) (AuthPage.password st)
                  (AuthPage.fullName st)) as [[e |] | err]; simpl;
        repeat split; auto; discriminate.
Qed.

(** A name made of a space and a no-break space (bytes 194, 160) is
    blank. *)
Lemma auth_submit_calls_witness :
  let signUp := fun _ _ _ : string => AuthPage.Resolved None in
  let signIn := fun _ _ : string => AuthPage.Resolved None in
  let st :=
    AuthPage.mkState false "thandi@example.com" "secret1"
      (String " " (String (ascii_of_N 194) (String (ascii_of_N 160) "")))
      false "" ""
  in
  JS.blank (AuthPage.fullName st) = true
  /\ AuthPage.calls (AuthPage.handleSubmit signIn signUp st) = []
  /\ AuthPage.error
       (AuthPage.state (AuthPage.handleSubmit signIn signUp st))
     = "Please enter your full name".
Proof.
  intros signUp signIn st. split; [reflexivity |].
  split; [reflexivity |].
  exact (proj1 (proj2 (proj2 (auth_submit_calls signIn signUp st) eq_refl))
           eq_refl).
Defined.

(** X28.  [handleSubmit] of the sign-in page changes what the user typed
    exactly after a sign-up that resolved without error, that is in sign-up
    mode, with a full name that is not blank, when [signUp] resolves with no
    error: then the success message is shown and the page is in sign-in
    mode with the e-mail, the password and the full name emptied.  In every
    other case (a sign-in, a blank name, an error, a thrown exception) no
    success message is shown and the mode, the e-mail, the password and the
    full name are as they were. *)
Theorem auth_submit_keeps_fields_unless_signed_up :
  forall (signIn : string -> string -> AuthPage.AuthResult)
         (signUp : string -> string -> string -> AuthPage.AuthResult)
         (st : AuthPage.State),
    let st' := AuthPage.state (AuthPage.handleSubmit signIn signUp st) in
    let signed_up :=
      AuthPage.isLogin st = false
      /\ JS.blank (AuthPage.fullName st) = false
      /\ signUp (AuthPage.email st) (AuthPage.password st)
           (AuthPage.fullName st)
         = AuthPage.Resolved None in
    (signed_up ->
     AuthPage.success st'
     = "Account created successfully! You can now sign in."
     /\ AuthPage.isLogin st' = true
     /\ AuthPage.email st' = "" /\ AuthPage.password st' = ""
     /\ AuthPage.fullName st' = "")
    /\ (~ signed_up ->
        AuthPage.success st' = ""
        /\ AuthPage.isLogin st' = AuthPage.isLogin st
        /\ AuthPage.email st' = AuthPage.email st
        /\ AuthPage.password st' = AuthPage.password st
        /\ AuthPage.fullName st' = AuthPage.fullName st).
Proof.
  intros signIn signUp st st' signed_up. subst st' signed_up.
  unfold AuthPage.handleSubmit.
  assert (Hblank : JS.falsy (JS.trim (AuthPage.fullName st))
                   = JS.blank (AuthPage.fullName st)).
  { pose proof (trim_blank (AuthPage.fullName st)) as H.
    destruct (JS.falsy (JS.trim (AuthPage.fullName st))),
      (JS.blank (AuthPage.fullName st)); try reflexivity.
    - symmetry. now apply H.
    - now apply H. }
  rewrite Hblank.
  destruct (AuthPage.isLogin st) eqn:Hmode.
  - split; [intros (H & _); discriminate H |].
    intros _.
    destruct (signIn (AuthPage.email st) (AuthPage.password st))
      as [[e |] | err]; simpl; repeat split; auto.
  - destruct (JS.blank (AuthPage.fullName st)).
    + split; [intros (_ & H & _); discriminate H |].
      intros _. simpl. repeat split; auto.
    + destruct (signUp (AuthPage.email st) (AuthPage.password st)
                  (AuthPage.fullName st)) as [[e |] | err]; simpl; split;
        try (intros (_ & _ & H); discriminate H);
        try (intros _; repeat split; auto; fail).
      intros H. elim H. repeat split.
Qed.

(** A sign-up that the service refuses keeps what was typed. *)
Lemma auth_submit_keeps_fields_unless_signed_up_witness :
  let signUp :=
    fun _ _ _ : string =>
      AuthPage.Resolved (Some (AuthPage.mkAuthError "User already registered"))
  in
  let signIn := fun _ _ : string => AuthPage.Resolved None in
  let st :=
    AuthPage.mkState false "thandi@example.com" "secret1" "Thandi M" false
      "" "" in
  AuthPage.email (AuthPage.state (AuthPage.handleSubmit signIn signUp st))
  = "thandi@example.com".
Proof.
  intros signUp signIn st.
  refine (proj1 (proj2 (proj2 (proj2 (auth_submit_keeps_fields_unless_signed_up
                                signIn signUp st) _)))).
  intros (_ & _ & H). discriminate H.
Defined.

(** X29.  "Use Current Location" in the report form.  When the browser
    gives a position, [handleGetCurrentLocation] changes the two coordinate
    texts and nothing else; both texts are ones the number inputs accept,
    and [parseFloat] reads from them the coordinates of the device, so the
    payload carries exactly these.  With a type and a description filled
    in, [handleSubmit] then sends the insert of that payload.  When no
    position is given, the payload and the guard are as before: only the
    error message can change. *)
Theorem current_location_is_what_is_reported :
  forall (srv : Supabase.Server) (userId : string) (onSuccess : bool)
         (clock : string) (latitude longitude : JS.decimal_repr)
         (st : IncidentReportForm.State) (d : Supabase.Db),
    let st' :=
      IncidentReportForm.handleGetCurrentLocation
        (HTML.position latitude longitude) st in
    let p := IncidentReportForm.payload userId st' in
    (IncidentReportForm.type st' = IncidentReportForm.type st
     /\ IncidentReportForm.description st'
        = IncidentReportForm.description st
     /\ IncidentReportForm.severity st' = IncidentReportForm.severity st
     /\ IncidentReportForm.locationAddress st'
        = IncidentReportForm.locationAddress st
     /\ IncidentReportForm.incidentDate st'
        = IncidentReportForm.incidentDate st
     /\ IncidentReportForm.loading st' = IncidentReportForm.loading st
     /\ IncidentReportForm.error st' = IncidentReportForm.error st)
    /\ HTML.number_required_ok (IncidentReportForm.locationLat st') = true
    /\ HTML.number_required_ok (IncidentReportForm.locationLng st') = true
    /\ Supabase.NewIncident.location_lat p = JS.to_number latitude
    /\ Supabase.NewIncident.location_lng p = JS.to_number longitude
    /\ (JS.falsy (IncidentReportForm.type st) = false ->
        JS.falsy (IncidentReportForm.description st) = false ->
        Supabase.received
          (IncidentReportForm.db
             (IncidentReportForm.handleSubmit srv userId onSuccess clock
                st' d))
        = Supabase.received d ++ [Supabase.InsertIncident p])
    /\ (forall geo : HTML.Geolocation,
           (forall la lo, geo <> HTML.position la lo) ->
           IncidentReportForm.payload userId
             (IncidentReportForm.handleGetCurrentLocation geo st)
           = IncidentReportForm.payload userId st
           /\ IncidentReportForm.missing_required
                (IncidentReportForm.handleGetCurrentLocation geo st)
              = IncidentReportForm.missing_required st).
Proof.
  intros srv userId onSuccess clock latitude longitude st d st' p.
  destruct (Number_toString_valid latitude) as [Hlat Vlat].
  destruct (Number_toString_valid longitude) as [Hlng Vlng].
  split; [repeat split |].
  split; [exact Vlat |]. split; [exact Vlng |].
  split; [apply parseFloat_Number_toString |].
  split; [apply parseFloat_Number_toString |].
  split.
  - intros Htype Hdesc.
    rewrite handleSubmit_sends.
    + apply send_received.
    + unfold IncidentReportForm.missing_required. subst st'.
      cbn [IncidentReportForm.handleGetCurrentLocation
             IncidentReportForm.setLocationLng
             IncidentReportForm.setLocationLat
             IncidentReportForm.type IncidentReportForm.description
             IncidentReportForm.locationLat IncidentReportForm.locationLng].
      rewrite Htype, Hdesc, Hlat, Hlng. reflexivity.
  - intros geo Hgeo.
    destruct geo as [| la lo | |]; try (split; reflexivity).
    elim (Hgeo la lo). reflexivity.
Qed.

Lemma current_location_is_what_is_reported_witness :
  let st :=
    IncidentReportForm.handleGetCurrentLocation Fixtures.here
      (Fixtures.report "" "" "2026-11-01T09:30") in
  IncidentReportForm.locationLat st = "-26.2041"
  /\ Supabase.received
       (IncidentReportForm.db
          (IncidentReportForm.handleSubmit Fixtures.accepting "user-1" true
             "2026-11-02T10:00" st Fixtures.empty_db))
     = [Supabase.InsertIncident (IncidentReportForm.payload "user-1" st)].
Proof.
  intros st. split; [reflexivity |].
  exact (proj1 (proj2 (proj2 (proj2 (proj2 (proj2
           (current_location_is_what_is_reported Fixtures.accepting
              "user-1" true "2026-11-02T10:00"
              (JS.mkDecimal true 262041 (-4) eq_refl)
              (JS.mkDecimal false 280473 (-4) eq_refl)
              (Fixtures.report "" "" "2026-11-01T09:30")
              Fixtures.empty_db)))))) eq_refl eq_refl).
Defined.

(** X30.  "Use Current Location" in the create-group form.  When the
    browser gives a position, [getCurrentLocation] puts into the form two
    coordinate texts that the number inputs accept and from which
    [handleCreateGroup] sends, as its first request, a group with the
    coordinates of the device.  The name, the description and the radius of
    that form are those of the moment of the click: what was typed between
    the click and the answer of the browser is overwritten.  The list of
    groups and the visibility of the form are not touched, and when no
    position is given nothing changes at all, not even a message. *)
Theorem group_location_is_the_devices :
  forall (srv : Supabase.Server) (userId : string)
         (latitude longitude : JS.decimal_repr)
         (clicked : NeighbourhoodWatch.FormData)
         (st : NeighbourhoodWatch.State) (d : Supabase.Db),
    let st' :=
      NeighbourhoodWatch.getCurrentLocation
        (HTML.position latitude longitude) clicked st in
    let g :=
      NeighbourhoodWatch.group_payload userId
        (NeighbourhoodWatch.formData st') in
    HTML.number_required_ok
      (NeighbourhoodWatch.location_lat (NeighbourhoodWatch.formData st'))
    = true
    /\ HTML.number_required_ok
         (NeighbourhoodWatch.location_lng (NeighbourhoodWatch.formData st'))
       = true
    /\ g = Supabase.NewGroup.mk (NeighbourhoodWatch.name clicked)
             (NeighbourhoodWatch.description clicked)
             (JS.to_number latitude) (JS.to_number longitude)
             (NeighbourhoodWatch.coverage_radius_meters clicked) userId
    /\ (exists rest,
           Supabase.received
             (snd (NeighbourhoodWatch.handleCreateGroup srv userId st' d))
           = Supabase.received d ++ Supabase.InsertGroup g :: rest)
    /\ NeighbourhoodWatch.groups st' = NeighbourhoodWatch.groups st
    /\ NeighbourhoodWatch.loading st' = NeighbourhoodWatch.loading st
    /\ NeighbourhoodWatch.showCreateForm st'
       = NeighbourhoodWatch.showCreateForm st
    /\ (forall geo : HTML.Geolocation,
           (forall la lo, geo <> HTML.position la lo) ->
           NeighbourhoodWatch.getCurrentLocation geo clicked st = st).
Proof.
  intros srv userId latitude longitude clicked st d st' g.
  destruct (Number_toString_valid latitude) as [_ Vlat].
  destruct (Number_toString_valid longitude) as [_ Vlng].
  split; [exact Vlat |]. split; [exact Vlng |].
  split.
  { subst g st'. unfold NeighbourhoodWatch.group_payload.
    cbn [NeighbourhoodWatch.getCurrentLocation NeighbourhoodWatch.formData
           NeighbourhoodWatch.name NeighbourhoodWatch.description
           NeighbourhoodWatch.location_lat NeighbourhoodWatch.location_lng
           NeighbourhoodWatch.coverage_radius_meters].
    rewrite !parseFloat_Number_toString. reflexivity. }
  split.
  { unfold NeighbourhoodWatch.handleCreateGroup. fold g.
    pose proof (send_received srv (Supabase.InsertGroup g) d) as H1.
    destruct (Supabase.send srv (Supabase.InsertGroup g) d)
      as [d1 [e1 |]] eqn:E1; cbn [fst snd] in *.
    - exists []. exact H1.
    - set (q := Supabase.InsertGroupMember _).
      pose proof (send_received srv q d1) as H2.
      destruct (Supabase.send srv q d1) as [d2 [e2 |]];
        cbn [fst snd] in *; exists [q]; rewrite H2, H1;
        rewrite <- app_assoc; reflexivity. }
  split; [reflexivity |]. split; [reflexivity |]. split; [reflexivity |].
  intros geo Hgeo.
  destruct geo as [| la lo | |]; try reflexivity.
  elim (Hgeo la lo). reflexivity.
Qed.

Lemma group_location_is_the_devices_witness :
  NeighbourhoodWatch.getCurrentLocation HTML.position_error
    NeighbourhoodWatch.empty_form Fixtures.watch_form
  = Fixtures.watch_form.
Proof.
  refine (proj2 (proj2 (proj2 (proj2 (proj2 (proj2 (proj2
            (group_location_is_the_devices Fixtures.accepting "user-1"
               (JS.mkDecimal true 262041 (-4) eq_refl)
               (JS.mkDecimal false 280473 (-4) eq_refl)
               NeighbourhoodWatch.empty_form Fixtures.watch_form
               Fixtures.empty_db)))))))
            HTML.position_error _).
  intros la lo. discriminate.
Defined.
